(** * Savannah e-commerce analytics: the extract / transform / load scripts

    A shallow embedding of the pipeline scripts

    - [scripts/extract/api-data-extraction.py]   (paginated fetch, raw writer)
    - [scripts/transform/json-tocsv-conversion.py] (flatteners, audit columns)
    - [scripts/load/*-bq-loader.py]               (cleaning before the load)

    Python objects are modelled by the inductive type [value]; a [dict] is an
    association list that keeps insertion order, with at most one binding per
    key in every dict the code builds.  Exceptions are an error type and code
    that may raise runs in the [result] monad.  Library calls whose
    behaviour is fixed outside the repository ([json], [hashlib], [str] of a
    float, [pandas]' numeric parser) are the fields of a record [PyLib] that
    the model takes as a parameter. *)

From Stdlib Require Import ZArith List String Ascii Bool Lia Floats DecimalString.
From Stdlib Require DecimalFacts DecimalPos DecimalN DecimalZ.
Import ListNotations.
Local Open Scope string_scope.
Local Open Scope Z_scope.

(** ** Exceptions and the error monad *)

(** [JSONDecodeError] and [UnicodeEncodeError] are subclasses of
    [ValueError]; no handler of the scripts names [ValueError], so the three
    are kept apart. *)
Inductive exn : Type :=
| AttributeError
| TypeError
| ValueError
| KeyError (key : string)
| JSONDecodeError
| RecursionError
| UnicodeEncodeError.

Inductive result (A : Type) : Type :=
| Ok (a : A)
| Raise (e : exn).

Arguments Ok {A} a.
Arguments Raise {A} e.

Definition bind {A B : Type} (c : result A) (k : A -> result B) : result B :=
  match c with
  | Ok a => k a
  | Raise e => Raise e
  end.

Notation "x <- c ;; k" := (bind c (fun x => k))
  (at level 61, c at next level, right associativity).

(** [for x in l: out.append(f(x))], stopping at the first exception. *)
Fixpoint for_each {A B : Type} (f : A -> result B) (l : list A) : result (list B) :=
  match l with
  | [] => Ok []
  | x :: rest =>
      y <- f x ;;
      ys <- for_each f rest ;;
      Ok (y :: ys)
  end.

(** ** Python values *)

#[warnings="-register-all"]
Inductive value : Type :=
| VNone
| VBool (b : bool)
| VInt (n : Z)
| VFloat (f : float)
| VStr (s : string)
| VList (l : list value)
| VDict (d : list (string * value)).

Definition dict : Type := list (string * value).

(** [float('nan')], the marker pandas uses for a missing cell. *)
Definition NaN : value := VFloat PrimFloat.nan.

(** *** dict operations *)

(** [d.get(k)] as an option: the binding of [k] when there is one. *)
Fixpoint dict_get (d : dict) (k : string) : option value :=
  match d with
  | [] => None
  | (k', v) :: rest => if String.eqb k k' then Some v else dict_get rest k
  end.

(** [d.get(k, default)]. *)
Definition dict_get_default (d : dict) (k : string) (default : value) : value :=
  match dict_get d k with
  | Some v => v
  | None => default
  end.

(** [d[k] = v]: an existing key keeps its position, a new key goes last. *)
Fixpoint dict_set (d : dict) (k : string) (v : value) : dict :=
  match d with
  | [] => [(k, v)]
  | (k', v') :: rest =>
      if String.eqb k k' then (k', v) :: rest else (k', v') :: dict_set rest k v
  end.

(** [d.update(other)]. *)
Definition dict_update (d other : dict) : dict :=
  fold_left (fun acc kv => dict_set acc (fst kv) (snd kv)) other d.

Definition dict_keys (d : dict) : list string := map fst d.

(** The invariant of a Python dict: one binding per key. *)
Definition dict_wf (d : dict) : Prop := NoDup (dict_keys d).

(** *** Attribute access on arbitrary objects *)

(** [x.get(k, default)]: only a dict has the method. *)
Definition method_get (x : value) (k : string) (default : value) : result value :=
  match x with
  | VDict d => Ok (dict_get_default d k default)
  | _ => Raise AttributeError
  end.

(** [x.items()]. *)
Definition method_items (x : value) : result (list (string * value)) :=
  match x with
  | VDict d => Ok d
  | _ => Raise AttributeError
  end.

(** Strings are kept as their UTF-8 bytes; a character starts at every byte
    that is not a continuation byte [10xxxxxx]. *)
Definition is_continuation (c : ascii) : bool :=
  let n := N_of_ascii c in (128 <=? n)%N && (n <? 192)%N.

Fixpoint take_continuation (s : string) : string * string :=
  match s with
  | EmptyString => (EmptyString, EmptyString)
  | String c rest =>
      if is_continuation c then
        let (h, t) := take_continuation rest in (String c h, t)
      else (EmptyString, s)
  end.

Fixpoint py_chars_fuel (fuel : nat) (s : string) : list string :=
  match fuel, s with
  | O, _ => []
  | _, EmptyString => []
  | S fuel', String c rest =>
      let (h, t) := take_continuation rest in
      String c h :: py_chars_fuel fuel' t
  end.

Definition py_chars (s : string) : list string := py_chars_fuel (String.length s) s.

(** [iter(x)] for the loops [for item in x] and [list.extend(x)]. *)
Definition py_iter (x : value) : result (list value) :=
  match x with
  | VList l => Ok l
  | VDict d => Ok (map VStr (dict_keys d))
  | VStr s => Ok (map VStr (py_chars s))
  | _ => Raise TypeError
  end.

(** [len(x)]. *)
Definition py_len (x : value) : result Z :=
  match x with
  | VList l => Ok (Z.of_nat (List.length l))
  | VDict d => Ok (Z.of_nat (List.length d))
  | VStr s => Ok (Z.of_nat (List.length (py_chars s)))
  | _ => Raise TypeError
  end.

(** Truth value of an object ([bool(x)], used by [or] and [not]). *)
Definition py_truthy (x : value) : bool :=
  match x with
  | VNone => false
  | VBool b => b
  | VInt n => negb (n =? 0)
  | VFloat f => negb (PrimFloat.eqb f 0%float)
  | VStr s => negb (String.eqb s "")
  | VList l => match l with [] => false | _ => true end
  | VDict d => match d with [] => false | _ => true end
  end.

(** [a or b]. *)
Definition py_or (a b : value) : value := if py_truthy a then a else b.

(** [isinstance(v, (str, int, float, bool))]. *)
Definition is_scalar (v : value) : bool :=
  match v with
  | VStr _ | VInt _ | VFloat _ | VBool _ => true
  | _ => false
  end.

(** The decimal text of an int. *)
Definition str_of_int (n : Z) : string := NilZero.string_of_int (Z.to_int n).

(** The interpreter's limit on the digits of an int it converts from or to
    text. *)
Definition max_str_digits : Z := 4300.

Definition within_str_digits (n : Z) : bool :=
  Z.of_nat (String.length (str_of_int (Z.abs n))) <=? max_str_digits.

(** [str(n)] for an int: a [ValueError] beyond the limit. *)
Definition int_str (n : Z) : result string :=
  if within_str_digits n then Ok (str_of_int n) else Raise ValueError.

(** A surrogate, U+D800 to U+DFFF, is kept as the three bytes ED A0 80 to
    ED BF BF, which no other character starts with. *)
Fixpoint has_surrogate (s : string) : bool :=
  match s with
  | EmptyString => false
  | String c rest =>
      match rest with
      | String c2 _ =>
          ((N_of_ascii c =? 237)%N && (160 <=? N_of_ascii c2)%N) || has_surrogate rest
      | EmptyString => false
      end
  end.

(** [s.encode()]: UTF-8 has no bytes for a surrogate. *)
Definition str_encode (s : string) : result string :=
  if has_surrogate s then Raise UnicodeEncodeError else Ok s.

(** ** Transform: the flatteners ([json-tocsv-conversion.py]) *)

Module Flatten.

(** The cart-level part of every row of a cart. *)
Definition cart_info (cart_data : value) : result dict :=
  cart_id <- method_get cart_data "id" VNone ;;
  user_id <- method_get cart_data "userId" VNone ;;
  total <- method_get cart_data "total" VNone ;;
  discounted_total <- method_get cart_data "discountedTotal" VNone ;;
  total_products <- method_get cart_data "totalProducts" VNone ;;
  total_quantity <- method_get cart_data "totalQuantity" VNone ;;
  Ok [ ("cart_id", cart_id);
       ("user_id", user_id);
       ("total_cart_value", total);
       ("discounted_total_cart_value", discounted_total);
       ("total_products", total_products);
       ("total_quantity", total_quantity) ].

(** The per-item dict handed to [row.update]. *)
Definition item_info (product : value) : result dict :=
  product_id <- method_get product "id" VNone ;;
  title <- method_get product "title" VNone ;;
  price <- method_get product "price" VNone ;;
  quantity <- method_get product "quantity" VNone ;;
  total <- method_get product "total" VNone ;;
  discount_percentage <- method_get product "discountPercentage" VNone ;;
  discounted_total <- method_get product "discountedTotal" VNone ;;
  thumbnail <- method_get product "thumbnail" VNone ;;
  Ok [ ("product_id", product_id);
       ("product_title", title);
       ("product_price", price);
       ("product_quantity", quantity);
       ("product_total", total);
       ("product_discount_percentage", discount_percentage);
       ("product_discounted_total", discounted_total);
       ("product_thumbnail", thumbnail) ].

(** Body of the loop [for product in products]. *)
Definition cart_row (info : dict) (product : value) : result dict :=
  item <- item_info product ;;
  Ok (dict_update info item).

Definition flatten_cart_json (nested_json : dict) : result (list dict) :=
  let cart_data := dict_get_default nested_json "data" (VDict []) in
  info <- cart_info cart_data ;;
  products <- method_get cart_data "products" (VList []) ;;
  items <- py_iter products ;;
  for_each (cart_row info) items.

(** The dict comprehension over the scalar fields. *)
Definition scalar_columns (prefix : string) (items : list (string * value)) : dict :=
  fold_left
    (fun acc kv => if is_scalar (snd kv) then dict_set acc (prefix ++ fst kv) (snd kv) else acc)
    items [].

(** One iteration of the second loop, over nested objects and lists. *)
Definition nested_step (prefix : string) (acc : dict) (kv : string * value) : dict :=
  match snd kv with
  | VDict sub =>
      fold_left
        (fun acc' skv => dict_set acc' (prefix ++ fst kv ++ "_" ++ fst skv) (snd skv))
        sub acc
  | VList l => dict_set acc (prefix ++ fst kv ++ "_count") (VInt (Z.of_nat (List.length l)))
  | _ => acc
  end.

(** Shared body of [flatten_user_json] and [flatten_product_json], which are
    the same text up to the column prefix. *)
Definition flatten_prefixed (prefix : string) (nested_json : dict) : result (list dict) :=
  let data := dict_get_default nested_json "data" (VDict []) in
  items <- method_items data ;;
  Ok [fold_left (nested_step prefix) items (scalar_columns prefix items)].

Definition flatten_user_json (nested_json : dict) : result (list dict) :=
  flatten_prefixed "user_" nested_json.

Definition flatten_product_json (nested_json : dict) : result (list dict) :=
  flatten_prefixed "product_" nested_json.

(** [internal_flatten] of [flatten_general_json]. *)
Fixpoint internal_flatten (separator : string) (x : value) (name : string) : value :=
  match x with
  | VDict d =>
      VDict
        ((fix loop (items : list (string * value)) (flattened : dict) : dict :=
            match items with
            | [] => flattened
            | (key, v) :: rest =>
                let sub_results := internal_flatten separator v (name ++ key ++ separator) in
                loop rest
                  match sub_results with
                  | VDict sub => dict_update flattened sub
                  | _ => dict_set flattened (name ++ key) sub_results
                  end
            end) d [])
  | VList l => VList (map (fun item => internal_flatten separator item name) l)
  | _ => x
  end.

(** On a dict the recursion returns a dict, so the result is [[result]]. *)
Definition flatten_general_json (nested_json : dict) : result (list dict) :=
  match internal_flatten "_" (VDict nested_json) "" with
  | VDict flat => Ok [flat]
  | _ => Raise TypeError
  end.

(** Dispatch on the data type, the general flattener being the default. *)
Definition flatten_json (nested_json : dict) (data_type : string) : result (list dict) :=
  if String.eqb data_type "carts" then flatten_cart_json nested_json
  else if String.eqb data_type "users" then flatten_user_json nested_json
  else if String.eqb data_type "products" then flatten_product_json nested_json
  else flatten_general_json nested_json.

End Flatten.

(** ** Library functions the scripts call

    [json_loads] is [json.loads]: the value it returns, [Raise
    JSONDecodeError] on a text that is no JSON, or the other exception it
    raises ([ValueError] on an integer of more digits than the interpreter
    converts, [RecursionError] on nesting deeper than its stack allows);
    [md5_hexdigest b] is [hashlib.md5(b).hexdigest()] on the bytes [b];
    [float_repr] is [str] on a float; [container_repr] is [str] on a list or
    dict, which raises when an element cannot be written; [parse_numeric] is
    the parser behind [pd.to_numeric]: [None] where the text is no number,
    else the float it reads and, when the text is an integer numeral, that
    integer. *)

Record PyLib : Type := {
  json_loads : string -> result value;
  json_dumps : value -> string;
  str_strip : string -> string;
  md5_hexdigest : string -> string;
  float_repr : float -> string;
  container_repr : value -> result string;
  parse_numeric : string -> option (float * option Z)
}.

(** [str(x)], also what an f-string puts for [{x}]. *)
Definition py_str (L : PyLib) (x : value) : result string :=
  match x with
  | VNone => Ok "None"
  | VBool true => Ok "True"
  | VBool false => Ok "False"
  | VInt n => int_str n
  | VFloat f => Ok (float_repr L f)
  | VStr s => Ok s
  | VList _ | VDict _ => container_repr L x
  end.

(** ** pandas frames

    A frame keeps its column labels and, per row, a dict from label to cell;
    every row has exactly the frame's labels. *)

Record DataFrame : Type := {
  columns : list string;
  records : list dict
}.

Module Pandas.

Definition has_column (cols : list string) (c : string) : bool :=
  existsb (String.eqb c) cols.

Definition add_label (cols : list string) (c : string) : list string :=
  if has_column cols c then cols else cols ++ [c].

(** Labels of [pd.DataFrame(list_of_dicts)]: keys in order of first use. *)
Definition union_columns (data : list dict) : list string :=
  fold_left (fun cols row => fold_left add_label (dict_keys row) cols) data [].

(** A row on the frame's labels, [NaN] where the dict has no such key. *)
Definition reindex (cols : list string) (row : dict) : dict :=
  map (fun c => (c, dict_get_default row c NaN)) cols.

Definition float_of_Z (n : Z) : float :=
  SF2Prim (SpecFloat.binary_normalize prec emax n 0 false).

Definition is_null (v : value) : bool :=
  match v with
  | VNone => true
  | VFloat f => PrimFloat.is_nan f
  | _ => false
  end.

Definition in_64_bit_range (n : Z) : bool :=
  (- 2 ^ 63 <=? n) && (n <=? 2 ^ 64 - 1).

(** The column holds only None, floats and ints a 64-bit column can take. *)
Definition all_numeric (vs : list value) : bool :=
  forallb (fun v => match v with
                    | VNone | VFloat _ => true
                    | VInt n => in_64_bit_range n
                    | _ => false
                    end) vs.

Definition is_float (v : value) : bool :=
  match v with VFloat _ => true | _ => false end.

Definition is_int (v : value) : bool :=
  match v with VInt _ => true | _ => false end.

Definition is_none (v : value) : bool :=
  match v with VNone => true | _ => false end.

(** Type inference of a column of Python objects: it becomes [float64] when
    it is numeric and holds a float (a missing cell is one), or an int next
    to None; an all-int or all-bool column and every mixed column keep their
    objects. *)
Definition becomes_float64 (vs : list value) : bool :=
  all_numeric vs && (existsb is_float vs || (existsb is_none vs && existsb is_int vs)).

Definition to_float64 (v : value) : value :=
  match v with
  | VInt n => VFloat (float_of_Z n)
  | VNone => NaN
  | _ => v
  end.

Definition column_values (rows : list dict) (c : string) : list value :=
  map (fun r => dict_get_default r c NaN) rows.

Definition infer_column (rows : list dict) (c : string) : list dict :=
  if becomes_float64 (column_values rows c)
  then map (fun r => dict_set r c (to_float64 (dict_get_default r c NaN))) rows
  else rows.

(** [pd.DataFrame(data)] for a list of dicts. *)
Definition of_records (data : list dict) : DataFrame :=
  let cols := union_columns data in
  {| columns := cols;
     records := fold_left infer_column cols (map (reindex cols) data) |}.

(** [df[c]]. *)
Definition getitem (df : DataFrame) (c : string) : result (list value) :=
  if has_column (columns df) c then Ok (column_values (records df) c)
  else Raise (KeyError c).

(** [df[c] = v] for a scalar [v]. *)
Definition setitem_scalar (df : DataFrame) (c : string) (v : value) : DataFrame :=
  {| columns := add_label (columns df) c;
     records := map (fun r => dict_set r c v) (records df) |}.

(** [df[c] = series], the series having one value per row. *)
Definition setitem_column (df : DataFrame) (c : string) (vs : list value) : DataFrame :=
  {| columns := add_label (columns df) c;
     records := map (fun rv => dict_set (fst rv) c (snd rv)) (combine (records df) vs) |}.

(** [df[cols]]: all the labels must exist. *)
Fixpoint check_columns (have : list string) (want : list string) : result unit :=
  match want with
  | [] => Ok tt
  | c :: rest => if has_column have c then check_columns have rest else Raise (KeyError c)
  end.

Definition select (df : DataFrame) (cols : list string) : result DataFrame :=
  _ <- check_columns (columns df) cols ;;
  Ok {| columns := cols; records := map (reindex cols) (records df) |}.

(** [df.columns = names], the two lists having the same length. *)
Definition rename_columns (df : DataFrame) (names : list string) : DataFrame :=
  {| columns := names;
     records := map (fun r => combine names (map snd r)) (records df) |}.

(** What [pd.to_numeric(..., errors='coerce')] sees in one cell: an int
    with its float value, a float, a bool, or a null.  None, an empty text
    or container, a text that is no number and any other object are
    nulls. *)
Inductive numeric_cell : Type :=
| IntCell (n : Z) (f : float)
| FloatCell (f : float)
| BoolCell (b : bool)
| NullCell.

Definition read_numeric (L : PyLib) (v : value) : numeric_cell :=
  match v with
  | VInt n => IntCell n (float_of_Z n)
  | VFloat f => FloatCell f
  | VBool b => BoolCell b
  | VStr s =>
      if String.eqb s "" then NullCell
      else match parse_numeric L s with
           | Some (f, Some n) => IntCell n f
           | Some (f, None) => FloatCell f
           | None => NullCell
           end
  | VNone | VList _ | VDict _ => NullCell
  end.

Definition int64_min : Z := - 2 ^ 63.
Definition int64_max : Z := 2 ^ 63 - 1.
Definition uint64_max : Z := 2 ^ 64 - 1.

(** [int(f)] when the float [f] is a whole number. *)
Definition whole_float (f : float) : option Z :=
  match Prim2SF f with
  | SpecFloat.S754_zero _ => Some 0
  | SpecFloat.S754_finite negative m e =>
      let v := if negative then Z.neg m else Z.pos m in
      if 0 <=? e then Some (v * 2 ^ e)
      else if Z.pos m mod 2 ^ (- e) =? 0 then Some (v / 2 ^ (- e))
      else None
  | _ => None
  end.

(** The fast path taken when the first cell is an int object: the cell as
    an [int64] equal to it, when there is one. *)
Definition as_int64 (v : value) : option Z :=
  match v with
  | VInt n => if (int64_min <=? n) && (n <=? int64_max) then Some n else None
  | VBool b => Some (if b then 1 else 0)
  | VFloat f =>
      match whole_float f with
      | Some n => if (int64_min <=? n) && (n <=? int64_max) then Some n else None
      | None => None
      end
  | _ => None
  end.

Fixpoint all_int64 (vs : list value) : option (list Z) :=
  match vs with
  | [] => Some []
  | v :: rest =>
      match as_int64 v, all_int64 rest with
      | Some n, Some ns => Some (n :: ns)
      | _, _ => None
      end
  end.

(** The column becomes [float64] when it holds a float or a null, an int
    outside the 64-bit ranges, or a negative int next to one above the
    signed range. *)
Definition sees_float (cells : list numeric_cell) : bool :=
  existsb (fun c => match c with
                    | FloatCell _ | NullCell => true
                    | IntCell n _ => (n <? int64_min) || (uint64_max <? n)
                    | BoolCell _ => false
                    end) cells ||
  (existsb (fun c => match c with IntCell n _ => n <? 0 | _ => false end) cells &&
   existsb (fun c => match c with IntCell n _ => int64_max <? n | _ => false end) cells).

Definition sees_int (cells : list numeric_cell) : bool :=
  existsb (fun c => match c with IntCell _ _ => true | _ => false end) cells.

Definition float_of_cell (c : numeric_cell) : value :=
  match c with
  | IntCell _ f | FloatCell f => VFloat f
  | BoolCell b => VFloat (if b then 1%float else 0%float)
  | NullCell => NaN
  end.

Definition int_of_cell (c : numeric_cell) : value :=
  match c with
  | IntCell n _ => VInt n
  | BoolCell b => VInt (if b then 1 else 0)
  | FloatCell f => VFloat f
  | NullCell => NaN
  end.

(** [pd.to_numeric(series, errors='coerce')] on the cells of a column. *)
Definition to_numeric (L : PyLib) (vs : list value) : list value :=
  let fast :=
    match vs with
    | VInt _ :: _ => all_int64 vs
    | _ => None
    end in
  match fast with
  | Some ns => map VInt ns
  | None =>
      let cells := map (read_numeric L) vs in
      if sees_float cells then map float_of_cell cells
      else if sees_int cells then map int_of_cell cells
      else vs
  end.

(** [df[c] = pd.to_numeric(df[c], errors='coerce')]. *)
Definition to_numeric_column (L : PyLib) (df : DataFrame) (c : string) : result DataFrame :=
  vs <- getitem df c ;;
  Ok (setitem_column df c (to_numeric L vs)).

(** A cell of a numeric column compared with an int, [cell > bound]. *)
Definition cell_gt (v : value) (bound : Z) : bool :=
  match v with
  | VInt n => bound <? n
  | VFloat f => PrimFloat.ltb (float_of_Z bound) f
  | VBool b => bound <? (if b then 1 else 0)
  | _ => false
  end.

(** [df[df[c] > bound]]. *)
Definition filter_gt (df : DataFrame) (c : string) (bound : Z) : result DataFrame :=
  _ <- getitem df c ;;
  Ok {| columns := columns df;
        records := filter (fun r => cell_gt (dict_get_default r c NaN) bound) (records df) |}.

(** [df.dropna(subset=cols)]: keep the rows with no null in [cols]. *)
Definition dropna (df : DataFrame) (subset : list string) : result DataFrame :=
  _ <- check_columns (columns df) subset ;;
  Ok {| columns := columns df;
        records := filter (fun r => forallb (fun c => negb (is_null (dict_get_default r c NaN))) subset)
                          (records df) |}.

End Pandas.

(** ** Text methods of the path handling and the object store *)

Module Str.

(** What is left of [s] after [prefix], when [s] starts with it. *)
Fixpoint strip_prefix (prefix s : string) : option string :=
  match prefix, s with
  | EmptyString, _ => Some s
  | String a prefix', String b s' =>
      if Ascii.eqb a b then strip_prefix prefix' s' else None
  | String _ _, EmptyString => None
  end.

(** [s.startswith(prefix)]. *)
Definition startswith (s prefix : string) : bool :=
  match strip_prefix prefix s with
  | Some _ => true
  | None => false
  end.

(** [s[n:]], counted in characters. *)
Definition slice_from (n : nat) (s : string) : string :=
  String.concat "" (skipn n (py_chars s)).

(** [s.replace(old, new)] for a non-empty [old]: the occurrences are taken
    from the left and do not overlap. *)
Fixpoint replace_fuel (fuel : nat) (s old new : string) : string :=
  match fuel with
  | O => s
  | S fuel' =>
      match strip_prefix old s with
      | Some rest => new ++ replace_fuel fuel' rest old new
      | None =>
          match s with
          | EmptyString => EmptyString
          | String c rest => String c (replace_fuel fuel' rest old new)
          end
      end
  end.

Definition replace (s old new : string) : string :=
  replace_fuel (String.length s) s old new.

(** [s.split(sep, 1)] for a separator of one character. *)
Fixpoint split_once (s : string) (sep : ascii) : list string :=
  match s with
  | EmptyString => [EmptyString]
  | String c rest =>
      if Ascii.eqb c sep then [EmptyString; rest]
      else match split_once rest sep with
           | [] => []
           | first :: others => String c first :: others
           end
  end.

Definition byte (n : nat) : ascii := ascii_of_nat n.

(** The line boundaries of one byte: line feed, carriage return, vertical
    tab, form feed and the file, group and record separators. *)
Definition is_break (c : ascii) : bool :=
  Ascii.eqb c (byte 10) || Ascii.eqb c (byte 13) || Ascii.eqb c (byte 11) ||
  Ascii.eqb c (byte 12) || Ascii.eqb c (byte 28) || Ascii.eqb c (byte 29) ||
  Ascii.eqb c (byte 30).

(** [s.splitlines()].  Besides the boundaries of one byte there are the
    pair carriage return, line feed, which is one boundary, and three
    boundaries that take several bytes in UTF-8: next line (C2 85), line
    separator (E2 80 A8) and paragraph separator (E2 80 A9). *)
Fixpoint splitlines (s : string) : list string :=
  match s with
  | EmptyString => []
  | String c rest =>
      let keep :=
        match splitlines rest with
        | [] => [String c EmptyString]
        | line :: lines => String c line :: lines
        end in
      if is_break c then
        match rest with
        | String c2 rest2 =>
            if Ascii.eqb c (byte 13) && Ascii.eqb c2 (byte 10)
            then EmptyString :: splitlines rest2
            else EmptyString :: splitlines rest
        | EmptyString => [EmptyString]
        end
      else
        match rest with
        | String c2 rest2 =>
            if Ascii.eqb c (byte 194) && Ascii.eqb c2 (byte 133)
            then EmptyString :: splitlines rest2
            else
              match rest2 with
              | String c3 rest3 =>
                  if Ascii.eqb c (byte 226) && Ascii.eqb c2 (byte 128) &&
                     (Ascii.eqb c3 (byte 168) || Ascii.eqb c3 (byte 169))
                  then EmptyString :: splitlines rest3
                  else keep
              | EmptyString => keep
              end
        | EmptyString => keep
        end
  end.

End Str.

Module Gcs.

(** The object store: the text of a blob, by bucket name and blob name;
    [None] where [download_as_text] raises [NotFound]. *)
Definition store : Type := string -> string -> option string.

Definition download_as_text (st : store) (bucket_name blob_name : string) : option string :=
  st bucket_name blob_name.

Definition upload_from_string (st : store) (bucket_name blob_name content : string) : store :=
  fun b n =>
    if String.eqb b bucket_name && String.eqb n blob_name then Some content
    else st b n.

End Gcs.

(** ** Transform: audit columns and the conversion run *)

Module Transform.

Import Flatten.

Section WithLib.

Variable L : PyLib.

(** The lambda of the products and users branches: [str(x)], its
    encoding, the digest. *)
Definition key_of_id (x : value) : result value :=
  text <- py_str L x ;;
  data <- str_encode text ;;
  Ok (VStr (md5_hexdigest L data)).

(** The lambda of the carts branch, applied to one row: [row['user_id']]
    needs the column, [row.get] falls back on the empty string; the
    f-string formats the three cells from left to right. *)
Definition key_of_cart_row (row : dict) : result value :=
  match dict_get row "user_id" with
  | None => Raise (KeyError "user_id")
  | Some user_id =>
      user_text <- py_str L user_id ;;
      product_text <- py_str L (dict_get_default row "product_id" (VStr "")) ;;
      cart_text <- py_str L (dict_get_default row "cart_id" (VStr "")) ;;
      data <- str_encode (user_text ++ product_text ++ cart_text) ;;
      Ok (VStr (md5_hexdigest L data))
  end.

(** [current_time] is the value of [datetime.utcnow().isoformat()] read at
    the start of the call.  With no row at all the row-wise [apply] of the
    carts branch hands back a frame instead of a column, and storing it in
    one column is refused. *)
Definition add_audit_columns (current_time : string) (df : DataFrame) (data_type : string)
  : result DataFrame :=
  let source_system := "PUBLIC_DUMMYJSON_API" in
  let df := Pandas.setitem_scalar df "record_create_name" (VStr "Daniel Oselu") in
  let df := Pandas.setitem_scalar df "record_create_datetime" (VStr current_time) in
  let df := Pandas.setitem_scalar df "record_update_name" (VStr "Daniel Oselu") in
  let df := Pandas.setitem_scalar df "record_update_datetime" (VStr current_time) in
  let df := Pandas.setitem_scalar df "source_system_code" (VStr source_system) in
  if String.eqb data_type "products" then
    ids <- Pandas.getitem df "product_id" ;;
    keys <- for_each key_of_id ids ;;
    Ok (Pandas.setitem_column df "sgk_product_id" keys)
  else if String.eqb data_type "users" then
    ids <- Pandas.getitem df "user_id" ;;
    keys <- for_each key_of_id ids ;;
    Ok (Pandas.setitem_column df "sgk_user_id" keys)
  else if String.eqb data_type "carts" then
    match records df with
    | [] => Raise ValueError
    | rows =>
        keys <- for_each key_of_cart_row rows ;;
        Ok (Pandas.setitem_column df "sgk_cart_id" keys)
    end
  else Ok df.

(** The inner loop that copies the envelope's metadata into one entry. *)
Definition add_metadata (json_data : dict) (entry : dict) : result dict :=
  let metadata := dict_get_default json_data "metadata" (VDict []) in
  items <- method_items metadata ;;
  Ok (fold_left (fun e kv => dict_set e ("metadata_" ++ fst kv) (snd kv)) items entry).

(** What one line adds to [flattened_data].  A line on which [json.loads]
    raises [JSONDecodeError], or whose [data] is no dict, adds nothing; any
    other exception, of [json.loads] too, leaves the loop. *)
Definition process_line (data_type : string) (line : string) : result (list dict) :=
  match json_loads L (str_strip L line) with
  | Raise JSONDecodeError => Ok []
  | Raise e => Raise e
  | Ok json_data =>
      data <- method_get json_data "data" VNone ;;
      match data, json_data with
      | VDict _, VDict envelope =>
          flattened_entries <- flatten_json envelope data_type ;;
          for_each (add_metadata envelope) flattened_entries
      | _, _ => Ok []
      end
  end.

(** The loop over the lines of the source blob. *)
Fixpoint read_loop (data_type : string) (lines : list string) (flattened_data : list dict)
  : result (list dict) :=
  match lines with
  | [] => Ok flattened_data
  | line :: rest =>
      entries <- process_line data_type line ;;
      read_loop data_type rest (flattened_data ++ entries)
  end.

(** [lines] is what [read_from_gcs] returned; the result is the frame handed
    to [write_to_gcs]. *)
Definition convert_json_to_csv (lines : list string) (current_time : string) (data_type : string)
  : result DataFrame :=
  flattened_data <- read_loop data_type lines [] ;;
  add_audit_columns current_time (Pandas.of_records flattened_data) data_type.

End WithLib.

(** Outcome of [read_from_gcs]: the lines of the blob, the [ValueError] of
    the unpacking when the path has no slash left, or the [NotFound] of the
    download. *)
Inductive gcs_read : Type :=
| Lines (lines : list string)
| UnpackError
| NotFound.

Definition read_from_gcs (st : Gcs.store) (gcs_path : string) : gcs_read :=
  match Str.split_once (Str.replace gcs_path "gs://" "") "/" with
  | [bucket_name; file_path] =>
      match Gcs.download_as_text st bucket_name file_path with
      | Some content => Lines (Str.splitlines content)
      | None => NotFound
      end
  | _ => UnpackError
  end.

(** The path [convert_json_to_csv] hands to [read_from_gcs]. *)
Definition full_gcs_path (bucket_name source_blob_name : string) : string :=
  "gs://" ++ bucket_name ++ "/" ++ source_blob_name.

End Transform.

(** ** Extract: paginated fetch and raw writer ([api-data-extraction.py]) *)

Module Extract.

(** Outcome of [requests.get(url)] followed by [raise_for_status()] and
    [json()]: a [requests.RequestException], or the decoded body. *)
Inductive response : Type :=
| RequestException
| Body (data : value).

(** The remote side: the answer to the [n]-th request of the call. *)
Definition server : Type := nat -> string -> response.

Definition page_url (base_url : string) (limit skip : Z) : string :=
  base_url ++ "?limit=" ++ str_of_int limit ++ "&skip=" ++ str_of_int skip.

(** [data.get('products') or data.get('users') or data.get('carts') or []]. *)
Definition page_items (data : value) : result value :=
  products <- method_get data "products" VNone ;;
  users <- method_get data "users" VNone ;;
  carts <- method_get data "carts" VNone ;;
  Ok (py_or products (py_or users (py_or carts (VList [])))).

(** [n >= f] for an int and a float, compared exactly. *)
Definition int_ge_float (n : Z) (f : float) : bool :=
  match Prim2SF f with
  | SpecFloat.S754_zero _ => 0 <=? n
  | SpecFloat.S754_infinity negative => negative
  | SpecFloat.S754_nan => false
  | SpecFloat.S754_finite negative m e =>
      let v := if negative then Z.neg m else Z.pos m in
      if 0 <=? e then v * 2 ^ e <=? n else v <=? n * 2 ^ (- e)
  end.

(** [total_fetched >= total]. *)
Definition int_ge (n : Z) (total : value) : result bool :=
  match total with
  | VInt t => Ok (t <=? n)
  | VBool b => Ok ((if b then 1 else 0) <=? n)
  | VFloat f => Ok (int_ge_float n f)
  | _ => Raise TypeError
  end.

(** What one pass of the [while True] body does with the loop variables. *)
Inductive pass : Type :=
| Stop (all_items : list value)
| Next (all_items : list value) (total_fetched : Z).

Definition fetch_pass (r : response) (all_items : list value) (total_fetched : Z) : result pass :=
  match r with
  | RequestException => Ok (Stop all_items)
  | Body data =>
      items <- page_items data ;;
      if negb (py_truthy items) then Ok (Stop all_items)
      else
        extension <- py_iter items ;;
        n <- py_len items ;;
        total <- method_get data "total" (VInt 0) ;;
        reached <- int_ge (total_fetched + n) total ;;
        if reached then Ok (Stop (all_items ++ extension))
        else Ok (Next (all_items ++ extension) (total_fetched + n))
  end.

(** The [while True] loop; [None] when [fuel] passes were not enough. *)
Fixpoint fetch_loop (fuel : nat) (srv : server) (base_url : string) (limit : Z)
    (request : nat) (skip : Z) (all_items : list value) (total_fetched : Z)
  : option (result (list value)) :=
  match fuel with
  | O => None
  | S fuel' =>
      match fetch_pass (srv request (page_url base_url limit skip)) all_items total_fetched with
      | Raise e => Some (Raise e)
      | Ok (Stop items) => Some (Ok items)
      | Ok (Next items fetched) =>
          fetch_loop fuel' srv base_url limit (S request) (skip + limit) items fetched
      end
  end.

Definition fetch_paginated_data (fuel : nat) (srv : server) (base_url : string) (limit : Z)
  : option (result (list value)) :=
  fetch_loop fuel srv base_url limit O 0 [] 0.

(** The object store: blob name to content. *)
Definition bucket : Type := list (string * string).

Fixpoint put_blob (b : bucket) (name content : string) : bucket :=
  match b with
  | [] => [(name, content)]
  | (name', content') :: rest =>
      if String.eqb name name' then (name, content) :: rest
      else (name', content') :: put_blob rest name content
  end.

Definition newline : string := String (ascii_of_nat 10) EmptyString.

(** [sep.join(parts)]. *)
Fixpoint join (sep : string) (parts : list string) : string :=
  match parts with
  | [] => ""
  | [p] => p
  | p :: rest => p ++ sep ++ join sep rest
  end.

(** The envelope written for one item. *)
Definition envelope (extraction_timestamp : string) (item : value) : value :=
  VDict [ ("metadata", VDict [("extraction_timestamp", VStr extraction_timestamp)]);
          ("data", item) ].

Definition ndjson_content (L : PyLib) (extraction_timestamp : string) (data : list value)
  : list string :=
  map (fun item => json_dumps L (envelope extraction_timestamp item)) data.

(** [extraction_timestamp] is [datetime.now().isoformat()], read once;
    [upload_ok] tells whether the storage client raised.  The result is the
    returned flag and the bucket after the call. *)
Definition save_to_gcs (L : PyLib) (extraction_timestamp : string) (upload_ok : bool)
    (b : bucket) (data : list value) (filename : string) : bool * bucket :=
  let ndjson_string := join newline (ndjson_content L extraction_timestamp data) in
  if upload_ok then (true, put_blob b filename ndjson_string)
  else (false, b).

(** [main]: fetch with the default page size, then write the raw file; the
    flag [save_to_gcs] returns is not looked at.  The result is the bucket
    when [main] returns, and the exception when it does not. *)
Definition main (L : PyLib) (fuel : nat) (srv : server) (extraction_timestamp : string)
    (upload_ok : bool) (b : bucket) (url name : string) : option (result bucket) :=
  match fetch_paginated_data fuel srv url 30 with
  | None => None
  | Some (Raise e) => Some (Raise e)
  | Some (Ok data) =>
      let filename := "raw/" ++ name ++ ".json" in
      Some (Ok (snd (save_to_gcs L extraction_timestamp upload_ok b data filename)))
  end.

End Extract.

(** ** Load: cleaning before the warehouse load ([*-bq-loader.py])

    The argument [df] is the frame [read_gcs_csv] returned. *)

Module Load.

(** The start of each [clean_*_table]: the bucket and the blob named by
    [input_file]. *)
Definition gcs_location (input_file : string) : result (string * string) :=
  if negb (Str.startswith input_file "gs://") then Raise ValueError
  else
    let gcs_path := Str.slice_from 5 input_file in
    match Str.split_once gcs_path "/" with
    | [bucket_name; blob_name] => Ok (bucket_name, blob_name)
    | _ => Raise ValueError
    end.

Definition audit_columns : list string :=
  [ "record_create_name"; "record_create_datetime"; "record_update_name";
    "record_update_datetime"; "source_system_code" ].

Definition clean_products_table (L : PyLib) (df : DataFrame) : result DataFrame :=
  let sgk_columns := ["sgk_product_id"] in
  let business_columns :=
    ["product_id"; "product_title"; "product_category"; "product_brand"; "product_price"] in
  let all_required_columns := (sgk_columns ++ business_columns ++ audit_columns)%list in
  products_table <- Pandas.select df all_required_columns ;;
  let products_table :=
    Pandas.rename_columns products_table
      ([ "sgk_product_id"; "product_id"; "name"; "category"; "brand"; "price" ] ++ audit_columns) in
  products_table <- Pandas.to_numeric_column L products_table "price" ;;
  Pandas.filter_gt products_table "price" 50.

Definition clean_users_table (L : PyLib) (df : DataFrame) : result DataFrame :=
  let sgk_columns := ["sgk_user_id"] in
  let business_columns :=
    [ "user_id"; "user_firstName"; "user_lastName"; "user_gender"; "user_age";
      "user_address_address"; "user_address_city"; "user_address_postalCode" ] in
  let all_required_columns := (sgk_columns ++ business_columns ++ audit_columns)%list in
  users_table <- Pandas.select df all_required_columns ;;
  let users_table :=
    Pandas.rename_columns users_table
      ([ "sgk_user_id"; "user_id"; "first_name"; "last_name"; "gender"; "age";
         "street"; "city"; "postal_code" ] ++ audit_columns) in
  users_table <- Pandas.to_numeric_column L users_table "age" ;;
  Pandas.dropna users_table ["user_id"; "first_name"; "last_name"].

Definition clean_carts_table (L : PyLib) (df : DataFrame) : result DataFrame :=
  let sgk_columns := ["sgk_cart_id"] in
  let business_columns :=
    [ "cart_id"; "user_id"; "product_id"; "product_quantity"; "product_price";
      "total_cart_value" ] in
  let all_required_columns := (sgk_columns ++ business_columns ++ audit_columns)%list in
  carts_table <- Pandas.select df all_required_columns ;;
  let carts_table :=
    Pandas.rename_columns carts_table
      ([ "sgk_cart_id"; "cart_id"; "user_id"; "product_id"; "quantity"; "price";
         "total_cart_value" ] ++ audit_columns) in
  carts_table <- Pandas.to_numeric_column L carts_table "quantity" ;;
  carts_table <- Pandas.to_numeric_column L carts_table "price" ;;
  Pandas.dropna carts_table ["cart_id"; "user_id"; "product_id"].

End Load.

(** ** A reference instance of the library functions

    Executable versions of the library calls, after RFC 1321 (MD5), RFC 8259
    with the extensions of the [json] module and the limits of CPython 3.11
    (integers of at most 4300 digits, the default recursion limit as seen
    from the call in [convert_json_to_csv]), the shortest-digits [repr] of
    a float, [repr] of a text with what [str.isprintable] escapes, and the
    numeral grammar of the parser behind [pd.to_numeric]; they let the model
    run on concrete inputs. *)

Module MD5.

Definition mask32 : Z := 0xffffffff.

Definition add32 (a b : Z) : Z := Z.land (a + b) mask32.

Definition rotl32 (x : Z) (c : Z) : Z :=
  Z.land (Z.lor (Z.shiftl x c) (Z.shiftr x (32 - c))) mask32.

Definition not32 (x : Z) : Z := Z.lxor x mask32.

Definition shifts : list Z :=
  [ 7; 12; 17; 22; 7; 12; 17; 22; 7; 12; 17; 22; 7; 12; 17; 22;
    5; 9; 14; 20; 5; 9; 14; 20; 5; 9; 14; 20; 5; 9; 14; 20;
    4; 11; 16; 23; 4; 11; 16; 23; 4; 11; 16; 23; 4; 11; 16; 23;
    6; 10; 15; 21; 6; 10; 15; 21; 6; 10; 15; 21; 6; 10; 15; 21 ].

Definition sines : list Z :=
  [ 0xd76aa478; 0xe8c7b756; 0x242070db; 0xc1bdceee; 0xf57c0faf; 0x4787c62a; 0xa8304613; 0xfd469501;
    0x698098d8; 0x8b44f7af; 0xffff5bb1; 0x895cd7be; 0x6b901122; 0xfd987193; 0xa679438e; 0x49b40821;
    0xf61e2562; 0xc040b340; 0x265e5a51; 0xe9b6c7aa; 0xd62f105d; 0x02441453; 0xd8a1e681; 0xe7d3fbc8;
    0x21e1cde6; 0xc33707d6; 0xf4d50d87; 0x455a14ed; 0xa9e3e905; 0xfcefa3f8; 0x676f02d9; 0x8d2a4c8a;
    0xfffa3942; 0x8771f681; 0x6d9d6122; 0xfde5380c; 0xa4beea44; 0x4bdecfa9; 0xf6bb4b60; 0xbebfbc70;
    0x289b7ec6; 0xeaa127fa; 0xd4ef3085; 0x04881d05; 0xd9d4d039; 0xe6db99e5; 0x1fa27cf8; 0xc4ac5665;
    0xf4292244; 0x432aff97; 0xab9423a7; 0xfc93a039; 0x655b59c3; 0x8f0ccc92; 0xffeff47d; 0x85845dd1;
    0x6fa87e4f; 0xfe2ce6e0; 0xa3014314; 0x4e0811a1; 0xf7537e82; 0xbd3af235; 0x2ad7d2bb; 0xeb86d391 ].

Definition bytes_of_string (s : string) : list Z :=
  map (fun c => Z.of_N (N_of_ascii c)) (list_ascii_of_string s).

(** [n] as [count] little-endian bytes. *)
Fixpoint le_bytes (count : nat) (n : Z) : list Z :=
  match count with
  | O => []
  | S count' => Z.land n 255 :: le_bytes count' (Z.shiftr n 8)
  end.

Definition pad (message : list Z) : list Z :=
  let len := Z.of_nat (List.length message) in
  let zeros := Z.to_nat ((55 - len) mod 64) in
  message ++ [128] ++ repeat 0 zeros ++ le_bytes 8 (Z.land (8 * len) (2 ^ 64 - 1)).

Fixpoint le_word (bytes : list Z) : Z :=
  match bytes with
  | [] => 0
  | b :: rest => b + 256 * le_word rest
  end.

(** The 32-bit words of a byte list, four bytes each. *)
Fixpoint words_of (count : nat) (bytes : list Z) : list Z :=
  match count with
  | O => []
  | S count' => le_word (firstn 4 bytes) :: words_of count' (skipn 4 bytes)
  end.

Record state : Type := { sa : Z; sb : Z; sc : Z; sd : Z }.

Definition round (m : list Z) (st : state) (i : Z) : state :=
  let '(f, g) :=
    if i <? 16 then
      (Z.lor (Z.land (sb st) (sc st)) (Z.land (not32 (sb st)) (sd st)), i)
    else if i <? 32 then
      (Z.lor (Z.land (sd st) (sb st)) (Z.land (not32 (sd st)) (sc st)), (5 * i + 1) mod 16)
    else if i <? 48 then
      (Z.lxor (Z.lxor (sb st) (sc st)) (sd st), (3 * i + 5) mod 16)
    else
      (Z.lxor (sc st) (Z.lor (sb st) (not32 (sd st))), (7 * i) mod 16) in
  let f := add32 (add32 (add32 f (sa st)) (nth (Z.to_nat i) sines 0)) (nth (Z.to_nat g) m 0) in
  {| sa := sd st;
     sb := add32 (sb st) (rotl32 f (nth (Z.to_nat i) shifts 0));
     sc := sb st;
     sd := sc st |}.

Definition compress (st : state) (block : list Z) : state :=
  let m := words_of 16 block in
  let st' := fold_left (round m) (map Z.of_nat (seq 0 64)) st in
  {| sa := add32 (sa st) (sa st'); sb := add32 (sb st) (sb st');
     sc := add32 (sc st) (sc st'); sd := add32 (sd st) (sd st') |}.

Fixpoint blocks (count : nat) (bytes : list Z) (st : state) : state :=
  match count with
  | O => st
  | S count' => blocks count' (skipn 64 bytes) (compress st (firstn 64 bytes))
  end.

Definition hex_digit (n : Z) : ascii :=
  if n <? 10 then ascii_of_N (Z.to_N (48 + n)) else ascii_of_N (Z.to_N (87 + n)).

Definition hex_byte (b : Z) : string :=
  String (hex_digit (b / 16)) (String (hex_digit (b mod 16)) EmptyString).

Definition hexdigest (s : string) : string :=
  let bytes := pad (bytes_of_string s) in
  let st := blocks (Nat.div (List.length bytes) 64) bytes
              {| sa := 0x67452301; sb := 0xefcdab89; sc := 0x98badcfe; sd := 0x10325476 |} in
  String.concat "" (map hex_byte (le_bytes 4 (sa st) ++ le_bytes 4 (sb st) ++ le_bytes 4 (sc st) ++ le_bytes 4 (sd st))).

End MD5.

Module Decimal64.

(** The binary64 nearest to [m * 10 ^ e10], ties to even; [m] is not
    negative. *)
Definition of_decimal (negative : bool) (m e10 : Z) : float :=
  let magnitude :=
    if m =? 0 then 0%float
    else if 0 <=? e10 then
      SF2Prim (SpecFloat.binary_normalize prec emax (m * 10 ^ e10) 0 false)
    else
      let d := 10 ^ (- e10) in
      let s := Z.max 0 (Z.log2 d - Z.log2 m + 64) in
      let q := (m * 2 ^ s) / d in
      let sticky := if (m * 2 ^ s) mod d =? 0 then 0 else 1 in
      SF2Prim (SpecFloat.binary_normalize prec emax (2 * q + sticky) (- s - 1) false) in
  if negative then PrimFloat.opp magnitude else magnitude.

(** [10 ^ t <= num / den], for positive [num] and [den]. *)
Definition pow10_le (t num den : Z) : bool :=
  if 0 <=? t then 10 ^ t * den <=? num else den <=? num * 10 ^ (- t).

Fixpoint raise_log10 (fuel : nat) (t num den : Z) : Z :=
  match fuel with
  | O => t
  | S fuel' => if pow10_le (t + 1) num den then raise_log10 fuel' (t + 1) num den else t
  end.

(** [floor (log10 (num / den))]. *)
Definition floor_log10 (num den : Z) : Z :=
  raise_log10 8 ((Z.log2 num - Z.log2 den) * 1233 / 4096 - 2) num den.

(** The [p]-digit decimals below and above [num / den] whose nearest
    binary64 is [f]; the closer one comes first. *)
Definition candidates (f : float) (num den t : Z) (p : Z) : list (Z * Z) :=
  let e := t - p + 1 in
  let (n, d) := if 0 <=? e then (num, den * 10 ^ e) else (num * 10 ^ (- e), den) in
  let lo := n / d in
  let r := n mod d in
  let keep := filter (fun c => PrimFloat.eqb (of_decimal false (fst c) (snd c)) f) in
  if r =? 0 then keep [(lo, e)]
  else if 2 * r <? d then keep [(lo, e); (lo + 1, e)]
  else if d <? 2 * r then keep [(lo + 1, e); (lo, e)]
  else if Z.even lo then keep [(lo, e); (lo + 1, e)]
  else keep [(lo + 1, e); (lo, e)].

Fixpoint shortest (fuel : nat) (f : float) (num den t : Z) (p : Z) : Z * Z :=
  match fuel with
  | O => (0, 0)
  | S fuel' =>
      match candidates f num den t p with
      | c :: _ => c
      | [] => shortest fuel' f num den t (p + 1)
      end
  end.

Fixpoint strip_zeros (fuel : nat) (d e : Z) : Z * Z :=
  match fuel with
  | O => (d, e)
  | S fuel' => if (d mod 10 =? 0) && negb (d =? 0) then strip_zeros fuel' (d / 10) (e + 1) else (d, e)
  end.

Definition zeros (n : Z) : string := String.concat "" (repeat "0" (Z.to_nat n)).

Definition pad2 (n : Z) : string :=
  if n <? 10 then "0" ++ str_of_int n else str_of_int n.

(** The text of a positive float from its shortest digits [d * 10 ^ e]. *)
Definition format (d e : Z) : string :=
  let digits := str_of_int d in
  let n := Z.of_nat (String.length digits) in
  let decpt := n + e in
  if (-4 <? decpt) && (decpt <=? 16) then
    if decpt <=? 0 then "0." ++ zeros (- decpt) ++ digits
    else if n <=? decpt then digits ++ zeros (decpt - n) ++ ".0"
    else substring 0 (Z.to_nat decpt) digits ++ "." ++
         substring (Z.to_nat decpt) (Z.to_nat (n - decpt)) digits
  else
    let mantissa :=
      if n =? 1 then digits
      else substring 0 1 digits ++ "." ++ substring 1 (Z.to_nat (n - 1)) digits in
    let x := decpt - 1 in
    mantissa ++ "e" ++ (if x <? 0 then "-" ++ pad2 (- x) else "+" ++ pad2 x).

(** [repr] of a float: the shortest decimal that reads back as the same
    float. *)
Definition repr (f : float) : string :=
  match Prim2SF f with
  | SpecFloat.S754_nan => "nan"
  | SpecFloat.S754_infinity negative => if negative then "-inf" else "inf"
  | SpecFloat.S754_zero negative => if negative then "-0.0" else "0.0"
  | SpecFloat.S754_finite negative m e =>
      let num := if 0 <=? e then Z.pos m * 2 ^ e else Z.pos m in
      let den := if 0 <=? e then 1 else 2 ^ (- e) in
      let t := floor_log10 num den in
      let (d, e10) := shortest 17 (PrimFloat.abs f) num den t 1 in
      let (d', e') := strip_zeros 20 d e10 in
      (if negative then "-" else "") ++ format d' e'
  end.

End Decimal64.


Module Json.

Definition code (c : ascii) : Z := Z.of_N (N_of_ascii c).

Definition char (n : Z) : ascii := ascii_of_N (Z.to_N n).

Definition is_ws (c : ascii) : bool :=
  let n := code c in (n =? 32) || (n =? 9) || (n =? 10) || (n =? 13).

Fixpoint skip_ws (s : list ascii) : list ascii :=
  match s with
  | c :: rest => if is_ws c then skip_ws rest else s
  | [] => []
  end.

Definition is_digit (c : ascii) : bool := (48 <=? code c) && (code c <=? 57).

Fixpoint take_digits (s : list ascii) : list ascii * list ascii :=
  match s with
  | c :: rest =>
      if is_digit c then let (ds, tl) := take_digits rest in (c :: ds, tl) else ([], s)
  | [] => ([], [])
  end.

Definition digits_value (ds : list ascii) : Z :=
  fold_left (fun acc c => 10 * acc + (code c - 48)) ds 0.

(** A prefix [word] of [s], and what follows it. *)
Fixpoint expect (word : list ascii) (s : list ascii) : option (list ascii) :=
  match word, s with
  | [], _ => Some s
  | w :: word', c :: rest => if Ascii.eqb w c then expect word' rest else None
  | _ :: _, [] => None
  end.

(** A number: an optional minus, then 0 or digits that do not start with 0,
    an optional fraction and an optional exponent; an int when there is
    neither fraction nor exponent, a float otherwise.  An int of more
    digits than the interpreter converts is a [ValueError]. *)
Definition parse_number (s : list ascii) : result (value * list ascii) :=
  let (negative, s1) :=
    match s with
    | c :: rest => if code c =? 45 then (true, rest) else (false, s)
    | [] => (false, s)
    end in
  let (int_digits, s2) :=
    match s1 with
    | c :: rest => if code c =? 48 then ([c], rest) else take_digits s1
    | [] => ([], s1)
    end in
  match int_digits with
  | [] => Raise JSONDecodeError
  | _ =>
      let (frac, s3) :=
        match s2 with
        | c :: rest =>
            if code c =? 46 then
              match take_digits rest with
              | ([], _) => ([], s2)
              | (ds, tl) => (ds, tl)
              end
            else ([], s2)
        | [] => ([], s2)
        end in
      let '(has_exp, exponent, s4) :=
        match s3 with
        | c :: rest =>
            if (code c =? 101) || (code c =? 69) then
              let (exp_negative, rest') :=
                match rest with
                | sg :: tl =>
                    if code sg =? 45 then (true, tl)
                    else if code sg =? 43 then (false, tl)
                    else (false, rest)
                | [] => (false, rest)
                end in
              match take_digits rest' with
              | ([], _) => (false, 0, s3)
              | (ds, tl) => (true, (if exp_negative then - digits_value ds else digits_value ds), tl)
              end
            else (false, 0, s3)
        | [] => (false, 0, s3)
        end in
      match frac, has_exp with
      | [], false =>
          if Z.of_nat (List.length int_digits) <=? max_str_digits then
            Ok (VInt (if negative then - digits_value int_digits else digits_value int_digits), s4)
          else Raise ValueError
      | _, _ =>
          Ok (VFloat (Decimal64.of_decimal negative (digits_value (int_digits ++ frac))
                        (exponent - Z.of_nat (List.length frac))), s4)
      end
  end.

Definition hex_value (c : ascii) : option Z :=
  let n := code c in
  if (48 <=? n) && (n <=? 57) then Some (n - 48)
  else if (97 <=? n) && (n <=? 102) then Some (n - 87)
  else if (65 <=? n) && (n <=? 70) then Some (n - 55)
  else None.

Definition hex4 (s : list ascii) : option (Z * list ascii) :=
  match s with
  | a :: b :: c :: d :: rest =>
      match hex_value a, hex_value b, hex_value c, hex_value d with
      | Some x, Some y, Some z, Some w => Some (((x * 16 + y) * 16 + z) * 16 + w, rest)
      | _, _, _, _ => None
      end
  | _ => None
  end.

(** The UTF-8 bytes of a code point. *)
Definition utf8 (cp : Z) : list ascii :=
  if cp <? 128 then [char cp]
  else if cp <? 2048 then [char (192 + cp / 64); char (128 + cp mod 64)]
  else if cp <? 65536 then
    [char (224 + cp / 4096); char (128 + (cp / 64) mod 64); char (128 + cp mod 64)]
  else
    [char (240 + cp / 262144); char (128 + (cp / 4096) mod 64);
     char (128 + (cp / 64) mod 64); char (128 + cp mod 64)].

Definition simple_escape (c : ascii) : option ascii :=
  let n := code c in
  if (n =? 34) || (n =? 92) || (n =? 47) then Some c
  else if n =? 98 then Some (char 8)
  else if n =? 102 then Some (char 12)
  else if n =? 110 then Some (char 10)
  else if n =? 114 then Some (char 13)
  else if n =? 116 then Some (char 9)
  else None.

(** The text of a string after its opening quote. *)
Fixpoint parse_string (fuel : nat) (s : list ascii) (acc : list ascii)
  : option (string * list ascii) :=
  match fuel with
  | O => None
  | S fuel' =>
      match s with
      | [] => None
      | c :: rest =>
          if code c =? 34 then Some (string_of_list_ascii (rev acc), rest)
          else if code c =? 92 then
            match rest with
            | [] => None
            | e :: rest' =>
                match simple_escape e with
                | Some ch => parse_string fuel' rest' (ch :: acc)
                | None =>
                    if code e =? 117 then
                      match hex4 rest' with
                      | None => None
                      | Some (hi, rest'') =>
                          let pair :=
                            if (55296 <=? hi) && (hi <? 56320) then
                              match rest'' with
                              | b :: u :: tl =>
                                  if (code b =? 92) && (code u =? 117) then
                                    match hex4 tl with
                                    | Some (lo, tl') =>
                                        if (56320 <=? lo) && (lo <? 57344)
                                        then Some (65536 + (hi - 55296) * 1024 + (lo - 56320), tl')
                                        else None
                                    | None => None
                                    end
                                  else None
                              | _ => None
                              end
                            else None in
                          match pair with
                          | Some (cp, tl') => parse_string fuel' tl' (rev (utf8 cp) ++ acc)
                          | None => parse_string fuel' rest'' (rev (utf8 hi) ++ acc)
                          end
                      end
                    else None
                end
            end
          else if code c <? 32 then None
          else parse_string fuel' rest (c :: acc)
      end
  end.

(** A constant [word] read as [v]. *)
Definition constant (word : string) (v : value) (s : list ascii) : result (value * list ascii) :=
  match expect (list_ascii_of_string word) s with
  | Some tl => Ok (v, tl)
  | None => Raise JSONDecodeError
  end.

(** [depth] is the number of objects and arrays, one inside the other, that
    the interpreter's stack still has room for: entering one more is a
    [RecursionError]. *)
Fixpoint parse_value (fuel : nat) (depth : nat) (s : list ascii) : result (value * list ascii) :=
  match fuel with
  | O => Raise JSONDecodeError
  | S fuel' =>
      match s with
      | [] => Raise JSONDecodeError
      | c :: rest =>
          let n := code c in
          if n =? 34 then
            match parse_string (S (List.length rest)) rest [] with
            | Some (text, tl) => Ok (VStr text, tl)
            | None => Raise JSONDecodeError
            end
          else if n =? 123 then
            match depth with
            | O => Raise RecursionError
            | S depth' =>
                match skip_ws rest with
                | c' :: tl =>
                    if code c' =? 125 then Ok (VDict [], tl)
                    else parse_members fuel' depth' (c' :: tl) []
                | [] => Raise JSONDecodeError
                end
            end
          else if n =? 91 then
            match depth with
            | O => Raise RecursionError
            | S depth' =>
                match skip_ws rest with
                | c' :: tl =>
                    if code c' =? 93 then Ok (VList [], tl)
                    else parse_elements fuel' depth' (c' :: tl) []
                | [] => Raise JSONDecodeError
                end
            end
          else if n =? 110 then constant "null" VNone s
          else if n =? 116 then constant "true" (VBool true) s
          else if n =? 102 then constant "false" (VBool false) s
          else if n =? 78 then constant "NaN" (VFloat PrimFloat.nan) s
          else if n =? 73 then constant "Infinity" (VFloat PrimFloat.infinity) s
          else if n =? 45 then
            match expect (list_ascii_of_string "-Infinity") s with
            | Some tl => Ok (VFloat PrimFloat.neg_infinity, tl)
            | None => parse_number s
            end
          else parse_number s
      end
  end

with parse_members (fuel : nat) (depth : nat) (s : list ascii) (acc : dict)
  : result (value * list ascii) :=
  match fuel with
  | O => Raise JSONDecodeError
  | S fuel' =>
      match s with
      | c :: rest =>
          if code c =? 34 then
            match parse_string (S (List.length rest)) rest [] with
            | None => Raise JSONDecodeError
            | Some (key, tl) =>
                match skip_ws tl with
                | colon :: tl' =>
                    if code colon =? 58 then
                      match parse_value fuel' depth (skip_ws tl') with
                      | Raise e => Raise e
                      | Ok (v, tl'') =>
                          let acc' := dict_set acc key v in
                          match skip_ws tl'' with
                          | d :: after =>
                              if code d =? 125 then Ok (VDict acc', after)
                              else if code d =? 44 then parse_members fuel' depth (skip_ws after) acc'
                              else Raise JSONDecodeError
                          | [] => Raise JSONDecodeError
                          end
                      end
                    else Raise JSONDecodeError
                | [] => Raise JSONDecodeError
                end
            end
          else Raise JSONDecodeError
      | [] => Raise JSONDecodeError
      end
  end

with parse_elements (fuel : nat) (depth : nat) (s : list ascii) (acc : list value)
  : result (value * list ascii) :=
  match fuel with
  | O => Raise JSONDecodeError
  | S fuel' =>
      match parse_value fuel' depth s with
      | Raise e => Raise e
      | Ok (v, tl) =>
          match skip_ws tl with
          | d :: after =>
              if code d =? 93 then Ok (VList (rev (v :: acc)), after)
              else if code d =? 44 then parse_elements fuel' depth (skip_ws after) (v :: acc)
              else Raise JSONDecodeError
          | [] => Raise JSONDecodeError
          end
      end
  end.

(** The nesting [json.loads] has room for at its call in
    [convert_json_to_csv], reached from [main], under the default recursion
    limit of 1000. *)
Definition nesting_limit : nat := 993.

(** [json.loads]: one value, with white space around it and nothing else. *)
Definition loads (text : string) : result value :=
  let s := list_ascii_of_string text in
  match parse_value (2 * List.length s + 2) nesting_limit (skip_ws s) with
  | Ok (v, tl) => match skip_ws tl with [] => Ok v | _ => Raise JSONDecodeError end
  | Raise e => Raise e
  end.

Definition quote_mark : string := String (char 34) EmptyString.

Definition hex_digit (n : Z) : ascii := if n <? 10 then char (48 + n) else char (87 + n).

Definition u_escape (cp : Z) : string :=
  "\u" ++ string_of_list_ascii
            [hex_digit (cp / 4096); hex_digit ((cp / 256) mod 16);
             hex_digit ((cp / 16) mod 16); hex_digit (cp mod 16)].

(** The code point of one UTF-8 encoded character. *)
Definition code_point (ch : string) : Z :=
  match list_ascii_of_string ch with
  | [a] => code a
  | [a; b] => (code a - 192) * 64 + (code b - 128)
  | [a; b; c] => ((code a - 224) * 64 + (code b - 128)) * 64 + (code c - 128)
  | [a; b; c; d] => (((code a - 240) * 64 + (code b - 128)) * 64 + (code c - 128)) * 64 + (code d - 128)
  | _ => 65533
  end.

Definition escape_char (ch : string) : string :=
  let cp := code_point ch in
  if cp =? 34 then String (char 92) quote_mark else if cp =? 92 then "\\"
  else if cp =? 10 then "\n" else if cp =? 13 then "\r" else if cp =? 9 then "\t"
  else if cp =? 8 then "\b" else if cp =? 12 then "\f"
  else if (32 <=? cp) && (cp <? 127) then ch
  else if cp <? 65536 then u_escape cp
  else u_escape (55296 + (cp - 65536) / 1024) ++ u_escape (56320 + (cp - 65536) mod 1024).

Definition quoted (s : string) : string :=
  quote_mark ++ String.concat "" (map escape_char (py_chars s)) ++ quote_mark.

Definition float_text (f : float) : string :=
  match Prim2SF f with
  | SpecFloat.S754_nan => "NaN"
  | SpecFloat.S754_infinity negative => if negative then "-Infinity" else "Infinity"
  | _ => Decimal64.repr f
  end.

(** [json.dumps] with its default separators and [ensure_ascii]. *)
Fixpoint dumps (v : value) : string :=
  match v with
  | VNone => "null"
  | VBool true => "true"
  | VBool false => "false"
  | VInt n => str_of_int n
  | VFloat f => float_text f
  | VStr s => quoted s
  | VList l =>
      "[" ++ (fix items (l : list value) : string :=
                match l with
                | [] => ""
                | [x] => dumps x
                | x :: rest => dumps x ++ ", " ++ items rest
                end) l ++ "]"
  | VDict d =>
      "{" ++ (fix members (d : list (string * value)) : string :=
                match d with
                | [] => ""
                | [(k, x)] => quoted k ++ ": " ++ dumps x
                | (k, x) :: rest => quoted k ++ ": " ++ dumps x ++ ", " ++ members rest
                end) d ++ "}"
  end.

End Json.

Module Text.

(** The white space [str.strip] removes, as UTF-8 byte sequences. *)
Definition spaces : list (list Z) :=
  [ [9]; [10]; [11]; [12]; [13]; [28]; [29]; [30]; [31]; [32];
    [194; 133]; [194; 160]; [225; 154; 128];
    [226; 128; 128]; [226; 128; 129]; [226; 128; 130]; [226; 128; 131];
    [226; 128; 132]; [226; 128; 133]; [226; 128; 134]; [226; 128; 135];
    [226; 128; 136]; [226; 128; 137]; [226; 128; 138];
    [226; 128; 168]; [226; 128; 169]; [226; 128; 175]; [226; 129; 159];
    [227; 128; 128] ].

Fixpoint drop_prefix (prefix : list Z) (s : list ascii) : option (list ascii) :=
  match prefix, s with
  | [], _ => Some s
  | p :: prefix', c :: rest => if p =? Json.code c then drop_prefix prefix' rest else None
  | _ :: _, [] => None
  end.

Fixpoint drop_any (seqs : list (list Z)) (s : list ascii) : option (list ascii) :=
  match seqs with
  | [] => None
  | q :: seqs' =>
      match drop_prefix q s with
      | Some rest => Some rest
      | None => drop_any seqs' s
      end
  end.

Fixpoint lstrip (fuel : nat) (seqs : list (list Z)) (s : list ascii) : list ascii :=
  match fuel with
  | O => s
  | S fuel' =>
      match drop_any seqs s with
      | Some rest => lstrip fuel' seqs rest
      | None => s
      end
  end.

(** [s.strip()]. *)
Definition strip (text : string) : string :=
  let s := list_ascii_of_string text in
  let left := lstrip (List.length s) spaces s in
  let right := lstrip (List.length s) (map (@rev Z) spaces) (rev left) in
  string_of_list_ascii (rev right).

Definition hex2 (n : Z) : string :=
  string_of_list_ascii [Json.hex_digit (n / 16); Json.hex_digit (n mod 16)].

Definition apostrophe : string := "'".

(** The code points from U+0080 on that [str.isprintable] refuses, as
    ranges: the separators other than the space, the control, format,
    surrogate and private-use characters and the code points that are not
    assigned (Unicode 14.0, the database of CPython 3.11). *)
Definition not_printable : list (Z * Z) :=
  [ (128, 160); (173, 173); (888, 889); (896, 899); (907, 907); (909, 909); (930, 930);
    (1328, 1328); (1367, 1368); (1419, 1420); (1424, 1424); (1480, 1487); (1515, 1518);
    (1525, 1541); (1564, 1564); (1757, 1757); (1806, 1807); (1867, 1868); (1970, 1983);
    (2043, 2044); (2094, 2095); (2111, 2111); (2140, 2141); (2143, 2143); (2155, 2159);
    (2191, 2199); (2274, 2274); (2436, 2436); (2445, 2446); (2449, 2450); (2473, 2473);
    (2481, 2481); (2483, 2485); (2490, 2491); (2501, 2502); (2505, 2506); (2511, 2518);
    (2520, 2523); (2526, 2526); (2532, 2533); (2559, 2560); (2564, 2564); (2571, 2574);
    (2577, 2578); (2601, 2601); (2609, 2609); (2612, 2612); (2615, 2615); (2618, 2619);
    (2621, 2621); (2627, 2630); (2633, 2634); (2638, 2640); (2642, 2648); (2653, 2653);
    (2655, 2661); (2679, 2688); (2692, 2692); (2702, 2702); (2706, 2706); (2729, 2729);
    (2737, 2737); (2740, 2740); (2746, 2747); (2758, 2758); (2762, 2762); (2766, 2767);
    (2769, 2783); (2788, 2789); (2802, 2808); (2816, 2816); (2820, 2820); (2829, 2830);
    (2833, 2834); (2857, 2857); (2865, 2865); (2868, 2868); (2874, 2875); (2885, 2886);
    (2889, 2890); (2894, 2900); (2904, 2907); (2910, 2910); (2916, 2917); (2936, 2945);
    (2948, 2948); (2955, 2957); (2961, 2961); (2966, 2968); (2971, 2971); (2973, 2973);
    (2976, 2978); (2981, 2983); (2987, 2989); (3002, 3005); (3011, 3013); (3017, 3017);
    (3022, 3023); (3025, 3030); (3032, 3045); (3067, 3071); (3085, 3085); (3089, 3089);
    (3113, 3113); (3130, 3131); (3141, 3141); (3145, 3145); (3150, 3156); (3159, 3159);
    (3163, 3164); (3166, 3167); (3172, 3173); (3184, 3190); (3213, 3213); (3217, 3217);
    (3241, 3241); (3252, 3252); (3258, 3259); (3269, 3269); (3273, 3273); (3278, 3284);
    (3287, 3292); (3295, 3295); (3300, 3301); (3312, 3312); (3315, 3327); (3341, 3341);
    (3345, 3345); (3397, 3397); (3401, 3401); (3408, 3411); (3428, 3429); (3456, 3456);
    (3460, 3460); (3479, 3481); (3506, 3506); (3516, 3516); (3518, 3519); (3527, 3529);
    (3531, 3534); (3541, 3541); (3543, 3543); (3552, 3557); (3568, 3569); (3573, 3584);
    (3643, 3646); (3676, 3712); (3715, 3715); (3717, 3717); (3723, 3723); (3748, 3748);
    (3750, 3750); (3774, 3775); (3781, 3781); (3783, 3783); (3790, 3791); (3802, 3803);
    (3808, 3839); (3912, 3912); (3949, 3952); (3992, 3992); (4029, 4029); (4045, 4045);
    (4059, 4095); (4294, 4294); (4296, 4300); (4302, 4303); (4681, 4681); (4686, 4687);
    (4695, 4695); (4697, 4697); (4702, 4703); (4745, 4745); (4750, 4751); (4785, 4785);
    (4790, 4791); (4799, 4799); (4801, 4801); (4806, 4807); (4823, 4823); (4881, 4881);
    (4886, 4887); (4955, 4956); (4989, 4991); (5018, 5023); (5110, 5111); (5118, 5119);
    (5760, 5760); (5789, 5791); (5881, 5887); (5910, 5918); (5943, 5951); (5972, 5983);
    (5997, 5997); (6001, 6001); (6004, 6015); (6110, 6111); (6122, 6127); (6138, 6143);
    (6158, 6158); (6170, 6175); (6265, 6271); (6315, 6319); (6390, 6399); (6431, 6431);
    (6444, 6447); (6460, 6463); (6465, 6467); (6510, 6511); (6517, 6527); (6572, 6575);
    (6602, 6607); (6619, 6621); (6684, 6685); (6751, 6751); (6781, 6782); (6794, 6799);
    (6810, 6815); (6830, 6831); (6863, 6911); (6989, 6991); (7039, 7039); (7156, 7163);
    (7224, 7226); (7242, 7244); (7305, 7311); (7355, 7356); (7368, 7375); (7419, 7423);
    (7958, 7959); (7966, 7967); (8006, 8007); (8014, 8015); (8024, 8024); (8026, 8026);
    (8028, 8028); (8030, 8030); (8062, 8063); (8117, 8117); (8133, 8133); (8148, 8149);
    (8156, 8156); (8176, 8177); (8181, 8181); (8191, 8207); (8232, 8239); (8287, 8303);
    (8306, 8307); (8335, 8335); (8349, 8351); (8385, 8399); (8433, 8447); (8588, 8591);
    (9255, 9279); (9291, 9311); (11124, 11125); (11158, 11158); (11508, 11512); (11558, 11558);
    (11560, 11564); (11566, 11567); (11624, 11630); (11633, 11646); (11671, 11679);
    (11687, 11687); (11695, 11695); (11703, 11703); (11711, 11711); (11719, 11719);
    (11727, 11727); (11735, 11735); (11743, 11743); (11870, 11903); (11930, 11930);
    (12020, 12031); (12246, 12271); (12284, 12288); (12352, 12352); (12439, 12440);
    (12544, 12548); (12592, 12592); (12687, 12687); (12772, 12783); (12831, 12831);
    (42125, 42127); (42183, 42191); (42540, 42559); (42744, 42751); (42955, 42959);
    (42962, 42962); (42964, 42964); (42970, 42993); (43053, 43055); (43066, 43071);
    (43128, 43135); (43206, 43213); (43226, 43231); (43348, 43358); (43389, 43391);
    (43470, 43470); (43482, 43485); (43519, 43519); (43575, 43583); (43598, 43599);
    (43610, 43611); (43715, 43738); (43767, 43776); (43783, 43784); (43791, 43792);
    (43799, 43807); (43815, 43815); (43823, 43823); (43884, 43887); (44014, 44015);
    (44026, 44031); (55204, 55215); (55239, 55242); (55292, 63743); (64110, 64111);
    (64218, 64255); (64263, 64274); (64280, 64284); (64311, 64311); (64317, 64317);
    (64319, 64319); (64322, 64322); (64325, 64325); (64451, 64466); (64912, 64913);
    (64968, 64974); (64976, 65007); (65050, 65055); (65107, 65107); (65127, 65127);
    (65132, 65135); (65141, 65141); (65277, 65280); (65471, 65473); (65480, 65481);
    (65488, 65489); (65496, 65497); (65501, 65503); (65511, 65511); (65519, 65531);
    (65534, 65535); (65548, 65548); (65575, 65575); (65595, 65595); (65598, 65598);
    (65614, 65615); (65630, 65663); (65787, 65791); (65795, 65798); (65844, 65846);
    (65935, 65935); (65949, 65951); (65953, 65999); (66046, 66175); (66205, 66207);
    (66257, 66271); (66300, 66303); (66340, 66348); (66379, 66383); (66427, 66431);
    (66462, 66462); (66500, 66503); (66518, 66559); (66718, 66719); (66730, 66735);
    (66772, 66775); (66812, 66815); (66856, 66863); (66916, 66926); (66939, 66939);
    (66955, 66955); (66963, 66963); (66966, 66966); (66978, 66978); (66994, 66994);
    (67002, 67002); (67005, 67071); (67383, 67391); (67414, 67423); (67432, 67455);
    (67462, 67462); (67505, 67505); (67515, 67583); (67590, 67591); (67593, 67593);
    (67638, 67638); (67641, 67643); (67645, 67646); (67670, 67670); (67743, 67750);
    (67760, 67807); (67827, 67827); (67830, 67834); (67868, 67870); (67898, 67902);
    (67904, 67967); (68024, 68027); (68048, 68049); (68100, 68100); (68103, 68107);
    (68116, 68116); (68120, 68120); (68150, 68151); (68155, 68158); (68169, 68175);
    (68185, 68191); (68256, 68287); (68327, 68330); (68343, 68351); (68406, 68408);
    (68438, 68439); (68467, 68471); (68498, 68504); (68509, 68520); (68528, 68607);
    (68681, 68735); (68787, 68799); (68851, 68857); (68904, 68911); (68922, 69215);
    (69247, 69247); (69290, 69290); (69294, 69295); (69298, 69375); (69416, 69423);
    (69466, 69487); (69514, 69551); (69580, 69599); (69623, 69631); (69710, 69713);
    (69750, 69758); (69821, 69821); (69827, 69839); (69865, 69871); (69882, 69887);
    (69941, 69941); (69960, 69967); (70007, 70015); (70112, 70112); (70133, 70143);
    (70162, 70162); (70207, 70271); (70279, 70279); (70281, 70281); (70286, 70286);
    (70302, 70302); (70314, 70319); (70379, 70383); (70394, 70399); (70404, 70404);
    (70413, 70414); (70417, 70418); (70441, 70441); (70449, 70449); (70452, 70452);
    (70458, 70458); (70469, 70470); (70473, 70474); (70478, 70479); (70481, 70486);
    (70488, 70492); (70500, 70501); (70509, 70511); (70517, 70655); (70748, 70748);
    (70754, 70783); (70856, 70863); (70874, 71039); (71094, 71095); (71134, 71167);
    (71237, 71247); (71258, 71263); (71277, 71295); (71354, 71359); (71370, 71423);
    (71451, 71452); (71468, 71471); (71495, 71679); (71740, 71839); (71923, 71934);
    (71943, 71944); (71946, 71947); (71956, 71956); (71959, 71959); (71990, 71990);
    (71993, 71994); (72007, 72015); (72026, 72095); (72104, 72105); (72152, 72153);
    (72165, 72191); (72264, 72271); (72355, 72367); (72441, 72703); (72713, 72713);
    (72759, 72759); (72774, 72783); (72813, 72815); (72848, 72849); (72872, 72872);
    (72887, 72959); (72967, 72967); (72970, 72970); (73015, 73017); (73019, 73019);
    (73022, 73022); (73032, 73039); (73050, 73055); (73062, 73062); (73065, 73065);
    (73103, 73103); (73106, 73106); (73113, 73119); (73130, 73439); (73465, 73647);
    (73649, 73663); (73714, 73726); (74650, 74751); (74863, 74863); (74869, 74879);
    (75076, 77711); (77811, 77823); (78895, 82943); (83527, 92159); (92729, 92735);
    (92767, 92767); (92778, 92781); (92863, 92863); (92874, 92879); (92910, 92911);
    (92918, 92927); (92998, 93007); (93018, 93018); (93026, 93026); (93048, 93052);
    (93072, 93759); (93851, 93951); (94027, 94030); (94088, 94094); (94112, 94175);
    (94181, 94191); (94194, 94207); (100344, 100351); (101590, 101631); (101641, 110575);
    (110580, 110580); (110588, 110588); (110591, 110591); (110883, 110927); (110931, 110947);
    (110952, 110959); (111356, 113663); (113771, 113775); (113789, 113791); (113801, 113807);
    (113818, 113819); (113824, 118527); (118574, 118575); (118599, 118607); (118724, 118783);
    (119030, 119039); (119079, 119080); (119155, 119162); (119275, 119295); (119366, 119519);
    (119540, 119551); (119639, 119647); (119673, 119807); (119893, 119893); (119965, 119965);
    (119968, 119969); (119971, 119972); (119975, 119976); (119981, 119981); (119994, 119994);
    (119996, 119996); (120004, 120004); (120070, 120070); (120075, 120076); (120085, 120085);
    (120093, 120093); (120122, 120122); (120127, 120127); (120133, 120133); (120135, 120137);
    (120145, 120145); (120486, 120487); (120780, 120781); (121484, 121498); (121504, 121504);
    (121520, 122623); (122655, 122879); (122887, 122887); (122905, 122906); (122914, 122914);
    (122917, 122917); (122923, 123135); (123181, 123183); (123198, 123199); (123210, 123213);
    (123216, 123535); (123567, 123583); (123642, 123646); (123648, 124895); (124903, 124903);
    (124908, 124908); (124911, 124911); (124927, 124927); (125125, 125126); (125143, 125183);
    (125260, 125263); (125274, 125277); (125280, 126064); (126133, 126208); (126270, 126463);
    (126468, 126468); (126496, 126496); (126499, 126499); (126501, 126502); (126504, 126504);
    (126515, 126515); (126520, 126520); (126522, 126522); (126524, 126529); (126531, 126534);
    (126536, 126536); (126538, 126538); (126540, 126540); (126544, 126544); (126547, 126547);
    (126549, 126550); (126552, 126552); (126554, 126554); (126556, 126556); (126558, 126558);
    (126560, 126560); (126563, 126563); (126565, 126566); (126571, 126571); (126579, 126579);
    (126584, 126584); (126589, 126589); (126591, 126591); (126602, 126602); (126620, 126624);
    (126628, 126628); (126634, 126634); (126652, 126703); (126706, 126975); (127020, 127023);
    (127124, 127135); (127151, 127152); (127168, 127168); (127184, 127184); (127222, 127231);
    (127406, 127461); (127491, 127503); (127548, 127551); (127561, 127567); (127570, 127583);
    (127590, 127743); (128728, 128732); (128749, 128751); (128765, 128767); (128884, 128895);
    (128985, 128991); (129004, 129007); (129009, 129023); (129036, 129039); (129096, 129103);
    (129114, 129119); (129160, 129167); (129198, 129199); (129202, 129279); (129620, 129631);
    (129646, 129647); (129653, 129655); (129661, 129663); (129671, 129679); (129709, 129711);
    (129723, 129727); (129734, 129743); (129754, 129759); (129768, 129775); (129783, 129791);
    (129939, 129939); (129995, 130031); (130042, 131071); (173792, 173823); (177977, 177983);
    (178206, 178207); (183970, 183983); (191457, 194559); (195102, 196607); (201547, 917759);
    (918000, 1114111) ].

Definition is_printable (cp : Z) : bool :=
  negb (existsb (fun range => (fst range <=? cp) && (cp <=? snd range)) not_printable).

Definition hex_escape (cp : Z) : string :=
  if cp <? 256 then "\x" ++ hex2 cp
  else if cp <? 65536 then "\u" ++ hex2 (cp / 256) ++ hex2 (cp mod 256)
  else "\U" ++ hex2 (cp / 16777216) ++ hex2 ((cp / 65536) mod 256) ++
       hex2 ((cp / 256) mod 256) ++ hex2 (cp mod 256).

(** [repr] of a str. *)
Definition repr_str (s : string) : string :=
  let chars := list_ascii_of_string s in
  let has c := existsb (fun x => Json.code x =? c) chars in
  let q := if has 39 && negb (has 34) then Json.quote_mark else apostrophe in
  let escape (ch : string) : string :=
    let n := Json.code_point ch in
    if n =? 92 then "\\"
    else if String.eqb ch q then String (Json.char 92) q
    else if n =? 10 then "\n" else if n =? 13 then "\r" else if n =? 9 then "\t"
    else if (n <? 32) || (n =? 127) then hex_escape n
    else if n <? 128 then ch
    else if is_printable n then ch
    else hex_escape n in
  q ++ String.concat "" (map escape (py_chars s)) ++ q.

(** [repr] of an object; an int beyond the digits limit cannot be
    written. *)
Fixpoint repr (v : value) : result string :=
  match v with
  | VNone => Ok "None"
  | VBool true => Ok "True"
  | VBool false => Ok "False"
  | VInt n => int_str n
  | VFloat f => Ok (Decimal64.repr f)
  | VStr s => Ok (repr_str s)
  | VList l =>
      body <- (fix items (l : list value) : result string :=
                 match l with
                 | [] => Ok ""
                 | [x] => repr x
                 | x :: rest =>
                     first <- repr x ;;
                     others <- items rest ;;
                     Ok (first ++ ", " ++ others)
                 end) l ;;
      Ok ("[" ++ body ++ "]")
  | VDict d =>
      body <- (fix members (d : list (string * value)) : result string :=
                 match d with
                 | [] => Ok ""
                 | [(k, x)] =>
                     first <- repr x ;;
                     Ok (repr_str k ++ ": " ++ first)
                 | (k, x) :: rest =>
                     first <- repr x ;;
                     others <- members rest ;;
                     Ok (repr_str k ++ ": " ++ first ++ ", " ++ others)
                 end) d ;;
      Ok ("{" ++ body ++ "}")
  end.

(** The white space the numeric parser skips. *)
Definition is_space (c : ascii) : bool :=
  let n := Json.code c in (n =? 32) || ((9 <=? n) && (n <=? 13)).

Fixpoint skip_spaces (s : list ascii) : list ascii :=
  match s with
  | c :: rest => if is_space c then skip_spaces rest else s
  | [] => []
  end.

(** The state of the parser: the number read so far, as a float, the count
    of digits it holds and the power of ten still to apply. *)
Record scan : Type := { number : float; num_digits : Z; exponent : Z }.

Definition digit (c : ascii) : float := Pandas.float_of_Z (Json.code c - 48).

(** A digit before the point: the first 17 go into the number, a later one
    only raises the exponent. *)
Definition whole_digit (st : scan) (c : ascii) : scan :=
  if num_digits st <? 17 then
    {| number := PrimFloat.add (PrimFloat.mul (number st) 10%float) (digit c);
       num_digits := num_digits st + 1;
       exponent := exponent st |}
  else {| number := number st; num_digits := num_digits st; exponent := exponent st + 1 |}.

(** A digit after the point: dropped once 17 digits are held. *)
Definition fraction_digit (st : scan) (c : ascii) : scan :=
  if num_digits st <? 17 then
    {| number := PrimFloat.add (PrimFloat.mul (number st) 10%float) (digit c);
       num_digits := num_digits st + 1;
       exponent := exponent st - 1 |}
  else st.

Definition power_of_ten (k : Z) : float := Decimal64.of_decimal false 1 k.

(** The number scaled by its power of ten, one multiplication or division
    by a tabulated power (two for a subnormal); [None] where the parser
    reports a range error. *)
Definition scale (x : float) (e : Z) : option float :=
  if 308 <? e then None
  else
    let y :=
      if 0 <? e then PrimFloat.mul x (power_of_ten e)
      else if e <? -308 then
        if e <? -616 then 0%float
        else PrimFloat.div (PrimFloat.div x (power_of_ten (- 308 - e))) (power_of_ten 308)
      else PrimFloat.div x (power_of_ten (- e)) in
    if PrimFloat.eqb (PrimFloat.abs y) PrimFloat.infinity then None else Some y.

(** A decimal numeral with white space around it: sign, digits, an optional
    point and digits, an optional exponent of at most 17 digits; at least
    one digit before the exponent. *)
Definition parse_decimal (text : string) : option (float * option Z) :=
  let s := skip_spaces (list_ascii_of_string text) in
  let (negative, s) :=
    match s with
    | c :: rest =>
        if Json.code c =? 45 then (true, rest)
        else if Json.code c =? 43 then (false, rest)
        else (false, s)
    | [] => (false, s)
    end in
  let (whole, s) := Json.take_digits s in
  let st := fold_left whole_digit whole {| number := 0%float; num_digits := 0; exponent := 0 |} in
  let '(has_point, st, s) :=
    match s with
    | c :: rest =>
        if Json.code c =? 46 then
          let (fraction, rest') := Json.take_digits rest in
          (true, fold_left fraction_digit fraction st, rest')
        else (false, st, s)
    | [] => (false, st, s)
    end in
  if num_digits st =? 0 then None
  else
    let x := if negative then PrimFloat.opp (number st) else number st in
    let '(has_exponent, e, s) :=
      match s with
      | c :: rest =>
          if (Json.code c =? 101) || (Json.code c =? 69) then
            let (exp_negative, rest') :=
              match rest with
              | sg :: tl =>
                  if Json.code sg =? 45 then (true, tl)
                  else if Json.code sg =? 43 then (false, tl)
                  else (false, rest)
              | [] => (false, rest)
              end in
            let (ds, tl) := Json.take_digits rest' in
            match ds with
            | [] => (true, exponent st, s)
            | _ =>
                let n := Json.digits_value (firstn 17 ds) in
                (true, (if exp_negative then exponent st - n else exponent st + n),
                 (skipn 17 ds ++ tl)%list)
            end
          else (false, exponent st, s)
      | [] => (false, exponent st, s)
      end in
    match scale x e, skip_spaces s with
    | Some f, [] =>
        if has_point || has_exponent then Some (f, None)
        else Some (f, Some (if negative then - Json.digits_value whole else Json.digits_value whole))
    | _, _ => None
    end.

Definition lower (c : ascii) : ascii :=
  let n := Json.code c in if (65 <=? n) && (n <=? 90) then Json.char (n + 32) else c.

(** The parser behind [pd.to_numeric] on a text: a decimal numeral, or one
    of the words for an infinity, in any case. *)
Definition parse_numeric (text : string) : option (float * option Z) :=
  match parse_decimal text with
  | Some reading => Some reading
  | None =>
      let word := string_of_list_ascii (map lower (list_ascii_of_string text)) in
      if String.eqb word "inf" || String.eqb word "+inf" ||
         String.eqb word "infinity" || String.eqb word "+infinity"
      then Some (PrimFloat.infinity, None)
      else if String.eqb word "-inf" || String.eqb word "-infinity"
      then Some (PrimFloat.neg_infinity, None)
      else None
  end.

End Text.

(** The reference instance. *)
Definition reference_lib : PyLib :=
  {| json_loads := Json.loads;
     json_dumps := Json.dumps;
     str_strip := Text.strip;
     md5_hexdigest := MD5.hexdigest;
     float_repr := Decimal64.repr;
     container_repr := Text.repr;
     parse_numeric := Text.parse_numeric |}.

(** * Properties *)

Local Open Scope list_scope.

(** ** The error monad and dicts *)

Lemma bind_ok : forall {A B : Type} (c : result A) (k : A -> result B) (b : B),
  (x <- c ;; k x) = Ok b -> exists a, c = Ok a /\ k a = Ok b.
Proof.
  intros A B [a | e] k b H; simpl in H; [eauto | discriminate].
Qed.

Lemma for_each_ok_map : forall {A B : Type} (f : A -> result B) (g : A -> B) (l : list A),
  (forall x, In x l -> f x = Ok (g x)) -> for_each f l = Ok (map g l).
Proof.
  induction l as [| x l IH]; intros H; simpl; [reflexivity |].
  rewrite (H x (or_introl eq_refl)); simpl.
  rewrite IH by (intros y Hy; apply H; right; exact Hy).
  reflexivity.
Qed.

Lemma for_each_length : forall {A B : Type} (f : A -> result B) (l : list A) (out : list B),
  for_each f l = Ok out -> List.length out = List.length l.
Proof.
  induction l as [| x l IH]; intros out H; simpl in H.
  - injection H as <-. reflexivity.
  - apply bind_ok in H as (y & _ & H).
    apply bind_ok in H as (ys & Hys & H).
    injection H as <-. simpl. f_equal. apply IH. exact Hys.
Qed.

Lemma dict_get_app : forall (d1 d2 : dict) (k : string),
  dict_get (d1 ++ d2) k =
  match dict_get d1 k with Some v => Some v | None => dict_get d2 k end.
Proof.
  induction d1 as [| [k' v'] d1 IH]; intros d2 k; simpl; [reflexivity |].
  destruct (String.eqb k k'); [reflexivity | apply IH].
Qed.

Lemma dict_get_absent : forall (d : dict) (k : string),
  ~ In k (dict_keys d) -> dict_get d k = None.
Proof.
  induction d as [| [k' v'] d IH]; intros k H; simpl; [reflexivity |].
  destruct (String.eqb_spec k k') as [-> | Hne].
  - exfalso. apply H. left. reflexivity.
  - apply IH. intros Hin. apply H. right. exact Hin.
Qed.

Lemma dict_get_present : forall (d : dict) (k : string) (v : value),
  dict_wf d -> In (k, v) d -> dict_get d k = Some v.
Proof.
  induction d as [| [k' v'] d IH]; intros k v Hwf Hin; [destruct Hin |].
  unfold dict_wf in Hwf. simpl in Hwf. inversion Hwf as [| ? ? Hnotin Hwf']; subst.
  simpl. destruct Hin as [Heq | Hin].
  - injection Heq as -> ->. rewrite String.eqb_refl. reflexivity.
  - destruct (String.eqb_spec k k') as [-> | Hne].
    + exfalso. apply Hnotin. change (In k' (map fst d)).
      apply (in_map fst) in Hin. exact Hin.
    + apply IH; assumption.
Qed.

Lemma dict_get_set_same : forall (d : dict) (k : string) (v : value),
  dict_get (dict_set d k v) k = Some v.
Proof.
  induction d as [| [k' v'] d IH]; intros k v; simpl.
  - rewrite String.eqb_refl. reflexivity.
  - destruct (String.eqb_spec k k') as [-> | Hne]; simpl.
    + rewrite String.eqb_refl. reflexivity.
    + destruct (String.eqb_spec k k'); [contradiction | apply IH].
Qed.

Lemma dict_get_set_other : forall (d : dict) (k k' : string) (v : value),
  k <> k' -> dict_get (dict_set d k v) k' = dict_get d k'.
Proof.
  induction d as [| [k0 v0] d IH]; intros k k' v Hne; simpl.
  - destruct (String.eqb_spec k' k); [congruence | reflexivity].
  - destruct (String.eqb_spec k k0) as [-> | Hne0]; simpl.
    + destruct (String.eqb_spec k' k0); [congruence | reflexivity].
    + destruct (String.eqb k' k0); [reflexivity | apply IH; exact Hne].
Qed.

Lemma dict_set_absent : forall (d : dict) (k : string) (v : value),
  ~ In k (dict_keys d) -> dict_set d k v = d ++ [(k, v)].
Proof.
  induction d as [| [k' v'] d IH]; intros k v H; simpl; [reflexivity |].
  destruct (String.eqb_spec k k') as [-> | Hne].
  - exfalso. apply H. left. reflexivity.
  - f_equal. apply IH. intros Hin. apply H. right. exact Hin.
Qed.

(** One binding written into a dict, the step of [dict.update]. *)
Definition write (acc : dict) (kv : string * value) : dict :=
  dict_set acc (fst kv) (snd kv).

(** Writing bindings with fresh, pairwise distinct keys appends them. *)
Lemma fold_dict_set_fresh : forall (bs d : dict),
  NoDup (dict_keys (d ++ bs)) ->
  fold_left write bs d = d ++ bs.
Proof.
  induction bs as [| [k v] bs IH]; intros d H; simpl.
  - rewrite app_nil_r. reflexivity.
  - unfold write at 2. cbn [fst snd].
    assert (Hfresh : ~ In k (dict_keys d)).
    { unfold dict_keys in *. rewrite map_app in H. simpl in H.
      apply NoDup_remove_2 in H. intros Hin. apply H. apply in_or_app. left. exact Hin. }
    rewrite (dict_set_absent d k v Hfresh).
    rewrite IH.
    + rewrite <- app_assoc. reflexivity.
    + rewrite <- app_assoc. exact H.
Qed.

(** ** C2: cart fan-out *)

Definition cart_level_fields : list string :=
  [ "cart_id"; "user_id"; "total_cart_value"; "discounted_total_cart_value";
    "total_products"; "total_quantity" ].

Definition item_level_fields : list string :=
  [ "product_id"; "product_title"; "product_price"; "product_quantity"; "product_total";
    "product_discount_percentage"; "product_discounted_total"; "product_thumbnail" ].

(** The cart-level bindings of a cart and the item-level bindings of one line
    item, as the flattener reads them. *)
Definition cart_bindings (cart_data : dict) : dict :=
  [ ("cart_id", dict_get_default cart_data "id" VNone);
    ("user_id", dict_get_default cart_data "userId" VNone);
    ("total_cart_value", dict_get_default cart_data "total" VNone);
    ("discounted_total_cart_value", dict_get_default cart_data "discountedTotal" VNone);
    ("total_products", dict_get_default cart_data "totalProducts" VNone);
    ("total_quantity", dict_get_default cart_data "totalQuantity" VNone) ].

Definition item_bindings (product : dict) : dict :=
  [ ("product_id", dict_get_default product "id" VNone);
    ("product_title", dict_get_default product "title" VNone);
    ("product_price", dict_get_default product "price" VNone);
    ("product_quantity", dict_get_default product "quantity" VNone);
    ("product_total", dict_get_default product "total" VNone);
    ("product_discount_percentage", dict_get_default product "discountPercentage" VNone);
    ("product_discounted_total", dict_get_default product "discountedTotal" VNone);
    ("product_thumbnail", dict_get_default product "thumbnail" VNone) ].

Lemma cart_row_bindings : forall (cart_data product : dict),
  Flatten.cart_row (cart_bindings cart_data) (VDict product) =
  Ok (cart_bindings cart_data ++ item_bindings product).
Proof. intros. reflexivity. Qed.

Lemma flatten_cart_json_rows : forall (nested_json cart_data : dict) (line_items : list dict),
  dict_get_default nested_json "data" (VDict []) = VDict cart_data ->
  dict_get_default cart_data "products" (VList []) = VList (map VDict line_items) ->
  Flatten.flatten_cart_json nested_json =
  Ok (map (fun item => cart_bindings cart_data ++ item_bindings item) line_items).
Proof.
  intros nested_json cart_data line_items Hdata Hproducts.
  unfold Flatten.flatten_cart_json. rewrite Hdata.
  change (Flatten.cart_info (VDict cart_data)) with (Ok (cart_bindings cart_data)).
  cbn [bind method_get]. rewrite Hproducts.
  cbn [py_iter bind].
  rewrite (for_each_ok_map (Flatten.cart_row (cart_bindings cart_data))
             (fun v => match v with
                       | VDict item => cart_bindings cart_data ++ item_bindings item
                       | _ => []
                       end)).
  - rewrite map_map. reflexivity.
  - intros x Hx. apply in_map_iff in Hx as (item & <- & _). apply cart_row_bindings.
Qed.

(** C2.  A cart whose product list holds N line items (objects) flattens to
    exactly N rows; each row carries the cart's six cart-level values; two
    rows of the cart agree on every column outside the eight per-item
    columns; a cart with no line item gives no row. *)
Theorem flatten_cart_json_fan_out :
  forall (nested_json cart_data : dict) (line_items : list dict),
    dict_get nested_json "data" = Some (VDict cart_data) ->
    dict_get cart_data "products" = Some (VList (map VDict line_items)) ->
    exists rows,
      Flatten.flatten_cart_json nested_json = Ok rows /\
      List.length rows = List.length line_items /\
      (forall row, In row rows ->
         dict_get row "cart_id" = Some (dict_get_default cart_data "id" VNone) /\
         dict_get row "user_id" = Some (dict_get_default cart_data "userId" VNone) /\
         dict_get row "total_cart_value" = Some (dict_get_default cart_data "total" VNone) /\
         dict_get row "discounted_total_cart_value" =
           Some (dict_get_default cart_data "discountedTotal" VNone) /\
         dict_get row "total_products" = Some (dict_get_default cart_data "totalProducts" VNone) /\
         dict_get row "total_quantity" = Some (dict_get_default cart_data "totalQuantity" VNone)) /\
      (forall r1 r2 k, In r1 rows -> In r2 rows ->
         ~ In k item_level_fields -> dict_get r1 k = dict_get r2 k) /\
      (line_items = [] -> rows = []).
Proof.
  intros nested_json cart_data line_items Hdata Hproducts.
  assert (Hdata' : dict_get_default nested_json "data" (VDict []) = VDict cart_data)
    by (unfold dict_get_default; rewrite Hdata; reflexivity).
  assert (Hproducts' : dict_get_default cart_data "products" (VList [])
                       = VList (map VDict line_items))
    by (unfold dict_get_default; rewrite Hproducts; reflexivity).
  eexists. split; [apply (flatten_cart_json_rows _ _ _ Hdata' Hproducts') |].
  split; [apply length_map |].
  split; [| split].
  - intros row Hrow. apply in_map_iff in Hrow as (item & <- & _).
    repeat split; reflexivity.
  - intros r1 r2 k H1 H2 Hk.
    apply in_map_iff in H1 as (i1 & <- & _). apply in_map_iff in H2 as (i2 & <- & _).
    rewrite !dict_get_app.
    rewrite (dict_get_absent (item_bindings i1)) by exact Hk.
    rewrite (dict_get_absent (item_bindings i2)) by exact Hk.
    reflexivity.
  - intros ->. reflexivity.
Qed.

(** ** C7: user flattening *)

(** The bindings the two passes of the user and product flatteners write, in
    the order they write them. *)
Definition scalar_bindings (prefix : string) (items : dict) : dict :=
  flat_map (fun kv => if is_scalar (snd kv)
                      then [((prefix ++ fst kv)%string, snd kv)]
                      else []) items.

Definition nested_bindings (prefix : string) (items : dict) : dict :=
  flat_map (fun kv =>
              match snd kv with
              | VDict sub =>
                  map (fun skv => ((prefix ++ fst kv ++ "_" ++ fst skv)%string, snd skv)) sub
              | VList l =>
                  [((prefix ++ fst kv ++ "_count")%string, VInt (Z.of_nat (List.length l)))]
              | _ => []
              end) items.

Definition written_bindings (prefix : string) (items : dict) : dict :=
  scalar_bindings prefix items ++ nested_bindings prefix items.

Definition written_columns (prefix : string) (items : dict) : list string :=
  dict_keys (written_bindings prefix items).

(** Two values that differ at most in the contents of a list of some fixed
    length. *)
Definition same_up_to_list_contents (kv kv' : string * value) : Prop :=
  fst kv = fst kv' /\
  (snd kv = snd kv' \/
   exists l l', snd kv = VList l /\ snd kv' = VList l' /\ List.length l = List.length l').

Lemma scalar_columns_fold : forall (prefix : string) (items acc : dict),
  fold_left
    (fun acc kv => if is_scalar (snd kv) then dict_set acc (prefix ++ fst kv)%string (snd kv) else acc)
    items acc
  = fold_left write (scalar_bindings prefix items) acc.
Proof.
  induction items as [| [k v] items IH]; intros acc; [reflexivity |].
  cbn [fold_left scalar_bindings flat_map fst snd].
  rewrite fold_left_app. fold (scalar_bindings prefix items).
  rewrite IH. destruct (is_scalar v); reflexivity.
Qed.

Lemma fold_left_map : forall {A B C : Type} (f : A -> C -> A) (g : B -> C) (l : list B) (a : A),
  fold_left f (map g l) a = fold_left (fun acc x => f acc (g x)) l a.
Proof.
  induction l as [| x l IH]; intros a; [reflexivity | apply IH].
Qed.

Lemma nested_step_fold : forall (prefix : string) (items acc : dict),
  fold_left (Flatten.nested_step prefix) items acc
  = fold_left write (nested_bindings prefix items) acc.
Proof.
  induction items as [| [k v] items IH]; intros acc; [reflexivity |].
  cbn [fold_left nested_bindings flat_map fst snd].
  rewrite fold_left_app. fold (nested_bindings prefix items).
  rewrite IH. f_equal.
  unfold Flatten.nested_step. cbn [fst snd].
  destruct v; try reflexivity.
  rewrite fold_left_map. reflexivity.
Qed.

Lemma flatten_prefixed_fold : forall (prefix : string) (nested_json data : dict),
  dict_get_default nested_json "data" (VDict []) = VDict data ->
  Flatten.flatten_prefixed prefix nested_json =
  Ok [fold_left write (written_bindings prefix data) []].
Proof.
  intros prefix nested_json data Hdata.
  unfold Flatten.flatten_prefixed. rewrite Hdata. cbn [method_items bind].
  unfold Flatten.scalar_columns, written_bindings.
  rewrite nested_step_fold, scalar_columns_fold, fold_left_app. reflexivity.
Qed.

Lemma scalar_bindings_in : forall (prefix : string) (items : dict) (f : string) (v : value),
  In (f, v) items -> is_scalar v = true ->
  In ((prefix ++ f)%string, v) (scalar_bindings prefix items).
Proof.
  intros prefix items f v Hin Hs. unfold scalar_bindings.
  apply in_flat_map. exists (f, v). split; [exact Hin |].
  cbn [fst snd]. rewrite Hs. left. reflexivity.
Qed.

Lemma same_contents_bindings : forall (prefix : string) (items items' : dict),
  Forall2 same_up_to_list_contents items items' ->
  written_bindings prefix items = written_bindings prefix items'.
Proof.
  intros prefix items items' H. unfold written_bindings.
  assert (Hs : scalar_bindings prefix items = scalar_bindings prefix items').
  { induction H as [| [k v] [k' v'] l l' [Hk Hv] _ IH]; [reflexivity |].
    cbn [scalar_bindings flat_map] in *. cbn [fst snd] in *. subst k'.
    f_equal; [| exact IH].
    destruct Hv as [-> | (a & b & -> & -> & _)]; reflexivity. }
  assert (Hn : nested_bindings prefix items = nested_bindings prefix items').
  { clear Hs. induction H as [| [k v] [k' v'] l l' [Hk Hv] _ IH]; [reflexivity |].
    cbn [nested_bindings flat_map] in *. cbn [fst snd] in *. subst k'.
    f_equal; [| exact IH].
    destruct Hv as [-> | (a & b & -> & -> & Hlen)]; [reflexivity |].
    rewrite Hlen. reflexivity. }
  rewrite Hs, Hn. reflexivity.
Qed.

(** C7, as amended.  A user record flattens to exactly one row.  When the
    column names the flattener writes are pairwise distinct, every top-level
    str, int, float or bool field [f] with value [v] is the column
    [user_f = v], every subfield [s] of a nested object field [f] is the
    column [user_f_s], every list field [f] is the column [user_f_count]
    holding the length of the list, and the row has no other column; in
    every case the row depends on a list only through its length. *)
Theorem flatten_user_json_columns :
  forall (nested_json user_data : dict),
    dict_get_default nested_json "data" (VDict []) = VDict user_data ->
    exists row,
      Flatten.flatten_user_json nested_json = Ok [row] /\
      (forall nested_json' user_data',
         dict_get_default nested_json' "data" (VDict []) = VDict user_data' ->
         Forall2 same_up_to_list_contents user_data user_data' ->
         Flatten.flatten_user_json nested_json' = Ok [row]) /\
      (NoDup (written_columns "user_" user_data) ->
       (forall f v, In (f, v) user_data -> is_scalar v = true ->
          dict_get row ("user_" ++ f)%string = Some v) /\
       (forall f sub s v, In (f, VDict sub) user_data -> In (s, v) sub ->
          dict_get row ("user_" ++ f ++ "_" ++ s)%string = Some v) /\
       (forall f l, In (f, VList l) user_data ->
          dict_get row ("user_" ++ f ++ "_count")%string
          = Some (VInt (Z.of_nat (List.length l)))) /\
       dict_keys row = written_columns "user_" user_data).
Proof.
  intros nested_json user_data Hdata.
  eexists. split; [apply (flatten_prefixed_fold "user_" _ _ Hdata) |].
  split.
  - intros nested_json' user_data' Hdata' Hsame.
    unfold Flatten.flatten_user_json.
    rewrite (flatten_prefixed_fold "user_" _ _ Hdata').
    rewrite (same_contents_bindings "user_" _ _ Hsame). reflexivity.
  - intros Hnodup.
    rewrite (fold_dict_set_fresh (written_bindings "user_" user_data) []) by exact Hnodup.
    cbn [app].
    assert (Hget : forall k v, In (k, v) (written_bindings "user_" user_data) ->
                               dict_get (written_bindings "user_" user_data) k = Some v).
    { intros k v. apply dict_get_present. exact Hnodup. }
    repeat split.
    + intros f v Hin Hs. apply Hget. apply in_or_app. left.
      apply scalar_bindings_in; assumption.
    + intros f sub s v Hin Hsub. apply Hget. apply in_or_app. right.
      apply in_flat_map. exists (f, VDict sub). split; [exact Hin |].
      cbn [fst snd]. apply in_map_iff. exists (s, v). split; [reflexivity | exact Hsub].
    + intros f l Hin. apply Hget. apply in_or_app. right.
      apply in_flat_map. exists (f, VList l). split; [exact Hin |].
      cbn [fst snd]. left. reflexivity.
Qed.

(** A user whose scalar field [address_city] and nested field
    [address.city] are written to the same column, and a user with a null
    field. *)
Definition colliding_user : dict :=
  [ ("data", VDict [ ("address_city", VStr "X");
                     ("address", VDict [("city", VStr "Y")]) ]) ].

Definition null_field_user : dict :=
  [ ("data", VDict [("maidenName", VNone)]) ].

(** C7 as stated fails: the scalar field [address_city = X] of the first
    record is not the column [user_address_city = X] of its row; and the
    null field of the second record, a scalar of the data model, gives no
    column at all. *)
Lemma flatten_user_json_scalar_overwritten :
  (exists row,
     Flatten.flatten_user_json colliding_user = Ok [row] /\
     In ("address_city", VStr "X")
        [ ("address_city", VStr "X"); ("address", VDict [("city", VStr "Y")]) ] /\
     is_scalar (VStr "X") = true /\
     dict_get row "user_address_city" = Some (VStr "Y") /\
     dict_get row "user_address_city" <> Some (VStr "X")) /\
  Flatten.flatten_user_json null_field_user = Ok [[]].
Proof.
  split; [| reflexivity].
  exists [("user_address_city", VStr "Y")].
  split; [reflexivity |]. split; [left; reflexivity |]. split; [reflexivity |].
  split; [reflexivity | discriminate].
Qed.

(** ** Frames: projection, numeric coercion and row filters *)

Lemma dict_get_default_set_same : forall (d : dict) (k : string) (v default : value),
  dict_get_default (dict_set d k v) k default = v.
Proof.
  intros. unfold dict_get_default. rewrite dict_get_set_same. reflexivity.
Qed.

Lemma dict_get_default_set_other : forall (d : dict) (k k' : string) (v default : value),
  k <> k' -> dict_get_default (dict_set d k v) k' default = dict_get_default d k' default.
Proof.
  intros. unfold dict_get_default. rewrite dict_get_set_other by assumption. reflexivity.
Qed.

Lemma dict_set_twice : forall (d : dict) (k : string) (v v' : value),
  dict_set (dict_set d k v) k v' = dict_set d k v'.
Proof.
  induction d as [| [k0 v0] d IH]; intros k v v'; simpl.
  - rewrite String.eqb_refl. reflexivity.
  - destruct (String.eqb_spec k k0) as [-> | Hne]; simpl.
    + rewrite String.eqb_refl. reflexivity.
    + destruct (String.eqb_spec k k0); [contradiction |]. f_equal. apply IH.
Qed.

Lemma combine_map_self : forall {A B : Type} (g : A -> B) (l : list A),
  combine l (map g l) = map (fun x => (x, g x)) l.
Proof.
  induction l as [| x l IH]; simpl; [reflexivity | f_equal; exact IH].
Qed.

Lemma select_present : forall (df : DataFrame) (cols : list string),
  Pandas.check_columns (columns df) cols = Ok tt ->
  Pandas.select df cols =
  Ok {| columns := cols; records := map (Pandas.reindex cols) (records df) |}.
Proof.
  intros df cols H. unfold Pandas.select. rewrite H. reflexivity.
Qed.

(** The numeric reading of a cell, case by case: what [pd.to_numeric] with
    [errors='coerce'] may leave in place of [raw].  A number stays the
    number, as an int or as a float with the rest of its column; a text is
    the number the parser reads in it; a text that is no number, an empty
    text, None and any other object are NaN. *)
Definition reads_as (L : PyLib) (raw cell : value) : Prop :=
  match raw with
  | VInt n => cell = VInt n \/ cell = VFloat (Pandas.float_of_Z n)
  | VFloat f =>
      cell = VFloat f \/ exists n, Pandas.whole_float f = Some n /\ cell = VInt n
  | VBool b =>
      cell = VBool b \/ cell = VInt (if b then 1 else 0) \/
      cell = VFloat (if b then 1%float else 0%float)
  | VStr s =>
      if String.eqb s "" then cell = NaN
      else match parse_numeric L s with
           | Some (f, Some n) => cell = VInt n \/ cell = VFloat f
           | Some (f, None) => cell = VFloat f
           | None => cell = NaN
           end
  | VNone | VList _ | VDict _ => cell = NaN
  end.

Lemma Forall2_map_right : forall {A B : Type} (R : A -> B -> Prop) (f : A -> B) (l : list A),
  (forall x, R x (f x)) -> Forall2 R l (map f l).
Proof.
  induction l as [| x l IH]; intros H; simpl; constructor; auto.
Qed.

Lemma all_int64_reads : forall (L : PyLib) (vs : list value) (ns : list Z),
  Pandas.all_int64 vs = Some ns -> Forall2 (reads_as L) vs (map VInt ns).
Proof.
  induction vs as [| v vs IH]; intros ns H; cbn [Pandas.all_int64] in H.
  - injection H as <-. constructor.
  - destruct (Pandas.as_int64 v) as [n |] eqn:Hv; [| discriminate].
    destruct (Pandas.all_int64 vs) as [ns' |]; [| discriminate].
    injection H as <-. cbn [map]. constructor; [| apply IH; reflexivity].
    destruct v as [| b | z | f | | |]; try discriminate; cbn [Pandas.as_int64] in Hv.
    + injection Hv as <-. cbn [reads_as]. right. left. reflexivity.
    + destruct ((Pandas.int64_min <=? z) && (z <=? Pandas.int64_max)); [| discriminate].
      injection Hv as <-. left. reflexivity.
    + destruct (Pandas.whole_float f) as [m |] eqn:Hf; [| discriminate].
      destruct ((Pandas.int64_min <=? m) && (m <=? Pandas.int64_max)); [| discriminate].
      injection Hv as <-. right. exists m. split; [exact Hf | reflexivity].
Qed.

Lemma float_of_cell_reads : forall (L : PyLib) (v : value),
  reads_as L v (Pandas.float_of_cell (Pandas.read_numeric L v)).
Proof.
  intros L [| b | n | f | s | l | d]; cbn [Pandas.read_numeric reads_as];
    try reflexivity; try (right; reflexivity); try (left; reflexivity).
  - right. right. reflexivity.
  - destruct (String.eqb s ""); [reflexivity |].
    destruct (parse_numeric L s) as [[f [n |]] |]; cbn [Pandas.float_of_cell];
      try reflexivity. right. reflexivity.
Qed.

Lemma int_of_cell_reads : forall (L : PyLib) (v : value),
  match Pandas.read_numeric L v with
  | Pandas.IntCell _ _ | Pandas.BoolCell _ => True
  | _ => False
  end ->
  reads_as L v (Pandas.int_of_cell (Pandas.read_numeric L v)).
Proof.
  intros L [| b | n | f | s | l | d]; cbn [Pandas.read_numeric reads_as];
    try contradiction; intros H.
  - right. left. reflexivity.
  - left. reflexivity.
  - destruct (String.eqb s ""); [contradiction |].
    destruct (parse_numeric L s) as [[f [n |]] |]; try contradiction.
    left. reflexivity.
Qed.

Lemma existsb_false_in : forall {A : Type} (f : A -> bool) (l : list A) (x : A),
  existsb f l = false -> In x l -> f x = false.
Proof.
  intros A f l x H Hin. destruct (f x) eqn:Hx; [| reflexivity].
  rewrite <- H. symmetry. apply existsb_exists. exists x. split; assumption.
Qed.

Lemma sees_float_false : forall (cells : list Pandas.numeric_cell) (c : Pandas.numeric_cell),
  Pandas.sees_float cells = false -> In c cells ->
  match c with
  | Pandas.IntCell _ _ | Pandas.BoolCell _ => True
  | _ => False
  end.
Proof.
  intros cells c H Hin. unfold Pandas.sees_float in H.
  apply orb_false_iff in H as [H _].
  pose proof (existsb_false_in _ _ c H Hin) as Hc. cbn beta in Hc.
  destruct c; try exact I; discriminate.
Qed.

Lemma sees_int_false : forall (cells : list Pandas.numeric_cell) (c : Pandas.numeric_cell),
  Pandas.sees_int cells = false -> In c cells ->
  match c with Pandas.IntCell _ _ => False | _ => True end.
Proof.
  intros cells c H Hin. unfold Pandas.sees_int in H.
  pose proof (existsb_false_in _ _ c H Hin) as Hc. cbn beta in Hc.
  destruct c; try exact I; discriminate.
Qed.

Lemma Forall2_map_in : forall {A B : Type} (R : A -> B -> Prop) (f : A -> B) (l : list A),
  (forall x, In x l -> R x (f x)) -> Forall2 R l (map f l).
Proof.
  induction l as [| x l IH]; intros H; simpl; constructor.
  - apply H. left. reflexivity.
  - apply IH. intros y Hy. apply H. right. exact Hy.
Qed.

Lemma Forall2_self_in : forall {A : Type} (R : A -> A -> Prop) (l : list A),
  (forall x, In x l -> R x x) -> Forall2 R l l.
Proof.
  induction l as [| x l IH]; intros H; constructor.
  - apply H. left. reflexivity.
  - apply IH. intros y Hy. apply H. right. exact Hy.
Qed.

(** Every cell [pd.to_numeric] returns is the numeric reading of the cell it
    was given. *)
Lemma to_numeric_reads : forall (L : PyLib) (vs : list value),
  Forall2 (reads_as L) vs (Pandas.to_numeric L vs).
Proof.
  intros L vs. unfold Pandas.to_numeric.
  set (fast := match vs with VInt _ :: _ => Pandas.all_int64 vs | _ => None end).
  assert (Hfast : forall ns, fast = Some ns -> Pandas.all_int64 vs = Some ns).
  { unfold fast. intros ns H. destruct vs as [| [| | | | | |] vs']; try discriminate. exact H. }
  destruct fast as [ns |]; [apply all_int64_reads; apply Hfast; reflexivity |].
  clear Hfast. cbv zeta.
  destruct (Pandas.sees_float (map (Pandas.read_numeric L) vs)) eqn:Hfloat.
  - rewrite map_map. apply Forall2_map_right. intros v. apply float_of_cell_reads.
  - destruct (Pandas.sees_int (map (Pandas.read_numeric L) vs)) eqn:Hint.
    + rewrite map_map. apply Forall2_map_in. intros v Hv.
      apply int_of_cell_reads.
      apply (sees_float_false _ _ Hfloat). apply in_map. exact Hv.
    + apply Forall2_self_in. intros v Hv.
      pose proof (sees_float_false _ (Pandas.read_numeric L v) Hfloat (in_map _ _ _ Hv)) as H1.
      pose proof (sees_int_false _ (Pandas.read_numeric L v) Hint (in_map _ _ _ Hv)) as H2.
      destruct v as [| b | n | f | s | l | d]; cbn [Pandas.read_numeric] in H1, H2;
        try contradiction.
      * left. reflexivity.
      * cbn [reads_as]. destruct (String.eqb s ""); [contradiction |].
        destruct (parse_numeric L s) as [[f [n |]] |]; contradiction.
Qed.

(** The rows after [df[c] = pd.to_numeric(df[c], errors='coerce')]: the
    cell of [c] is the numeric reading of the old one, the rest of the row
    is as it was. *)
Definition numeric_step (L : PyLib) (c : string) (r r' : dict) : Prop :=
  exists v, reads_as L (dict_get_default r c NaN) v /\ r' = dict_set r c v.

Lemma set_column_rows : forall (R : value -> value -> Prop) (c : string)
                               (rows : list dict) (vs : list value),
  Forall2 R (map (fun r => dict_get_default r c NaN) rows) vs ->
  Forall2 (fun r r' => exists v, R (dict_get_default r c NaN) v /\ r' = dict_set r c v)
          rows (map (fun rv => dict_set (fst rv) c (snd rv)) (combine rows vs)).
Proof.
  intros R c. induction rows as [| r rows IH]; intros vs H; inversion H; subst; simpl.
  - constructor.
  - constructor; [eexists; split; [eassumption | reflexivity] | apply IH; assumption].
Qed.

Lemma to_numeric_column_rows : forall (L : PyLib) (df : DataFrame) (c : string),
  Pandas.has_column (columns df) c = true ->
  exists rows : list dict,
    Pandas.to_numeric_column L df c = Ok {| columns := columns df; records := rows |} /\
    Forall2 (numeric_step L c) (records df) rows.
Proof.
  intros L df c Hc.
  unfold Pandas.to_numeric_column, Pandas.getitem. rewrite Hc. cbn [bind].
  unfold Pandas.setitem_column, Pandas.add_label. rewrite Hc.
  eexists. split; [reflexivity |].
  apply (set_column_rows (reads_as L)). apply to_numeric_reads.
Qed.

Lemma Forall2_trans_step : forall {A B C : Type} (R : A -> B -> Prop) (S : B -> C -> Prop)
                                  (T : A -> C -> Prop) (l : list A) (l' : list B) (l'' : list C),
  (forall x y z, R x y -> S y z -> T x z) ->
  Forall2 R l l' -> Forall2 S l' l'' -> Forall2 T l l''.
Proof.
  intros A B C R S T l l' l'' H H1. revert l''.
  induction H1 as [| x y l l' Hxy _ IH]; intros l'' H2; inversion H2; subst; constructor.
  - eapply H; eassumption.
  - apply IH. assumption.
Qed.

Lemma numeric_rows : forall (L : PyLib) (c : string) (g : dict -> dict)
                           (rows prepared : list dict) (T : dict -> dict -> Prop),
  Forall2 (numeric_step L c) (map g rows) prepared ->
  (forall raw v, reads_as L (dict_get_default (g raw) c NaN) v -> T raw (dict_set (g raw) c v)) ->
  Forall2 T rows prepared.
Proof.
  intros L c g rows prepared T Hrows HT.
  apply (Forall2_trans_step (fun raw r0 => r0 = g raw) (numeric_step L c) T
           rows (map g rows) prepared).
  - intros raw r0 r -> (v & Hv & ->). apply HT. exact Hv.
  - apply Forall2_map_right. intros raw. reflexivity.
  - exact Hrows.
Qed.

(** ** C6: the price filter of the products loader *)

Definition products_required : list string :=
  [ "sgk_product_id"; "product_id"; "product_title"; "product_category"; "product_brand";
    "product_price"; "record_create_name"; "record_create_datetime"; "record_update_name";
    "record_update_datetime"; "source_system_code" ].

Definition products_target : list string :=
  [ "sgk_product_id"; "product_id"; "name"; "category"; "brand"; "price";
    "record_create_name"; "record_create_datetime"; "record_update_name";
    "record_update_datetime"; "source_system_code" ].

(** The price cell of a cleaned row. *)
Definition price_of (r : dict) : value := dict_get_default r "price" NaN.

(** A frame with the required columns and the given price cells. *)
Definition product_record (price : value) : dict :=
  [ ("sgk_product_id", VStr "k"); ("product_id", VInt 1); ("product_title", VStr "t");
    ("product_category", VStr "c"); ("product_brand", VStr "b"); ("product_price", price);
    ("record_create_name", VStr "n"); ("record_create_datetime", VStr "d");
    ("record_update_name", VStr "n"); ("record_update_datetime", VStr "d");
    ("source_system_code", VStr "s") ].

Definition products_frame (prices : list value) : DataFrame :=
  {| columns := products_required; records := map product_record prices |}.

(** The cleaned row of [product_record], with its price cell. *)
Definition cleaned_product (price : value) : dict :=
  [ ("sgk_product_id", VStr "k"); ("product_id", VInt 1); ("name", VStr "t");
    ("category", VStr "c"); ("brand", VStr "b"); ("price", price);
    ("record_create_name", VStr "n"); ("record_create_datetime", VStr "d");
    ("record_update_name", VStr "n"); ("record_update_datetime", VStr "d");
    ("source_system_code", VStr "s") ].

Definition price_49_99 : float := 0x1.8feb851eb851fp+5%float.
Definition price_50_01 : float := 0x1.90147ae147ae1p+5%float.

Lemma cell_gt_50_spec : forall v : value,
  Pandas.cell_gt v 50 = true <->
  (exists n, v = VInt n /\ 50 < n) \/
  (exists f, v = VFloat f /\ PrimFloat.ltb (Pandas.float_of_Z 50) f = true).
Proof.
  intros v. split.
  - destruct v as [| b | n | f | | |]; simpl; intros H; try discriminate.
    + destruct b; discriminate.
    + left. exists n. split; [reflexivity | apply Z.ltb_lt; exact H].
    + right. exists f. split; [reflexivity | exact H].
  - intros [(n & -> & Hn) | (f & -> & Hf)]; simpl; [apply Z.ltb_lt; exact Hn | exact Hf].
Qed.

Lemma clean_products_table_rows : forall (L : PyLib) (df : DataFrame),
  Pandas.check_columns (columns df) products_required = Ok tt ->
  exists prepared : list dict,
    Load.clean_products_table L df =
    Ok {| columns := products_target;
          records := filter (fun r => Pandas.cell_gt (price_of r) 50) prepared |} /\
    Forall2 (fun raw r => reads_as L (dict_get_default raw "product_price" NaN) (price_of r))
            (records df) prepared.
Proof.
  intros L df Hcols.
  unfold Load.clean_products_table.
  change (["sgk_product_id"] ++
          ["product_id"; "product_title"; "product_category"; "product_brand"; "product_price"] ++
          Load.audit_columns) with products_required.
  rewrite (select_present df products_required Hcols). cbn [bind].
  change (["sgk_product_id"; "product_id"; "name"; "category"; "brand"; "price"] ++
          Load.audit_columns) with products_target.
  destruct (to_numeric_column_rows L
              (Pandas.rename_columns
                 {| columns := products_required;
                    records := map (Pandas.reindex products_required) (records df) |}
                 products_target) "price" eq_refl) as (prepared & -> & Hrows).
  cbn [bind Pandas.rename_columns columns records] in Hrows |- *.
  unfold Pandas.filter_gt, Pandas.getitem. cbn [columns records].
  change (Pandas.has_column products_target "price") with true. cbn [bind].
  exists prepared. split; [reflexivity |].
  rewrite map_map in Hrows.
  apply (numeric_rows L "price" _ _ _ _ Hrows).
  intros raw v Hv. unfold price_of. rewrite dict_get_default_set_same. exact Hv.
Qed.

(** The loader on a file of one product. *)
Lemma clean_one_product : forall (L : PyLib) (price cell : value),
  Pandas.to_numeric L [price] = [cell] ->
  Load.clean_products_table L (products_frame [price]) =
  Ok {| columns := products_target;
        records := if Pandas.cell_gt cell 50 then [cleaned_product cell] else [] |}.
Proof.
  intros L price cell H.
  unfold Load.clean_products_table, products_frame, Pandas.select.
  cbn [map columns records].
  change (Pandas.check_columns _ _) with (Ok tt). cbn [bind].
  unfold Pandas.to_numeric_column, Pandas.getitem, Pandas.rename_columns.
  cbn [columns records map].
  change (Pandas.has_column _ "price") with true. cbn [bind].
  change (Pandas.column_values _ "price") with [price]. rewrite H.
  unfold Pandas.filter_gt, Pandas.getitem.
  change (Pandas.has_column _ "price") with true. cbn [bind].
  reflexivity.
Qed.

Lemma to_numeric_one_text : forall (L : PyLib) (text : string),
  text <> EmptyString ->
  Pandas.to_numeric L [VStr text] =
  match parse_numeric L text with
  | Some (f, Some n) =>
      if (n <? Pandas.int64_min) || (Pandas.uint64_max <? n) then [VFloat f] else [VInt n]
  | Some (f, None) => [VFloat f]
  | None => [NaN]
  end.
Proof.
  intros L text Htext. unfold Pandas.to_numeric. cbn [map Pandas.read_numeric].
  destruct (String.eqb_spec text "") as [E | _]; [contradiction |].
  destruct (parse_numeric L text) as [[f [n |]] |]; try reflexivity.
  unfold Pandas.sees_float, Pandas.sees_int. cbn [existsb].
  destruct ((n <? Pandas.int64_min) || (Pandas.uint64_max <? n)) eqn:Hrange;
    cbn [orb andb]; [reflexivity |].
  apply orb_false_iff in Hrange as [Hlow Hhigh].
  destruct (n <? 0) eqn:Hneg; cbn [orb andb]; [| reflexivity].
  destruct (Pandas.int64_max <? n) eqn:Hbig; [| reflexivity].
  apply Z.ltb_lt in Hneg, Hbig. unfold Pandas.int64_max in Hbig. lia.
Qed.

(** C6.  When the required columns are there the products loader returns
    the rows of the coerced table whose price cell is greater than 50, and
    only those.  The price cell is the numeric reading of the cell of the
    file: a number stays the number, a text is the number written in it, and
    a text that is no number reads as NaN.  A cell passes exactly when it
    is an int above 50 or a float above 50.0.  So a price written as the
    text of an integer above 50 is kept, with that integer as its price, and
    one written as the text of a float is kept exactly when the float is
    above 50; a price of 49.99 is dropped, 50.01 is kept, a price of at most
    50 written as text is dropped, and a row whose price is unreadable text
    is dropped. *)
Theorem clean_products_table_price_filter :
  forall (L : PyLib),
    (forall df : DataFrame,
       Pandas.check_columns (columns df) products_required = Ok tt ->
       exists prepared : list dict,
         Load.clean_products_table L df =
         Ok {| columns := products_target;
               records := filter (fun r => Pandas.cell_gt (price_of r) 50) prepared |} /\
         Forall2 (fun raw r =>
                    reads_as L (dict_get_default raw "product_price" NaN) (price_of r))
                 (records df) prepared) /\
    (forall v : value,
       Pandas.cell_gt v 50 = true <->
       (exists n, v = VInt n /\ 50 < n) \/
       (exists f, v = VFloat f /\ PrimFloat.ltb (Pandas.float_of_Z 50) f = true)) /\
    (forall (text : string) (n : Z) (f : float),
       text <> EmptyString ->
       parse_numeric L text = Some (f, Some n) ->
       Pandas.int64_min <= n <= Pandas.uint64_max ->
       Load.clean_products_table L (products_frame [VStr text]) =
       Ok {| columns := products_target;
             records := if 50 <? n then [cleaned_product (VInt n)] else [] |}) /\
    (forall (text : string) (f : float),
       text <> EmptyString ->
       parse_numeric L text = Some (f, None) ->
       Load.clean_products_table L (products_frame [VStr text]) =
       Ok {| columns := products_target;
             records := if PrimFloat.ltb (Pandas.float_of_Z 50) f
                        then [cleaned_product (VFloat f)] else [] |}) /\
    (forall text : string,
       parse_numeric L text = None ->
       Load.clean_products_table L (products_frame [VStr text]) =
       Ok {| columns := products_target; records := [] |}) /\
    Load.clean_products_table L (products_frame [VFloat price_49_99; VFloat price_50_01]) =
    Ok {| columns := products_target; records := [cleaned_product (VFloat price_50_01)] |}.
Proof.
  intros L. split; [apply clean_products_table_rows |].
  split; [apply cell_gt_50_spec |]. split; [| split; [| split]].
  - intros text n f Htext Hparse [Hlow Hhigh].
    rewrite (clean_one_product L (VStr text) (VInt n)); [reflexivity |].
    rewrite (to_numeric_one_text L text Htext), Hparse.
    destruct (Z.ltb_spec n Pandas.int64_min) as [Hlt |]; [lia |].
    destruct (Z.ltb_spec Pandas.uint64_max n) as [Hlt |]; [lia | reflexivity].
  - intros text f Htext Hparse.
    rewrite (clean_one_product L (VStr text) (VFloat f)); [reflexivity |].
    rewrite (to_numeric_one_text L text Htext), Hparse. reflexivity.
  - intros text Hparse.
    rewrite (clean_one_product L (VStr text) NaN); [reflexivity |].
    destruct (String.eqb_spec text "") as [-> | Htext]; [reflexivity |].
    rewrite (to_numeric_one_text L text Htext), Hparse. reflexivity.
  - reflexivity.
Qed.

(** ** C8: the null filters of the users and carts loaders *)

Definition users_required : list string :=
  [ "sgk_user_id"; "user_id"; "user_firstName"; "user_lastName"; "user_gender"; "user_age";
    "user_address_address"; "user_address_city"; "user_address_postalCode";
    "record_create_name"; "record_create_datetime"; "record_update_name";
    "record_update_datetime"; "source_system_code" ].

Definition users_target : list string :=
  [ "sgk_user_id"; "user_id"; "first_name"; "last_name"; "gender"; "age"; "street"; "city";
    "postal_code"; "record_create_name"; "record_create_datetime"; "record_update_name";
    "record_update_datetime"; "source_system_code" ].

Definition carts_required : list string :=
  [ "sgk_cart_id"; "cart_id"; "user_id"; "product_id"; "product_quantity"; "product_price";
    "total_cart_value"; "record_create_name"; "record_create_datetime"; "record_update_name";
    "record_update_datetime"; "source_system_code" ].

Definition carts_target : list string :=
  [ "sgk_cart_id"; "cart_id"; "user_id"; "product_id"; "quantity"; "price";
    "total_cart_value"; "record_create_name"; "record_create_datetime"; "record_update_name";
    "record_update_datetime"; "source_system_code" ].

(** The cell of column [c], NaN when the row has none. *)
Definition cell (r : dict) (c : string) : value := dict_get_default r c NaN.

(** The row has no null cell among [cols]. *)
Definition no_null (cols : list string) (r : dict) : bool :=
  forallb (fun c => negb (Pandas.is_null (cell r c))) cols.

Lemma no_null_spec : forall (cols : list string) (r : dict),
  no_null cols r = true <-> forall c, In c cols -> Pandas.is_null (cell r c) = false.
Proof.
  intros cols r. unfold no_null. rewrite forallb_forall. split; intros H c Hc.
  - apply negb_true_iff. apply H. exact Hc.
  - apply negb_true_iff. apply H. exact Hc.
Qed.

Lemma clean_users_table_rows : forall (L : PyLib) (df : DataFrame),
  Pandas.check_columns (columns df) users_required = Ok tt ->
  exists prepared : list dict,
    Load.clean_users_table L df =
    Ok {| columns := users_target;
          records := filter (no_null ["user_id"; "first_name"; "last_name"]) prepared |} /\
    Forall2 (fun raw r => cell r "user_id" = cell raw "user_id" /\
                          cell r "first_name" = cell raw "user_firstName" /\
                          cell r "last_name" = cell raw "user_lastName")
            (records df) prepared.
Proof.
  intros L df Hcols.
  unfold Load.clean_users_table.
  change (["sgk_user_id"] ++
          ["user_id"; "user_firstName"; "user_lastName"; "user_gender"; "user_age";
           "user_address_address"; "user_address_city"; "user_address_postalCode"] ++
          Load.audit_columns) with users_required.
  rewrite (select_present df users_required Hcols). cbn [bind].
  change (["sgk_user_id"; "user_id"; "first_name"; "last_name"; "gender"; "age"; "street";
           "city"; "postal_code"] ++ Load.audit_columns) with users_target.
  destruct (to_numeric_column_rows L
              (Pandas.rename_columns
                 {| columns := users_required;
                    records := map (Pandas.reindex users_required) (records df) |}
                 users_target) "age" eq_refl) as (prepared & -> & Hrows).
  cbn [bind Pandas.rename_columns columns records] in Hrows |- *.
  unfold Pandas.dropna. cbn [columns records].
  change (Pandas.check_columns users_target ["user_id"; "first_name"; "last_name"]) with (Ok tt).
  cbn [bind].
  exists prepared. split; [reflexivity |].
  rewrite map_map in Hrows.
  apply (numeric_rows L "age" _ _ _ _ Hrows).
  intros raw v _. unfold cell. rewrite !dict_get_default_set_other by discriminate.
  repeat split; reflexivity.
Qed.

Lemma clean_carts_table_rows : forall (L : PyLib) (df : DataFrame),
  Pandas.check_columns (columns df) carts_required = Ok tt ->
  exists prepared : list dict,
    Load.clean_carts_table L df =
    Ok {| columns := carts_target;
          records := filter (no_null ["cart_id"; "user_id"; "product_id"]) prepared |} /\
    Forall2 (fun raw r => cell r "cart_id" = cell raw "cart_id" /\
                          cell r "user_id" = cell raw "user_id" /\
                          cell r "product_id" = cell raw "product_id")
            (records df) prepared.
Proof.
  intros L df Hcols.
  unfold Load.clean_carts_table.
  change (["sgk_cart_id"] ++
          ["cart_id"; "user_id"; "product_id"; "product_quantity"; "product_price";
           "total_cart_value"] ++ Load.audit_columns) with carts_required.
  rewrite (select_present df carts_required Hcols). cbn [bind].
  change (["sgk_cart_id"; "cart_id"; "user_id"; "product_id"; "quantity"; "price";
           "total_cart_value"] ++ Load.audit_columns) with carts_target.
  destruct (to_numeric_column_rows L
              (Pandas.rename_columns
                 {| columns := carts_required;
                    records := map (Pandas.reindex carts_required) (records df) |}
                 carts_target) "quantity" eq_refl) as (rows1 & -> & Hrows1).
  cbn [bind Pandas.rename_columns columns records] in Hrows1 |- *.
  destruct (to_numeric_column_rows L {| columns := carts_target; records := rows1 |}
              "price" eq_refl) as (prepared & -> & Hrows2).
  cbn [bind columns records] in Hrows2 |- *.
  unfold Pandas.dropna. cbn [columns records].
  change (Pandas.check_columns carts_target ["cart_id"; "user_id"; "product_id"]) with (Ok tt).
  cbn [bind].
  exists prepared. split; [reflexivity |].
  rewrite map_map in Hrows1.
  pose (g := fun raw : dict =>
               combine carts_target (map snd (Pandas.reindex carts_required raw))).
  apply (Forall2_trans_step
           (fun raw r1 => exists v1, r1 = dict_set (g raw) "quantity" v1)
           (numeric_step L "price") _ (records df) rows1 prepared).
  - intros raw r1 r (v1 & ->) (v2 & _ & ->).
    unfold cell, g. rewrite !dict_get_default_set_other by discriminate.
    repeat split; reflexivity.
  - apply (numeric_rows L "quantity" g _ _ _ Hrows1).
    intros raw v _. exists v. reflexivity.
  - exact Hrows2.
Qed.

(** C8, as amended.  With the required columns there, the carts loader keeps
    exactly the rows whose cart_id, user_id and product_id are all non-null,
    and the users loader keeps exactly the rows whose user_id, first_name
    and last_name are all non-null; the three cells of a cleaned row are
    those of the row read. *)
Theorem clean_tables_null_filter :
  forall (L : PyLib) (df : DataFrame),
    (Pandas.check_columns (columns df) users_required = Ok tt ->
     exists prepared : list dict,
       Load.clean_users_table L df =
       Ok {| columns := users_target;
             records := filter (no_null ["user_id"; "first_name"; "last_name"]) prepared |} /\
       Forall2 (fun raw r => cell r "user_id" = cell raw "user_id" /\
                             cell r "first_name" = cell raw "user_firstName" /\
                             cell r "last_name" = cell raw "user_lastName")
               (records df) prepared) /\
    (Pandas.check_columns (columns df) carts_required = Ok tt ->
     exists prepared : list dict,
       Load.clean_carts_table L df =
       Ok {| columns := carts_target;
             records := filter (no_null ["cart_id"; "user_id"; "product_id"]) prepared |} /\
       Forall2 (fun raw r => cell r "cart_id" = cell raw "cart_id" /\
                             cell r "user_id" = cell raw "user_id" /\
                             cell r "product_id" = cell raw "product_id")
               (records df) prepared) /\
    (forall cols r,
       no_null cols r = true <-> forall c, In c cols -> Pandas.is_null (cell r c) = false).
Proof.
  intros L df. split; [apply clean_users_table_rows |].
  split; [apply clean_carts_table_rows | apply no_null_spec].
Qed.

(** A users frame of one row with a user_id and no first name. *)
Definition nameless_user : DataFrame :=
  {| columns := users_required;
     records :=
       [ [ ("sgk_user_id", VStr "c4ca4238a0b923820dcc509a6f75849b"); ("user_id", VInt 1);
           ("user_firstName", NaN); ("user_lastName", VStr "Johnson");
           ("user_gender", VStr "female"); ("user_age", VInt 28);
           ("user_address_address", VStr "626 Main Street");
           ("user_address_city", VStr "Phoenix");
           ("user_address_postalCode", VInt 29112);
           ("record_create_name", VStr "Daniel Oselu");
           ("record_create_datetime", VStr "2024-01-01T00:00:00");
           ("record_update_name", VStr "Daniel Oselu");
           ("record_update_datetime", VStr "2024-01-01T00:00:00");
           ("source_system_code", VStr "PUBLIC_DUMMYJSON_API") ] ] |}.

(** C8 as stated fails for users: this row has a non-null user_id and does
    not survive the cleaning. *)
Lemma clean_users_table_drops_nameless :
  Forall (fun r => Pandas.is_null (cell r "user_id") = false) (records nameless_user) /\
  Load.clean_users_table reference_lib nameless_user =
  Ok {| columns := users_target; records := [] |}.
Proof.
  split; [repeat constructor | vm_compute; reflexivity].
Qed.

(** ** C1: the surrogate key is a function of the natural key *)

(** The row after the five scalar assignments of [add_audit_columns]. *)
Definition audit_row (current_time : string) (r : dict) : dict :=
  dict_set
    (dict_set
       (dict_set
          (dict_set (dict_set r "record_create_name" (VStr "Daniel Oselu"))
                    "record_create_datetime" (VStr current_time))
          "record_update_name" (VStr "Daniel Oselu"))
       "record_update_datetime" (VStr current_time))
    "source_system_code" (VStr "PUBLIC_DUMMYJSON_API").

Definition audit_names : list string :=
  [ "record_create_name"; "record_create_datetime"; "record_update_name";
    "record_update_datetime"; "source_system_code" ].

(** The frame after the five scalar assignments. *)
Definition audit_frame (current_time : string) (df : DataFrame) : DataFrame :=
  {| columns := fold_left Pandas.add_label audit_names (columns df);
     records := map (audit_row current_time) (records df) |}.

(** The natural-key cells of a row and the name of the surrogate-key column,
    per data type. *)
Definition natural_key (data_type : string) (r : dict) : list (option value) :=
  if String.eqb data_type "products" then [dict_get r "product_id"]
  else if String.eqb data_type "users" then [dict_get r "user_id"]
  else [dict_get r "user_id"; dict_get r "product_id"; dict_get r "cart_id"].

Definition surrogate_column (data_type : string) : string :=
  if String.eqb data_type "products" then "sgk_product_id"
  else if String.eqb data_type "users" then "sgk_user_id"
  else "sgk_cart_id".

(** The column the products and users branches read. *)
Definition id_column (data_type : string) : string :=
  if String.eqb data_type "products" then "product_id" else "user_id".

Definition or_default (o : option value) (default : value) : value :=
  match o with Some v => v | None => default end.

(** The surrogate key as a function of the natural-key cells alone: the
    digest of the text of the cells, or the exception that writing or
    encoding that text raises. *)
Definition surrogate_key (L : PyLib) (data_type : string) (key : list (option value))
  : result value :=
  match key with
  | [id] =>
      text <- py_str L (or_default id NaN) ;;
      data <- str_encode text ;;
      Ok (VStr (md5_hexdigest L data))
  | [user_id; product_id; cart_id] =>
      match user_id with
      | None => Raise (KeyError "user_id")
      | Some user =>
          user_text <- py_str L user ;;
          product_text <- py_str L (or_default product_id (VStr "")) ;;
          cart_text <- py_str L (or_default cart_id (VStr "")) ;;
          data <- str_encode (user_text ++ product_text ++ cart_text)%string ;;
          Ok (VStr (md5_hexdigest L data))
      end
  | _ => Ok VNone
  end.

Lemma dict_get_audit_row : forall (current_time : string) (r : dict) (k : string),
  ~ In k audit_names -> dict_get (audit_row current_time r) k = dict_get r k.
Proof.
  intros current_time r k Hk. unfold audit_row.
  rewrite !dict_get_set_other; [reflexivity | | | | |];
    intros <-; apply Hk; simpl; tauto.
Qed.

Lemma has_column_add_label : forall (cols : list string) (c k : string),
  Pandas.has_column (Pandas.add_label cols c) k =
  Pandas.has_column cols k || String.eqb k c.
Proof.
  intros cols c k. unfold Pandas.add_label.
  destruct (Pandas.has_column cols c) eqn:Hc.
  - destruct (String.eqb_spec k c) as [-> | _]; [rewrite Hc | rewrite orb_false_r]; reflexivity.
  - unfold Pandas.has_column. rewrite existsb_app. simpl. rewrite orb_false_r. reflexivity.
Qed.

Lemma has_column_audit : forall (current_time : string) (df : DataFrame) (k : string),
  ~ In k audit_names ->
  Pandas.has_column (columns (audit_frame current_time df)) k = Pandas.has_column (columns df) k.
Proof.
  intros current_time df k Hk. unfold audit_frame, audit_names. cbn [columns fold_left].
  rewrite !has_column_add_label.
  repeat match goal with
         | |- context [String.eqb k ?c] =>
             destruct (String.eqb_spec k c) as [-> | _];
             [exfalso; apply Hk; simpl; tauto |]
         end.
  rewrite !orb_false_r. reflexivity.
Qed.

Lemma add_audit_columns_unfold :
  forall (L : PyLib) (current_time : string) (df : DataFrame) (data_type : string),
    Transform.add_audit_columns L current_time df data_type =
    let df := audit_frame current_time df in
    if String.eqb data_type "products" then
      ids <- Pandas.getitem df "product_id" ;;
      keys <- for_each (Transform.key_of_id L) ids ;;
      Ok (Pandas.setitem_column df "sgk_product_id" keys)
    else if String.eqb data_type "users" then
      ids <- Pandas.getitem df "user_id" ;;
      keys <- for_each (Transform.key_of_id L) ids ;;
      Ok (Pandas.setitem_column df "sgk_user_id" keys)
    else if String.eqb data_type "carts" then
      match records df with
      | [] => Raise ValueError
      | rows =>
          keys <- for_each (Transform.key_of_cart_row L) rows ;;
          Ok (Pandas.setitem_column df "sgk_cart_id" keys)
      end
    else Ok df.
Proof.
  intros. unfold Transform.add_audit_columns, Pandas.setitem_scalar, audit_frame, audit_row.
  cbn [columns records fold_left audit_names]. rewrite !map_map. reflexivity.
Qed.

Lemma for_each_Forall2 : forall {A B : Type} (f : A -> result B) (l : list A) (out : list B),
  for_each f l = Ok out -> Forall2 (fun x y => f x = Ok y) l out.
Proof.
  induction l as [| x l IH]; intros out H; simpl in H.
  - injection H as <-. constructor.
  - apply bind_ok in H as (y & Hy & H).
    apply bind_ok in H as (ys & Hys & H).
    injection H as <-. constructor; [exact Hy | apply IH; exact Hys].
Qed.

Lemma setitem_column_Forall2 :
  forall (R : dict -> value -> Prop) (c : string) (rows : list dict) (vs : list value),
    Forall2 R rows vs ->
    Forall2 (fun r r' => exists v, R r v /\ r' = dict_set r c v)
            rows (map (fun rv => dict_set (fst rv) c (snd rv)) (combine rows vs)).
Proof.
  intros R c rows vs H. induction H as [| r v rows vs Hrv _ IH]; simpl; constructor.
  - exists v. split; [exact Hrv | reflexivity].
  - exact IH.
Qed.

Lemma Forall2_map_left : forall {A B C : Type} (R : B -> C -> Prop) (f : A -> B)
                                (l : list A) (l' : list C),
  Forall2 R (map f l) l' -> Forall2 (fun x y => R (f x) y) l l'.
Proof.
  induction l as [| x l IH]; intros l' H; inversion H; subst; constructor; auto.
Qed.

Lemma Forall2_impl : forall {A B : Type} (R R' : A -> B -> Prop) (l : list A) (l' : list B),
  (forall x y, R x y -> R' x y) -> Forall2 R l l' -> Forall2 R' l l'.
Proof.
  intros A B R R' l l' H H2. induction H2; constructor; auto.
Qed.

Lemma Forall2_nth_error : forall {A B : Type} (R : A -> B -> Prop) (l : list A) (l' : list B)
                                 (i : nat) (x : A),
  Forall2 R l l' -> nth_error l i = Some x -> exists y, nth_error l' i = Some y /\ R x y.
Proof.
  intros A B R l l' i x H. revert i. induction H as [| a b l l' Hab _ IH]; intros i Hi.
  - destruct i; discriminate.
  - destruct i as [| i]; simpl in *.
    + injection Hi as ->. exists b. split; [reflexivity | exact Hab].
    + apply IH. exact Hi.
Qed.

Lemma for_each_ok : forall {A B : Type} (f : A -> result B) (l : list A),
  Forall (fun x => exists y, f x = Ok y) l -> exists out, for_each f l = Ok out.
Proof.
  intros A B f l H. induction H as [| x l (y & Hy) _ (out & Hout)].
  - exists []. reflexivity.
  - exists (y :: out). cbn [for_each]. rewrite Hy, Hout. reflexivity.
Qed.

(** The key of the products and users branches, read off the row. *)
Lemma key_of_id_surrogate :
  forall (L : PyLib) (current_time data_type : string) (r : dict),
    In data_type ["products"; "users"] ->
    Transform.key_of_id L (dict_get_default (audit_row current_time r) (id_column data_type) NaN)
    = surrogate_key L data_type (natural_key data_type r).
Proof.
  intros L current_time data_type r Hdt.
  assert (Hfree : ~ In (id_column data_type) audit_names).
  { destruct Hdt as [<- | [<- | []]]; simpl;
      intros [E | [E | [E | [E | [E | []]]]]]; discriminate. }
  unfold dict_get_default. rewrite (dict_get_audit_row current_time r _ Hfree).
  destruct Hdt as [<- | [<- | []]]; reflexivity.
Qed.

(** The key of the carts branch, read off the row. *)
Lemma key_of_cart_row_surrogate : forall (L : PyLib) (current_time : string) (r : dict),
  Transform.key_of_cart_row L (audit_row current_time r)
  = surrogate_key L "carts" (natural_key "carts" r).
Proof.
  intros L current_time r.
  assert (Hfree : forall k, In k ["user_id"; "product_id"; "cart_id"] -> ~ In k audit_names).
  { intros k Hk Ha. simpl in Hk, Ha.
    destruct Hk as [<- | [<- | [<- | []]]];
      destruct Ha as [E | [E | [E | [E | [E | []]]]]]; discriminate. }
  unfold Transform.key_of_cart_row, dict_get_default.
  rewrite !dict_get_audit_row by (apply Hfree; simpl; tauto).
  unfold surrogate_key, natural_key, or_default. cbn [String.eqb Ascii.eqb Bool.eqb].
  destruct (dict_get r "user_id"); reflexivity.
Qed.

(** Every row of the enriched frame holds the surrogate key computed from
    the natural-key cells of the row it comes from. *)
Lemma add_audit_columns_keys :
  forall (L : PyLib) (current_time data_type : string) (df out : DataFrame),
    In data_type ["products"; "users"; "carts"] ->
    Transform.add_audit_columns L current_time df data_type = Ok out ->
    Forall2 (fun r r' =>
               exists key,
                 surrogate_key L data_type (natural_key data_type r) = Ok key /\
                 dict_get r' (surrogate_column data_type) = Some key)
            (records df) (records out).
Proof.
  intros L current_time data_type df out Hdt H.
  rewrite add_audit_columns_unfold in H. cbv zeta in H.
  assert (Hids : forall data_type' ids keys,
            In data_type' ["products"; "users"] ->
            Pandas.getitem (audit_frame current_time df) (id_column data_type') = Ok ids ->
            for_each (Transform.key_of_id L) ids = Ok keys ->
            Forall2 (fun r r' =>
                       exists key,
                         surrogate_key L data_type' (natural_key data_type' r) = Ok key /\
                         dict_get r' (surrogate_column data_type') = Some key)
                    (records df)
                    (records (Pandas.setitem_column (audit_frame current_time df)
                                (surrogate_column data_type') keys))).
  { clear H. intros data_type' ids keys Hdt' Hget Hkeys.
    unfold Pandas.getitem in Hget.
    destruct (Pandas.has_column _ _); [| discriminate]. injection Hget as <-.
    apply for_each_Forall2 in Hkeys.
    unfold Pandas.column_values in Hkeys. apply Forall2_map_left in Hkeys.
    apply (setitem_column_Forall2 _ (surrogate_column data_type')) in Hkeys.
    unfold Pandas.setitem_column, audit_frame in Hkeys |- *. cbn [records] in Hkeys |- *.
    apply Forall2_map_left in Hkeys.
    eapply Forall2_impl; [| exact Hkeys].
    intros r r' (v & Hv & ->). cbn beta in Hv.
    exists v. split; [| apply dict_get_set_same].
    rewrite <- (key_of_id_surrogate L current_time data_type' r Hdt'). exact Hv. }
  destruct Hdt as [<- | [<- | [<- | []]]]; cbn [String.eqb Ascii.eqb Bool.eqb] in H.
  - apply bind_ok in H as (ids & Hget & H). apply bind_ok in H as (keys & Hkeys & H).
    injection H as <-.
    apply (Hids "products" ids keys (or_introl eq_refl) Hget Hkeys).
  - apply bind_ok in H as (ids & Hget & H). apply bind_ok in H as (keys & Hkeys & H).
    injection H as <-.
    apply (Hids "users" ids keys (or_intror (or_introl eq_refl)) Hget Hkeys).
  - destruct (records (audit_frame current_time df)) as [| r0 rows0] eqn:Hrows; [discriminate |].
    rewrite <- Hrows in H. clear Hrows r0 rows0.
    apply bind_ok in H as (keys & Hkeys & H). injection H as <-.
    apply for_each_Forall2 in Hkeys.
    unfold Pandas.setitem_column. cbn [records].
    apply (setitem_column_Forall2 _ "sgk_cart_id") in Hkeys.
    unfold audit_frame in Hkeys |- *. cbn [records] in Hkeys |- *.
    apply Forall2_map_left in Hkeys.
    eapply Forall2_impl; [| exact Hkeys].
    intros r r' (v & Hv & ->). cbn beta in Hv.
    exists v. split; [| apply dict_get_set_same].
    rewrite <- (key_of_cart_row_surrogate L current_time r). exact Hv.
Qed.

Lemma Forall2_in_left : forall {A B : Type} (R : A -> B -> Prop) (l : list A) (l' : list B)
                               (x : A),
  Forall2 R l l' -> In x l -> exists y, In y l' /\ R x y.
Proof.
  intros A B R l l' x H. induction H as [| a b l l' Hab _ IH]; intros Hin; [destruct Hin |].
  destruct Hin as [<- | Hin].
  - exists b. split; [left; reflexivity | exact Hab].
  - destruct (IH Hin) as (y & Hy & Hxy). exists y. split; [right; exact Hy | exact Hxy].
Qed.

(** For products and users the enrichment goes through when the
    natural-key column is there and every key can be computed. *)
Lemma add_audit_columns_succeeds :
  forall (L : PyLib) (current_time data_type : string) (df : DataFrame),
    In data_type ["products"; "users"] ->
    Pandas.has_column (columns df) (id_column data_type) = true ->
    Forall (fun r => exists key,
              surrogate_key L data_type (natural_key data_type r) = Ok key) (records df) ->
    exists out, Transform.add_audit_columns L current_time df data_type = Ok out.
Proof.
  intros L current_time data_type df Hdt Hcol Hkeys.
  rewrite add_audit_columns_unfold. cbv zeta.
  assert (Hfree : ~ In (id_column data_type) audit_names).
  { destruct Hdt as [<- | [<- | []]]; simpl;
      intros [E | [E | [E | [E | [E | []]]]]]; discriminate. }
  pose proof (has_column_audit current_time df _ Hfree) as Haudit.
  rewrite Hcol in Haudit.
  destruct (for_each_ok (Transform.key_of_id L)
              (Pandas.column_values (records (audit_frame current_time df))
                 (id_column data_type))) as (keys & Hok).
  { unfold Pandas.column_values, audit_frame. cbn [records]. rewrite map_map.
    apply Forall_map. eapply Forall_impl; [| exact Hkeys].
    intros r (key & Hkey). exists key.
    rewrite (key_of_id_surrogate L current_time data_type r Hdt). exact Hkey. }
  destruct Hdt as [<- | [<- | []]];
    cbn [String.eqb Ascii.eqb Bool.eqb]; unfold Pandas.getitem;
    cbv [id_column String.eqb Ascii.eqb Bool.eqb] in Haudit, Hok;
    rewrite Haudit; cbn [bind]; rewrite Hok; eexists; reflexivity.
Qed.

(** A row whose key cannot be computed makes the enrichment raise. *)
Lemma add_audit_columns_raises :
  forall (L : PyLib) (current_time data_type : string) (df : DataFrame) (r : dict) (e : exn),
    In data_type ["products"; "users"; "carts"] ->
    In r (records df) ->
    surrogate_key L data_type (natural_key data_type r) = Raise e ->
    exists e', Transform.add_audit_columns L current_time df data_type = Raise e'.
Proof.
  intros L current_time data_type df r e Hdt Hin Hraise.
  destruct (Transform.add_audit_columns L current_time df data_type) as [out | e'] eqn:H;
    [| exists e'; reflexivity].
  apply (add_audit_columns_keys L current_time data_type df out Hdt) in H.
  destruct (Forall2_in_left _ _ _ _ H Hin) as (r' & _ & key & Hkey & _).
  rewrite Hraise in Hkey. discriminate.
Qed.

(** C1.  For products, users and carts the surrogate key of every enriched
    row is [surrogate_key] of the row's natural-key cells, a function that
    takes nothing else (no other cell, no clock, no state); so two rows with
    the same natural-key cells, in one frame or in two frames enriched at
    different times, get the same surrogate key.  The key is the digest of
    the encoded text of the cells: for products and users the enrichment
    succeeds when the natural-key column exists and the text of every id
    can be written and encoded, and for every data type a row whose key
    text cannot be (an id holding a lone surrogate, for one) makes the
    enrichment raise and return no frame. *)
Theorem surrogate_key_determinism :
  forall (L : PyLib) (data_type : string),
    In data_type ["products"; "users"; "carts"] ->
    (forall current_time df out,
       Transform.add_audit_columns L current_time df data_type = Ok out ->
       Forall2 (fun r r' =>
                  exists key,
                    surrogate_key L data_type (natural_key data_type r) = Ok key /\
                    dict_get r' (surrogate_column data_type) = Some key)
               (records df) (records out)) /\
    (forall time1 time2 df1 df2 out1 out2 i j r1 r2,
       Transform.add_audit_columns L time1 df1 data_type = Ok out1 ->
       Transform.add_audit_columns L time2 df2 data_type = Ok out2 ->
       nth_error (records df1) i = Some r1 ->
       nth_error (records df2) j = Some r2 ->
       natural_key data_type r1 = natural_key data_type r2 ->
       exists r1' r2' key,
         nth_error (records out1) i = Some r1' /\
         nth_error (records out2) j = Some r2' /\
         dict_get r1' (surrogate_column data_type) = Some key /\
         dict_get r2' (surrogate_column data_type) = Some key) /\
    (forall current_time df,
       data_type <> "carts" ->
       Pandas.has_column (columns df) (id_column data_type) = true ->
       Forall (fun r => exists key,
                 surrogate_key L data_type (natural_key data_type r) = Ok key) (records df) ->
       exists out, Transform.add_audit_columns L current_time df data_type = Ok out) /\
    (forall current_time df r e,
       In r (records df) ->
       surrogate_key L data_type (natural_key data_type r) = Raise e ->
       forall out, Transform.add_audit_columns L current_time df data_type <> Ok out).
Proof.
  intros L data_type Hdt. split; [| split; [| split]].
  - intros current_time df out H.
    apply (add_audit_columns_keys L current_time data_type df out Hdt H).
  - intros time1 time2 df1 df2 out1 out2 i j r1 r2 H1 H2 Hi Hj Hkey.
    apply (add_audit_columns_keys L time1 data_type df1 out1 Hdt) in H1.
    apply (add_audit_columns_keys L time2 data_type df2 out2 Hdt) in H2.
    destruct (Forall2_nth_error _ _ _ _ _ H1 Hi) as (r1' & Hr1' & key1 & Hs1 & Hk1).
    destruct (Forall2_nth_error _ _ _ _ _ H2 Hj) as (r2' & Hr2' & key2 & Hs2 & Hk2).
    exists r1', r2', key1.
    repeat split; try assumption.
    rewrite Hkey, Hs2 in Hs1. injection Hs1 as <-. exact Hk2.
  - intros current_time df Hnc Hcol Hkeys.
    apply add_audit_columns_succeeds; [| exact Hcol | exact Hkeys].
    destruct Hdt as [<- | [<- | [<- | []]]]; simpl; tauto.
  - intros current_time df r e Hin Hraise out H.
    destruct (add_audit_columns_raises L current_time data_type df r e Hdt Hin Hraise)
      as (e' & He').
    rewrite He' in H. discriminate.
Qed.

(** ** The reading loop of [convert_json_to_csv] *)

(** What a line of the source blob is to the loop. *)
Inductive line_class : Type :=
| Malformed                      (* json.loads raises JSONDecodeError *)
| Undecodable (e : exn)          (* json.loads raises another exception *)
| NotAnObject                    (* the line decodes to something that is no dict *)
| DataNotObject                  (* a dict whose data is missing or no dict *)
| Valid (envelope : dict).       (* a dict whose data is a dict *)

Definition classify (L : PyLib) (line : string) : line_class :=
  match json_loads L (str_strip L line) with
  | Raise JSONDecodeError => Malformed
  | Raise e => Undecodable e
  | Ok (VDict envelope) =>
      match dict_get_default envelope "data" VNone with
      | VDict _ => Valid envelope
      | _ => DataNotObject
      end
  | Ok _ => NotAnObject
  end.


(** The rows of one valid line: flattened, then given the metadata. *)
Definition rows_of (data_type : string) (envelope : dict) : result (list dict) :=
  flattened_entries <- Flatten.flatten_json envelope data_type ;;
  for_each (Transform.add_metadata envelope) flattened_entries.

Definition flattened_rows (data_type : string) (envelope : dict) : list dict :=
  match rows_of data_type envelope with
  | Ok rows => rows
  | Raise _ => []
  end.

(** The metadata of the envelope is absent or an object. *)
Definition metadata_ok (envelope : dict) : Prop :=
  exists m, dict_get_default envelope "metadata" (VDict []) = VDict m.

(** The product list of a cart is absent or a list of objects. *)
Definition cart_items_ok (envelope : dict) : Prop :=
  exists data items,
    dict_get_default envelope "data" (VDict []) = VDict data /\
    dict_get_default data "products" (VList []) = VList (map VDict items).

Definition envelope_ok (data_type : string) (envelope : dict) : Prop :=
  metadata_ok envelope /\ (data_type = "carts" -> cart_items_ok envelope).

(** Lines the amended claim speaks of: bad lines, and valid lines with a
    well-formed envelope. *)
Definition acceptable (L : PyLib) (data_type : string) (line : string) : Prop :=
  match classify L line with
  | Malformed | DataNotObject => True
  | Valid envelope => envelope_ok data_type envelope
  | NotAnObject | Undecodable _ => False
  end.

Lemma process_line_classified : forall (L : PyLib) (data_type line : string),
  Transform.process_line L data_type line =
  match classify L line with
  | Malformed | DataNotObject => Ok []
  | Undecodable e => Raise e
  | NotAnObject => Raise AttributeError
  | Valid envelope => rows_of data_type envelope
  end.
Proof.
  intros L data_type line. unfold Transform.process_line, classify.
  destruct (json_loads L (str_strip L line)) as [[| b | n | f | s | l | envelope] | e].
  7: { cbn [method_get bind].
       destruct (dict_get_default envelope "data" VNone); reflexivity. }
  all: try reflexivity.
  destruct e; reflexivity.
Qed.

Lemma read_loop_acc : forall (L : PyLib) (data_type : string) (lines : list string) (acc : list dict),
  Transform.read_loop L data_type lines acc =
  (rows <- Transform.read_loop L data_type lines [] ;; Ok (acc ++ rows)).
Proof.
  induction lines as [| line rest IH]; intros acc; cbn [Transform.read_loop bind].
  - rewrite app_nil_r. reflexivity.
  - destruct (Transform.process_line L data_type line) as [entries | e]; cbn [bind]; [| reflexivity].
    rewrite (IH (acc ++ entries)), (IH ([] ++ entries)).
    destruct (Transform.read_loop L data_type rest []) as [rows | e]; cbn [bind]; [| reflexivity].
    rewrite app_assoc. reflexivity.
Qed.


Lemma read_loop_cons : forall (L : PyLib) (data_type line : string) (rest : list string)
                              (entries rows : list dict),
  Transform.process_line L data_type line = Ok entries ->
  Transform.read_loop L data_type rest [] = Ok rows ->
  Transform.read_loop L data_type (line :: rest) [] = Ok (entries ++ rows).
Proof.
  intros L data_type line rest entries rows H1 H2.
  cbn [Transform.read_loop]. rewrite H1. cbn [bind app].
  rewrite read_loop_acc, H2. reflexivity.
Qed.

Lemma data_dict_any_default : forall (envelope d : dict) (default : value),
  dict_get_default envelope "data" VNone = VDict d ->
  dict_get_default envelope "data" default = VDict d.
Proof.
  intros envelope d default. unfold dict_get_default.
  destruct (dict_get envelope "data"); [auto | discriminate].
Qed.

Lemma add_metadata_ok : forall (envelope : dict),
  metadata_ok envelope ->
  exists g : dict -> dict, forall entry, Transform.add_metadata envelope entry = Ok (g entry).
Proof.
  intros envelope (m & Hm).
  exists (fun entry => fold_left (fun e kv => dict_set e ("metadata_" ++ fst kv)%string (snd kv)) m entry).
  intros entry. unfold Transform.add_metadata. rewrite Hm. reflexivity.
Qed.

(** A valid line with a well-formed envelope flattens without an exception;
    for users and products it gives exactly one row. *)
Lemma rows_of_ok : forall (data_type : string) (envelope d : dict),
  dict_get_default envelope "data" VNone = VDict d ->
  envelope_ok data_type envelope ->
  exists rows,
    rows_of data_type envelope = Ok rows /\
    (data_type <> "carts" -> List.length rows = 1%nat).
Proof.
  intros data_type envelope d Hd [Hmeta Hcart].
  destruct (add_metadata_ok envelope Hmeta) as (g & Hg).
  assert (Hrows : forall entries, Flatten.flatten_json envelope data_type = Ok entries ->
                                  rows_of data_type envelope = Ok (map g entries)).
  { intros entries He. unfold rows_of. rewrite He. cbn [bind].
    apply for_each_ok_map. intros x _. apply Hg. }
  pose proof (data_dict_any_default envelope d (VDict []) Hd) as Hd'.
  unfold Flatten.flatten_json in Hrows.
  destruct (String.eqb_spec data_type "carts") as [-> | Hnc].
  - destruct (Hcart eq_refl) as (data & items & Hdata & Hitems).
    eexists. split; [| intros Habs; contradiction].
    apply Hrows. apply (flatten_cart_json_rows _ _ _ Hdata Hitems).
  - destruct (String.eqb data_type "users");
      [| destruct (String.eqb data_type "products")].
    + eexists. split; [apply Hrows; apply (flatten_prefixed_fold "user_" _ _ Hd') | reflexivity].
    + eexists. split; [apply Hrows; apply (flatten_prefixed_fold "product_" _ _ Hd') | reflexivity].
    + eexists. split; [apply Hrows; reflexivity | reflexivity].
Qed.

Lemma classify_valid_data : forall (L : PyLib) (line : string) (envelope : dict),
  classify L line = Valid envelope ->
  exists d, dict_get_default envelope "data" VNone = VDict d.
Proof.
  intros L line envelope Hc. unfold classify in Hc.
  destruct (json_loads L (str_strip L line)) as [[| | | | | | env] | e];
    try discriminate; [| destruct e; discriminate].
  destruct (dict_get_default env "data" VNone) eqn:Hdata; try discriminate.
  injection Hc as <-. eexists. exact Hdata.
Qed.

Lemma read_loop_acceptable : forall (L : PyLib) (data_type : string) (lines : list string),
  Forall (acceptable L data_type) lines ->
  Transform.read_loop L data_type lines [] =
  Ok (flat_map (fun line => match classify L line with
                            | Valid envelope => flattened_rows data_type envelope
                            | _ => []
                            end) lines).
Proof.
  intros L data_type lines H. induction H as [| line rest Hline _ IH]; [reflexivity |].
  cbn [flat_map]. apply read_loop_cons; [| exact IH].
  rewrite process_line_classified. unfold acceptable in Hline.
  destruct (classify L line) as [| e | | | envelope] eqn:Hc; try reflexivity; try contradiction.
  destruct (classify_valid_data L line envelope Hc) as (d & Hd).
  destruct (rows_of_ok data_type envelope d Hd Hline) as (rows & Hrows & _).
  unfold flattened_rows. rewrite Hrows. reflexivity.
Qed.


(** JSON text written with apostrophes where the text has double quotes. *)
Fixpoint json_text (s : string) : string :=
  match s with
  | EmptyString => EmptyString
  | String c rest =>
      String (if Ascii.eqb c (ascii_of_nat 39) then ascii_of_nat 34 else c) (json_text rest)
  end.

(** The line of the end-to-end product example. *)
Definition widget_line : string :=
  json_text
    "{'metadata':{'extraction_timestamp':'2024-01-01T00:00:00'},'data':{'id':7,'title':'Widget','price':60}}".

(** ** C4: bad lines are skipped *)






(** ** C10: no row, no natural-key column *)

(** C10.  When the lines give no flattened row (for instance when every line
    is malformed or has a data field that is no object, or when there is no
    line at all), the run for products and for users ends in the enrichment
    step with a KeyError on the natural-key column, and returns no frame to
    write. *)
Theorem convert_json_to_csv_no_rows :
  forall (L : PyLib) (lines : list string) (current_time : string),
    (Transform.read_loop L "products" lines [] = Ok [] ->
     Transform.convert_json_to_csv L lines current_time "products"
     = Raise (KeyError "product_id")) /\
    (Transform.read_loop L "users" lines [] = Ok [] ->
     Transform.convert_json_to_csv L lines current_time "users"
     = Raise (KeyError "user_id")) /\
    (Forall (fun line => classify L line = Malformed \/ classify L line = DataNotObject) lines ->
     Transform.convert_json_to_csv L lines current_time "products"
     = Raise (KeyError "product_id") /\
     Transform.convert_json_to_csv L lines current_time "users"
     = Raise (KeyError "user_id")).
Proof.
  intros L lines current_time.
  assert (Hp : Transform.read_loop L "products" lines [] = Ok [] ->
               Transform.convert_json_to_csv L lines current_time "products"
               = Raise (KeyError "product_id")).
  { intros H. unfold Transform.convert_json_to_csv. rewrite H. reflexivity. }
  assert (Hu : Transform.read_loop L "users" lines [] = Ok [] ->
               Transform.convert_json_to_csv L lines current_time "users"
               = Raise (KeyError "user_id")).
  { intros H. unfold Transform.convert_json_to_csv. rewrite H. reflexivity. }
  split; [exact Hp |]. split; [exact Hu |].
  intros Hbad.
  assert (Hnone : forall data_type, Transform.read_loop L data_type lines [] = Ok []).
  { clear Hp Hu. intros data_type. rewrite read_loop_acceptable.
    - f_equal. induction Hbad as [| line rest Hline _ IH]; [reflexivity |].
      cbn [flat_map]. rewrite IH.
      destruct Hline as [Hc | Hc]; rewrite Hc; reflexivity.
    - eapply Forall_impl; [| exact Hbad].
      intros line [Hc | Hc]; unfold acceptable; rewrite Hc; exact I. }
  split; [apply Hp | apply Hu]; apply Hnone.
Qed.

(** ** C5: the end-to-end product example *)

(** What [json.loads] makes of that line. *)
Definition widget_object : value :=
  VDict [ ("metadata", VDict [("extraction_timestamp", VStr "2024-01-01T00:00:00")]);
          ("data", VDict [("id", VInt 7); ("title", VStr "Widget"); ("price", VInt 60)]) ].

(** C5.  The run for products on that single line gives a frame of exactly
    one row: product_id 7, product_title Widget, product_price 60, the
    metadata_extraction_timestamp of the line, the five audit columns, and
    sgk_product_id, the MD5 hex digest of the text 7. *)
Theorem convert_json_to_csv_widget :
  forall (L : PyLib) (current_time : string),
    json_loads L (str_strip L widget_line) = Ok widget_object ->
    Transform.convert_json_to_csv L [widget_line] current_time "products" =
    Ok {| columns :=
            [ "product_id"; "product_title"; "product_price"; "metadata_extraction_timestamp";
              "record_create_name"; "record_create_datetime"; "record_update_name";
              "record_update_datetime"; "source_system_code"; "sgk_product_id" ];
          records :=
            [ [ ("product_id", VInt 7);
                ("product_title", VStr "Widget");
                ("product_price", VInt 60);
                ("metadata_extraction_timestamp", VStr "2024-01-01T00:00:00");
                ("record_create_name", VStr "Daniel Oselu");
                ("record_create_datetime", VStr current_time);
                ("record_update_name", VStr "Daniel Oselu");
                ("record_update_datetime", VStr current_time);
                ("source_system_code", VStr "PUBLIC_DUMMYJSON_API");
                ("sgk_product_id", VStr (md5_hexdigest L "7")) ] ] |}.
Proof.
  intros L current_time Hloads.
  unfold Transform.convert_json_to_csv. cbn [Transform.read_loop].
  unfold Transform.process_line. rewrite Hloads. reflexivity.
Qed.

(** ** C3: the paginated fetch *)

(** The page a well-behaved endpoint returns for [limit] and [skip] over the
    collection [coll], stored under [key]. *)
Definition page (key : string) (coll : list value) (limit skip : Z) : value :=
  VDict [ (key, VList (firstn (Z.to_nat limit) (skipn (Z.to_nat skip) coll)));
          ("total", VInt (Z.of_nat (List.length coll)));
          ("skip", VInt skip);
          ("limit", VInt limit) ].

(** The endpoint serves the pages of [coll]: its answer to the [n]-th
    request (counted from 0), which asks for [skip = n * limit], is that
    page; with [failure = Some k] this holds for the requests before the
    [k]-th, and the [k]-th request fails. *)
Definition serves (srv : Extract.server) (base_url : string) (limit : Z) (key : string)
    (coll : list value) (failure : option nat) : Prop :=
  (forall n : nat,
     match failure with Some k => (n < k)%nat | None => True end ->
     srv n (Extract.page_url base_url limit (Z.of_nat n * limit))
     = Extract.Body (page key coll limit (Z.of_nat n * limit))) /\
  (forall k url, failure = Some k -> srv k url = Extract.RequestException).

(** What the fetch returns from such an endpoint. *)
Definition fetched (limit : Z) (coll : list value) (failure : option nat) : list value :=
  match failure with
  | None => coll
  | Some k => firstn (k * Z.to_nat limit) coll
  end.

Lemma firstn_firstn_skipn : forall {A : Type} (a b : nat) (l : list A),
  firstn a l ++ firstn b (skipn a l) = firstn (a + b) l.
Proof.
  induction a as [| a IH]; intros b l; [reflexivity |].
  destruct l as [| x l]; simpl.
  - rewrite firstn_nil. reflexivity.
  - f_equal. apply IH.
Qed.

Lemma fetch_pass_page :
  forall (key : string) (coll : list value) (limit skip : Z) (all_items : list value)
         (total_fetched : Z),
    In key ["products"; "users"; "carts"] ->
    Extract.fetch_pass (Extract.Body (page key coll limit skip)) all_items total_fetched =
    Ok (match firstn (Z.to_nat limit) (skipn (Z.to_nat skip) coll) with
        | [] => Extract.Stop all_items
        | slice =>
            if Z.of_nat (List.length coll) <=? total_fetched + Z.of_nat (List.length slice)
            then Extract.Stop (all_items ++ slice)
            else Extract.Next (all_items ++ slice) (total_fetched + Z.of_nat (List.length slice))
        end).
Proof.
  intros key coll limit skip all_items total_fetched Hkey.
  unfold Extract.fetch_pass, page.
  destruct (firstn (Z.to_nat limit) (skipn (Z.to_nat skip) coll)) as [| x slice];
    destruct Hkey as [<- | [<- | [<- | []]]]; try reflexivity;
    cbn -[Z.leb Z.add Z.of_nat List.length];
    destruct (Z.of_nat (List.length coll)
              <=? total_fetched + Z.of_nat (List.length (x :: slice))); reflexivity.
Qed.

Lemma fetch_loop_serving :
  forall (srv : Extract.server) (base_url key : string) (limit : Z) (coll : list value)
         (failure : option nat),
    0 < limit ->
    In key ["products"; "users"; "carts"] ->
    serves srv base_url limit key coll failure ->
    forall (fuel n : nat),
      (n = 0 \/ n * Z.to_nat limit < List.length coll)%nat ->
      match failure with Some k => (n <= k)%nat | None => True end ->
      (List.length coll < fuel + n)%nat ->
      Extract.fetch_loop fuel srv base_url limit n (Z.of_nat (n * Z.to_nat limit))
        (firstn (n * Z.to_nat limit) coll) (Z.of_nat (n * Z.to_nat limit))
      = Some (Ok (fetched limit coll failure)).
Proof.
  intros srv base_url key limit coll failure Hlimit Hkey [Hpages Hfail].
  remember (Z.to_nat limit) as lim eqn:Hlim.
  assert (Hpos : (0 < lim)%nat) by lia.
  induction fuel as [| fuel IH]; intros n Hinv Hk Hfuel.
  - exfalso. destruct Hinv as [-> | Hinv]; [lia | nia].
  - cbn [Extract.fetch_loop].
    assert (Hcase : (exists k, failure = Some k /\ n = k) \/
                    match failure with Some k => (n < k)%nat | None => True end).
    { destruct failure as [k |]; [| right; exact I].
      destruct (Nat.eq_dec n k) as [-> | Hne]; [left; eauto | right; lia]. }
    destruct Hcase as [(k & -> & ->) | Hlt].
    + rewrite (Hfail k _ eq_refl). cbn [Extract.fetch_pass]. unfold fetched.
      rewrite <- Hlim. reflexivity.
    + pose proof (Hpages n Hlt) as Hpage.
      replace (Z.of_nat n * limit) with (Z.of_nat (n * lim)) in Hpage by lia.
      rewrite Hpage, (fetch_pass_page key coll limit _ _ _ Hkey).
      rewrite <- Hlim, Nat2Z.id.
      pose proof (firstn_firstn_skipn (n * lim) lim coll) as Happ.
      pose proof (length_firstn lim (skipn (n * lim) coll)) as Hlen.
      rewrite length_skipn in Hlen.
      assert (Hall : (List.length coll <= n * lim + lim)%nat ->
                     firstn (n * lim + lim) coll = fetched limit coll failure).
      { intros Hle. rewrite firstn_all2 by exact Hle.
        unfold fetched. destruct failure as [k |]; [| reflexivity].
        rewrite <- Hlim. rewrite firstn_all2; [reflexivity | nia]. }
      destruct (firstn lim (skipn (n * lim) coll)) as [| x slice] eqn:Hslice.
      * cbn [List.length] in Hlen.
        assert (Hle : (List.length coll <= n * lim)%nat) by lia.
        rewrite <- (Hall ltac:(lia)). rewrite !firstn_all2 by lia. reflexivity.
      * cbv zeta. rewrite Happ.
        destruct (Z.leb_spec (Z.of_nat (List.length coll))
                    (Z.of_nat (n * lim) + Z.of_nat (List.length (x :: slice)))) as [Hge | Hlt'].
        -- rewrite Hall by lia. reflexivity.
        -- assert (Hfull : List.length (x :: slice) = lim) by lia.
           rewrite Hfull.
           replace (Z.of_nat (n * lim) + limit) with (Z.of_nat (S n * lim)) by lia.
           replace (Z.of_nat (n * lim) + Z.of_nat lim) with (Z.of_nat (S n * lim)) by lia.
           replace (n * lim + lim)%nat with (S n * lim)%nat by lia.
           apply IH.
           ++ right. rewrite Hfull in Hlt'. lia.
           ++ destruct failure; [lia | exact I].
           ++ lia.
Qed.

(** C3.  From an endpoint that serves the pages of a collection under one of
    the keys products, users and carts, with the collection's size as total,
    the fetch returns the whole collection, that is exactly total items in
    increasing-skip order.  One pass of the loop stops on a failed request
    and on a page without items, keeping what was accumulated, and stops
    once the items fetched reach the reported total; so when the k-th
    request fails, the items of the pages fetched before it are returned. *)
Theorem fetch_paginated_data_complete :
  forall (srv : Extract.server) (base_url key : string) (limit : Z) (coll : list value)
         (failure : option nat) (fuel : nat),
    0 < limit ->
    In key ["products"; "users"; "carts"] ->
    serves srv base_url limit key coll failure ->
    (List.length coll < fuel)%nat ->
    Extract.fetch_paginated_data fuel srv base_url limit = Some (Ok (fetched limit coll failure)) /\
    (failure = None ->
     exists items,
       Extract.fetch_paginated_data fuel srv base_url limit = Some (Ok items) /\
       items = coll /\
       method_get (page key coll limit 0) "total" (VInt 0)
       = Ok (VInt (Z.of_nat (List.length items)))) /\
    (forall all_items total_fetched,
       Extract.fetch_pass Extract.RequestException all_items total_fetched
       = Ok (Extract.Stop all_items)) /\
    (forall data items all_items total_fetched,
       Extract.page_items data = Ok items -> py_truthy items = false ->
       Extract.fetch_pass (Extract.Body data) all_items total_fetched
       = Ok (Extract.Stop all_items)) /\
    (forall data x l total all_items total_fetched,
       Extract.page_items data = Ok (VList (x :: l)) ->
       method_get data "total" (VInt 0) = Ok (VInt total) ->
       Extract.fetch_pass (Extract.Body data) all_items total_fetched
       = Ok (if total <=? total_fetched + Z.of_nat (List.length (x :: l))
             then Extract.Stop (all_items ++ x :: l)
             else Extract.Next (all_items ++ x :: l)
                    (total_fetched + Z.of_nat (List.length (x :: l))))).
Proof.
  intros srv base_url key limit coll failure fuel Hlimit Hkey Hserves Hfuel.
  assert (Hrun : Extract.fetch_paginated_data fuel srv base_url limit
                 = Some (Ok (fetched limit coll failure))).
  { unfold Extract.fetch_paginated_data.
    apply (fetch_loop_serving srv base_url key limit coll failure Hlimit Hkey Hserves fuel 0).
    - left. reflexivity.
    - destruct failure; [lia | exact I].
    - lia. }
  split; [exact Hrun |]. split; [| split; [| split]].
  - intros ->. exists coll. split; [exact Hrun |]. split; [reflexivity |].
    destruct Hkey as [<- | [<- | [<- | []]]]; reflexivity.
  - reflexivity.
  - intros data items all_items total_fetched Hitems Hfalse.
    unfold Extract.fetch_pass. rewrite Hitems. cbn [bind]. rewrite Hfalse. reflexivity.
  - intros data x l total all_items total_fetched Hitems Htotal.
    unfold Extract.fetch_pass. rewrite Hitems. cbn [bind py_truthy negb py_iter py_len].
    rewrite Htotal. cbn [bind Extract.int_ge].
    destruct (total <=? total_fetched + Z.of_nat (List.length (x :: l))); reflexivity.
Qed.

(** ** C9: one extraction timestamp per write *)

Fixpoint get_blob (b : Extract.bucket) (name : string) : option string :=
  match b with
  | [] => None
  | (name', content) :: rest => if String.eqb name name' then Some content else get_blob rest name
  end.

Definition line_feed : ascii := ascii_of_nat 10.

(** The lines of a text whose only line breaks are line feeds, as
    [str.splitlines] gives them. *)
Fixpoint splitlines (s : string) : list string :=
  match s with
  | EmptyString => []
  | String c rest =>
      if Ascii.eqb c line_feed then EmptyString :: splitlines rest
      else match splitlines rest with
           | [] => [String c EmptyString]
           | line :: lines => String c line :: lines
           end
  end.

(** A text that is one line: not empty, no line feed in it. *)
Fixpoint no_line_feed (s : string) : bool :=
  match s with
  | EmptyString => true
  | String c rest => negb (Ascii.eqb c line_feed) && no_line_feed rest
  end.

Definition single_line (s : string) : bool :=
  negb (String.eqb s EmptyString) && no_line_feed s.

Lemma get_blob_put : forall (b : Extract.bucket) (name content : string),
  get_blob (Extract.put_blob b name content) name = Some content.
Proof.
  induction b as [| [name' content'] b IH]; intros name content; simpl.
  - rewrite String.eqb_refl. reflexivity.
  - destruct (String.eqb_spec name name') as [-> | Hne]; simpl.
    + rewrite String.eqb_refl. reflexivity.
    + destruct (String.eqb_spec name name'); [contradiction | apply IH].
Qed.

Lemma splitlines_line_then : forall (p s : string),
  no_line_feed p = true ->
  splitlines (p ++ String line_feed s)%string = p :: splitlines s.
Proof.
  induction p as [| c p IH]; intros s H; simpl.
  - reflexivity.
  - simpl in H. apply andb_true_iff in H as [Hc Hp].
    apply negb_true_iff in Hc. rewrite Hc, (IH s Hp). reflexivity.
Qed.

Lemma splitlines_single : forall p : string,
  single_line p = true -> splitlines p = [p].
Proof.
  unfold single_line. induction p as [| c p IH]; intros H; [discriminate |].
  simpl in H |- *. apply andb_true_iff in H as [Hc Hp].
  apply negb_true_iff in Hc. rewrite Hc.
  destruct p as [| c' p']; [reflexivity |].
  rewrite IH by exact Hp. reflexivity.
Qed.

Lemma splitlines_join : forall parts : list string,
  Forall (fun p => single_line p = true) parts ->
  splitlines (Extract.join Extract.newline parts) = parts.
Proof.
  induction parts as [| p parts IH]; intros H; [reflexivity |].
  inversion H as [| ? ? Hp Hparts]; subst.
  destruct parts as [| q parts].
  - apply splitlines_single. exact Hp.
  - change (Extract.join Extract.newline (p :: q :: parts))
      with (p ++ String line_feed (Extract.join Extract.newline (q :: parts)))%string.
    unfold single_line in Hp. apply andb_true_iff in Hp as [_ Hp].
    rewrite (splitlines_line_then _ _ Hp), (IH Hparts). reflexivity.
Qed.

(** C9.  A successful call writes, under the file name, the texts of the
    envelopes [{metadata: {extraction_timestamp: T}, data: item}] of the
    items, in order, joined by line feeds, with the one time stamp [T] of
    the call in all of them; when each text is a single line these are
    the lines of the blob.  A failed upload gives [False] and leaves the
    bucket as it was: no exception leaves the call. *)
Theorem save_to_gcs_one_timestamp :
  forall (L : PyLib) (extraction_timestamp : string) (upload_ok : bool)
         (b : Extract.bucket) (data : list value) (filename : string),
    let line_of item :=
      json_dumps L
        (VDict [ ("metadata", VDict [("extraction_timestamp", VStr extraction_timestamp)]);
                 ("data", item) ]) in
    (upload_ok = true ->
     Extract.save_to_gcs L extraction_timestamp upload_ok b data filename
     = (true, Extract.put_blob b filename (Extract.join Extract.newline (map line_of data)))) /\
    (upload_ok = true ->
     Forall (fun item => single_line (line_of item) = true) data ->
     exists content,
       get_blob (snd (Extract.save_to_gcs L extraction_timestamp upload_ok b data filename))
                filename = Some content /\
       splitlines content = map line_of data) /\
    (upload_ok = false ->
     Extract.save_to_gcs L extraction_timestamp upload_ok b data filename = (false, b)).
Proof.
  intros L extraction_timestamp upload_ok b data filename line_of.
  split; [| split].
  - intros ->. reflexivity.
  - intros -> Hlines. eexists. cbn [Extract.save_to_gcs snd].
    split; [apply get_blob_put |].
    apply splitlines_join. apply Forall_map. exact Hlines.
  - intros ->. reflexivity.
Qed.

(** * The theorems at concrete inputs *)

(** A products frame of two rows with the same product id. *)
Definition twin_products : DataFrame :=
  {| columns := ["product_id"; "product_title"];
     records := [ [("product_id", VInt 7); ("product_title", VStr "Widget")];
                  [("product_id", VInt 7); ("product_title", VStr "Gadget")] ] |}.

(** A users line whose id is a lone surrogate, as [json.loads] accepts
    it. *)
Definition surrogate_id_line : string := json_text "{'data': {'id': '\ud800'}}".

Definition surrogate_id : value :=
  VStr (String (ascii_of_nat 237) (String (ascii_of_nat 160) (String (ascii_of_nat 128) ""))).

Lemma surrogate_key_determinism_witness :
  In "products" ["products"; "users"; "carts"] /\
  (exists out r1 r2 key,
     Transform.add_audit_columns reference_lib "2024-01-01T00:00:00" twin_products "products"
     = Ok out /\
     nth_error (records out) 0 = Some r1 /\
     nth_error (records out) 1 = Some r2 /\
     dict_get r1 "sgk_product_id" = Some key /\
     dict_get r2 "sgk_product_id" = Some key) /\
  json_loads reference_lib surrogate_id_line = Ok (VDict [("data", VDict [("id", surrogate_id)])]) /\
  surrogate_key reference_lib "products" [Some surrogate_id] = Raise UnicodeEncodeError /\
  Transform.convert_json_to_csv reference_lib [surrogate_id_line] "2024-01-01T00:00:00" "users"
  = Raise UnicodeEncodeError.
Proof.
  assert (Hin : In "products" ["products"; "users"; "carts"]) by (left; reflexivity).
  split; [exact Hin |].
  destruct (surrogate_key_determinism reference_lib "products" Hin) as (_ & Hdet & Hok & _).
  split; [| repeat split; vm_compute; reflexivity].
  destruct (Hok "2024-01-01T00:00:00" twin_products ltac:(discriminate) eq_refl) as (out & Hout).
  { repeat constructor; eexists; vm_compute; reflexivity. }
  destruct (Hdet "2024-01-01T00:00:00" "2024-01-01T00:00:00" twin_products twin_products
              out out 0%nat 1%nat _ _ Hout Hout eq_refl eq_refl eq_refl)
    as (r1 & r2 & key & H1 & H2 & Hk1 & Hk2).
  exists out, r1, r2, key. repeat split; assumption.
Defined.

Definition example_items : list dict :=
  [ [("id", VInt 168); ("title", VStr "Charger SXT RWD"); ("price", VFloat 0x1.01cffae147ae1p+15%float);
     ("quantity", VInt 3)];
    [("id", VInt 78); ("title", VStr "Apple MacBook Pro"); ("price", VFloat 0x1.f3ff5c28f5c29p+10%float);
     ("quantity", VInt 4)] ].

Definition example_cart_data : dict :=
  [ ("id", VInt 1); ("products", VList (map VDict example_items)); ("total", VInt 103774);
    ("discountedTotal", VInt 89686); ("userId", VInt 33); ("totalProducts", VInt 2);
    ("totalQuantity", VInt 7) ].

Definition example_cart : dict :=
  [ ("metadata", VDict [("extraction_timestamp", VStr "2024-01-01T00:00:00")]);
    ("data", VDict example_cart_data) ].

Lemma flatten_cart_json_fan_out_witness :
  dict_get example_cart "data" = Some (VDict example_cart_data) /\
  dict_get example_cart_data "products" = Some (VList (map VDict example_items)) /\
  exists rows,
    Flatten.flatten_cart_json example_cart = Ok rows /\ List.length rows = 2%nat.
Proof.
  split; [reflexivity |]. split; [reflexivity |].
  destruct (flatten_cart_json_fan_out example_cart example_cart_data example_items
              eq_refl eq_refl) as (rows & Hrows & Hlen & _).
  exists rows. split; [exact Hrows | exact Hlen].
Defined.

(** An endpoint with five products, asked for pages of two. *)
Definition five_products : list value :=
  [ VDict [("id", VInt 1)]; VDict [("id", VInt 2)]; VDict [("id", VInt 3)];
    VDict [("id", VInt 4)]; VDict [("id", VInt 5)] ].

Definition five_products_server : Extract.server :=
  fun n _ => Extract.Body (page "products" five_products 2 (Z.of_nat n * 2)).

Lemma fetch_paginated_data_complete_witness :
  Extract.fetch_paginated_data 6 five_products_server "https://dummyjson.com/products" 2
  = Some (Ok five_products).
Proof.
  assert (Hserves : serves five_products_server "https://dummyjson.com/products" 2 "products"
                           five_products None).
  { split; [intros n _; reflexivity | intros k url H; discriminate]. }
  apply (fetch_paginated_data_complete five_products_server "https://dummyjson.com/products"
           "products" 2 five_products None 6 eq_refl (or_introl eq_refl) Hserves).
  simpl. lia.
Defined.

Definition data_not_object_line : string := json_text "{'data': [1, 2]}".




Lemma convert_json_to_csv_widget_witness :
  json_loads reference_lib (str_strip reference_lib widget_line) = Ok widget_object /\
  exists row,
    Transform.convert_json_to_csv reference_lib [widget_line] "2024-01-02T03:04:05" "products"
    = Ok {| columns :=
              [ "product_id"; "product_title"; "product_price"; "metadata_extraction_timestamp";
                "record_create_name"; "record_create_datetime"; "record_update_name";
                "record_update_datetime"; "source_system_code"; "sgk_product_id" ];
            records := [row] |} /\
    dict_get row "sgk_product_id" = Some (VStr "8f14e45fceea167a5a36dedd4bea2543").
Proof.
  assert (H : json_loads reference_lib (str_strip reference_lib widget_line) = Ok widget_object)
    by (vm_compute; reflexivity).
  split; [exact H |].
  eexists. split.
  - apply (convert_json_to_csv_widget reference_lib "2024-01-02T03:04:05" H).
  - vm_compute. reflexivity.
Defined.

Definition example_user : dict :=
  [ ("metadata", VDict [("extraction_timestamp", VStr "2024-01-01T00:00:00")]);
    ("data", VDict [ ("id", VInt 1); ("firstName", VStr "Emily"); ("age", VInt 28);
                     ("maidenName", VNone);
                     ("address", VDict [("city", VStr "Phoenix"); ("postalCode", VStr "29112")]);
                     ("tags", VList [VStr "a"; VStr "b"; VStr "c"]) ]) ].

Lemma flatten_user_json_columns_witness :
  exists row,
    Flatten.flatten_user_json example_user = Ok [row] /\
    dict_get row "user_firstName" = Some (VStr "Emily") /\
    dict_get row "user_address_city" = Some (VStr "Phoenix") /\
    dict_get row "user_tags_count" = Some (VInt 3) /\
    dict_keys row = [ "user_id"; "user_firstName"; "user_age"; "user_address_city";
                      "user_address_postalCode"; "user_tags_count" ].
Proof.
  destruct (flatten_user_json_columns example_user _ eq_refl) as (row & Hrow & _ & Hcols).
  assert (Hnodup : NoDup (written_columns "user_"
            [ ("id", VInt 1); ("firstName", VStr "Emily"); ("age", VInt 28);
              ("maidenName", VNone);
              ("address", VDict [("city", VStr "Phoenix"); ("postalCode", VStr "29112")]);
              ("tags", VList [VStr "a"; VStr "b"; VStr "c"]) ])).
  { vm_compute. repeat constructor; simpl; intuition discriminate. }
  destruct (Hcols Hnodup) as (Hscalar & Hnested & Hlist & Hkeys).
  exists row. split; [exact Hrow |]. split; [| split; [| split]].
  - apply (Hscalar "firstName"); [simpl; tauto | reflexivity].
  - apply (Hnested "address" [("city", VStr "Phoenix"); ("postalCode", VStr "29112")] "city");
      simpl; tauto.
  - apply (Hlist "tags" [VStr "a"; VStr "b"; VStr "c"]). simpl; tauto.
  - exact Hkeys.
Defined.

Lemma clean_products_table_price_filter_witness :
  (parse_numeric reference_lib "60" = Some (60%float, Some 60) /\
   Load.clean_products_table reference_lib (products_frame [VStr "60"])
   = Ok {| columns := products_target; records := [cleaned_product (VInt 60)] |}) /\
  (parse_numeric reference_lib "75.5" = Some (75.5%float, None) /\
   Load.clean_products_table reference_lib (products_frame [VStr "75.5"])
   = Ok {| columns := products_target; records := [cleaned_product (VFloat 75.5%float)] |}) /\
  (parse_numeric reference_lib "49.99" = Some (price_49_99, None) /\
   Load.clean_products_table reference_lib (products_frame [VStr "49.99"])
   = Ok {| columns := products_target; records := [] |}) /\
  (parse_numeric reference_lib "abc" = None /\
   Load.clean_products_table reference_lib (products_frame [VStr "abc"])
   = Ok {| columns := products_target; records := [] |}) /\
  Load.clean_products_table reference_lib
    (products_frame [VFloat price_49_99; VFloat price_50_01])
  = Ok {| columns := products_target; records := [cleaned_product (VFloat price_50_01)] |}.
Proof.
  assert (H60 : parse_numeric reference_lib "60" = Some (60%float, Some 60))
    by (vm_compute; reflexivity).
  assert (H75 : parse_numeric reference_lib "75.5" = Some (75.5%float, None))
    by (vm_compute; reflexivity).
  assert (H49 : parse_numeric reference_lib "49.99" = Some (price_49_99, None))
    by (vm_compute; reflexivity).
  assert (Habc : parse_numeric reference_lib "abc" = None) by (vm_compute; reflexivity).
  destruct (clean_products_table_price_filter reference_lib)
    as (_ & _ & Hint & Hfloat & Hnone & Hfloats).
  split; [split; [exact H60 |] | split; [split; [exact H75 |] | split;
    [split; [exact H49 |] | split; [split; [exact Habc |] | exact Hfloats]]]].
  - apply (Hint "60" 60 60%float); [discriminate | exact H60 |].
    unfold Pandas.int64_min, Pandas.uint64_max. lia.
  - apply (Hfloat "75.5" 75.5%float); [discriminate | exact H75].
  - apply (Hfloat "49.99" price_49_99); [discriminate | exact H49].
  - apply (Hnone "abc" Habc).
Defined.

(** A carts frame of two rows, the second without a product id. *)
Definition example_carts : DataFrame :=
  {| columns := carts_required;
     records :=
       map (fun product_id =>
              [ ("sgk_cart_id", VStr "k"); ("cart_id", VInt 1); ("user_id", VInt 33);
                ("product_id", product_id); ("product_quantity", VInt 3);
                ("product_price", VFloat price_50_01); ("total_cart_value", VInt 150);
                ("record_create_name", VStr "Daniel Oselu");
                ("record_create_datetime", VStr "2024-01-01T00:00:00");
                ("record_update_name", VStr "Daniel Oselu");
                ("record_update_datetime", VStr "2024-01-01T00:00:00");
                ("source_system_code", VStr "PUBLIC_DUMMYJSON_API") ])
           [VFloat 168%float; NaN] |}.

Lemma clean_tables_null_filter_witness :
  Pandas.check_columns (columns example_carts) carts_required = Ok tt /\
  exists prepared kept,
    Load.clean_carts_table reference_lib example_carts
    = Ok {| columns := carts_target;
            records := filter (no_null ["cart_id"; "user_id"; "product_id"]) prepared |} /\
    Load.clean_carts_table reference_lib example_carts
    = Ok {| columns := carts_target; records := [kept] |} /\
    cell kept "product_id" = VFloat 168%float.
Proof.
  split; [reflexivity |].
  destruct (clean_tables_null_filter reference_lib example_carts) as (_ & Hcarts & _).
  destruct (Hcarts eq_refl) as (prepared & Hclean & _).
  exists prepared. eexists. split; [exact Hclean |].
  split; vm_compute; reflexivity.
Defined.

Lemma save_to_gcs_one_timestamp_witness :
  exists content,
    get_blob (snd (Extract.save_to_gcs reference_lib "2024-01-01T00:00:00" true []
                     [VDict [("id", VInt 1)]; VDict [("id", VInt 2)]] "raw/products.json"))
             "raw/products.json" = Some content /\
    splitlines content
    = [ json_text "{'metadata': {'extraction_timestamp': '2024-01-01T00:00:00'}, 'data': {'id': 1}}";
        json_text "{'metadata': {'extraction_timestamp': '2024-01-01T00:00:00'}, 'data': {'id': 2}}" ].
Proof.
  destruct (save_to_gcs_one_timestamp reference_lib "2024-01-01T00:00:00" true []
              [VDict [("id", VInt 1)]; VDict [("id", VInt 2)]] "raw/products.json")
    as (_ & Hlines & _).
  destruct (Hlines eq_refl) as (content & Hblob & Hsplit).
  { repeat constructor. }
  exists content. split; [exact Hblob |].
  rewrite Hsplit. vm_compute. reflexivity.
Defined.

Lemma convert_json_to_csv_no_rows_witness :
  Forall (fun line => classify reference_lib line = Malformed \/
                      classify reference_lib line = DataNotObject)
         ["{not json"; ""; data_not_object_line] /\
  Transform.convert_json_to_csv reference_lib ["{not json"; ""; data_not_object_line]
    "2024-01-01T00:00:00" "products" = Raise (KeyError "product_id") /\
  Transform.convert_json_to_csv reference_lib ["{not json"; ""; data_not_object_line]
    "2024-01-01T00:00:00" "users" = Raise (KeyError "user_id") /\
  Transform.convert_json_to_csv reference_lib [] "2024-01-01T00:00:00" "products"
  = Raise (KeyError "product_id").
Proof.
  assert (H : Forall (fun line => classify reference_lib line = Malformed \/
                                  classify reference_lib line = DataNotObject)
                     ["{not json"; ""; data_not_object_line]).
  { repeat constructor; vm_compute; tauto. }
  split; [exact H |].
  destruct (convert_json_to_csv_no_rows reference_lib ["{not json"; ""; data_not_object_line]
              "2024-01-01T00:00:00") as (_ & _ & Hbad).
  destruct (Hbad H) as (Hp & Hu).
  split; [exact Hp |]. split; [exact Hu |].
  destruct (convert_json_to_csv_no_rows reference_lib [] "2024-01-01T00:00:00")
    as (Hempty & _).
  apply Hempty. reflexivity.
Defined.

(** * Further properties *)

Local Open Scope list_scope.

(** ** The general flattener *)




Definition is_dict (v : value) : bool :=
  match v with VDict _ => true | _ => false end.

Lemma internal_flatten_is_dict : forall (separator name : string) (x : value),
  is_dict (Flatten.internal_flatten separator x name) = is_dict x.
Proof.
  intros separator name [| | | | | |]; reflexivity.
Qed.











(** ** The product flattener and the column names of both flatteners *)

(** X3.  A product record flattens to exactly one row.  When the column
    names the flattener writes are pairwise distinct, every top-level str,
    int, float or bool field [f] with value [v] is the column
    [product_f = v], every subfield [s] of a nested object field [f] is the
    column [product_f_s], every list field [f] is the column
    [product_f_count] holding the length of the list, and the row has no
    other column: a field that is null gives no column. *)
Theorem flatten_product_json_columns :
  forall (nested_json product_data : dict),
    dict_get_default nested_json "data" (VDict []) = VDict product_data ->
    exists row,
      Flatten.flatten_product_json nested_json = Ok [row] /\
      (NoDup (written_columns "product_" product_data) ->
       (forall f v, In (f, v) product_data -> is_scalar v = true ->
          dict_get row ("product_" ++ f)%string = Some v) /\
       (forall f sub s v, In (f, VDict sub) product_data -> In (s, v) sub ->
          dict_get row ("product_" ++ f ++ "_" ++ s)%string = Some v) /\
       (forall f l, In (f, VList l) product_data ->
          dict_get row ("product_" ++ f ++ "_count")%string
          = Some (VInt (Z.of_nat (List.length l)))) /\
       dict_keys row = written_columns "product_" product_data).
Proof.
  intros nested_json product_data Hdata.
  eexists. split; [apply (flatten_prefixed_fold "product_" _ _ Hdata) |].
  intros Hnodup.
  rewrite (fold_dict_set_fresh (written_bindings "product_" product_data) []) by exact Hnodup.
  cbn [app].
  assert (Hget : forall k v, In (k, v) (written_bindings "product_" product_data) ->
                             dict_get (written_bindings "product_" product_data) k = Some v).
  { intros k v. apply dict_get_present. exact Hnodup. }
  repeat split.
  - intros f v Hin Hs. apply Hget. apply in_or_app. left.
    apply scalar_bindings_in; assumption.
  - intros f sub s v Hin Hsub. apply Hget. apply in_or_app. right.
    apply in_flat_map. exists (f, VDict sub). split; [exact Hin |].
    cbn [fst snd]. apply in_map_iff. exists (s, v). split; [reflexivity | exact Hsub].
  - intros f l Hin. apply Hget. apply in_or_app. right.
    apply in_flat_map. exists (f, VList l). split; [exact Hin |].
    cbn [fst snd]. left. reflexivity.
Qed.

Lemma dict_keys_set : forall (d : dict) (k : string) (v : value) (k' : string),
  In k' (dict_keys (dict_set d k v)) -> k' = k \/ In k' (dict_keys d).
Proof.
  induction d as [| [k0 v0] d IH]; intros k v k' H; simpl in H.
  - destruct H as [<- | []]. left. reflexivity.
  - destruct (String.eqb_spec k k0) as [-> | Hne]; simpl in H.
    + right. exact H.
    + destruct H as [<- | H]; [right; left; reflexivity |].
      destruct (IH k v k' H) as [-> | Hin]; [left; reflexivity | right; right; exact Hin].
Qed.

Lemma dict_keys_fold_write : forall (bs acc : dict) (k : string),
  In k (dict_keys (fold_left write bs acc)) -> In k (dict_keys acc) \/ In k (dict_keys bs).
Proof.
  induction bs as [| [k0 v0] bs IH]; intros acc k H; [left; exact H |].
  cbn [fold_left] in H. destruct (IH _ _ H) as [Hacc | Hbs].
  - unfold write in Hacc. cbn [fst snd] in Hacc.
    destruct (dict_keys_set _ _ _ _ Hacc) as [-> | Hin];
      [right; left; reflexivity | left; exact Hin].
  - right. right. exact Hbs.
Qed.

Lemma strip_prefix_app : forall (prefix s : string),
  Str.strip_prefix prefix (prefix ++ s) = Some s.
Proof.
  induction prefix as [| c prefix IH]; intros s; [reflexivity |].
  simpl. rewrite Ascii.eqb_refl. apply IH.
Qed.

Lemma startswith_app : forall (prefix s : string),
  Str.startswith (prefix ++ s) prefix = true.
Proof.
  intros. unfold Str.startswith. rewrite strip_prefix_app. reflexivity.
Qed.

Lemma written_columns_prefixed : forall (prefix : string) (items : dict) (k : string),
  In k (written_columns prefix items) -> Str.startswith k prefix = true.
Proof.
  intros prefix items k H. unfold written_columns, written_bindings, dict_keys in H.
  rewrite map_app in H. apply in_app_or in H as [H | H];
    apply in_map_iff in H as ([k' v'] & <- & H); cbn [fst];
    apply in_flat_map in H as ([f v] & _ & H); cbn [fst snd] in H.
  - destruct (is_scalar v); [| destruct H].
    destruct H as [H | []]. injection H as <- _. apply startswith_app.
  - destruct v as [| | | | | l | sub]; try (now destruct H).
    + destruct H as [H | []]. injection H as <- _. apply startswith_app.
    + apply in_map_iff in H as ([s sv] & H & _). injection H as <- _. apply startswith_app.
Qed.

Lemma flatten_prefixed_inv : forall (prefix : string) (nested_json : dict) (rows : list dict),
  Flatten.flatten_prefixed prefix nested_json = Ok rows ->
  exists data,
    dict_get_default nested_json "data" (VDict []) = VDict data /\
    rows = [fold_left write (written_bindings prefix data) []].
Proof.
  intros prefix nested_json rows H.
  destruct (dict_get_default nested_json "data" (VDict [])) as [| | | | | | data] eqn:Hdata;
    try (unfold Flatten.flatten_prefixed in H; rewrite Hdata in H; discriminate).
  exists data. split; [reflexivity |].
  rewrite (flatten_prefixed_fold prefix nested_json data Hdata) in H.
  injection H as <-. reflexivity.
Qed.

Lemma flatten_prefixed_keys : forall (prefix : string) (nested_json : dict) (rows : list dict)
                                     (row : dict) (k : string),
  Flatten.flatten_prefixed prefix nested_json = Ok rows ->
  In row rows -> In k (dict_keys row) -> Str.startswith k prefix = true.
Proof.
  intros prefix nested_json rows row k H Hrow Hk.
  apply flatten_prefixed_inv in H as (data & _ & ->).
  destruct Hrow as [<- | []].
  apply dict_keys_fold_write in Hk as [Hk | Hk]; [destruct Hk |].
  apply (written_columns_prefixed prefix data). exact Hk.
Qed.

(** X4.  Every column of a flattened user row is named [user_...] and every
    column of a flattened product row [product_...], whatever the record
    holds; a record whose data is no object raises AttributeError. *)
Theorem flatten_prefixed_column_names :
  forall (nested_json : dict),
    (forall rows row k,
       Flatten.flatten_user_json nested_json = Ok rows ->
       In row rows -> In k (dict_keys row) -> Str.startswith k "user_" = true) /\
    (forall rows row k,
       Flatten.flatten_product_json nested_json = Ok rows ->
       In row rows -> In k (dict_keys row) -> Str.startswith k "product_" = true) /\
    ((forall d, dict_get_default nested_json "data" (VDict []) <> VDict d) ->
     Flatten.flatten_user_json nested_json = Raise AttributeError /\
     Flatten.flatten_product_json nested_json = Raise AttributeError).
Proof.
  intros nested_json. split; [| split].
  - intros rows row k. apply flatten_prefixed_keys.
  - intros rows row k. apply flatten_prefixed_keys.
  - intros Hnot. unfold Flatten.flatten_user_json, Flatten.flatten_product_json,
      Flatten.flatten_prefixed.
    destruct (dict_get_default nested_json "data" (VDict [])) as [| | | | | | d];
      try (split; reflexivity).
    exfalso. apply (Hnot d). reflexivity.
Qed.

(** ** The cart flattener: the product list and the columns *)

Lemma cart_info_bindings : forall cart_data : dict,
  Flatten.cart_info (VDict cart_data) = Ok (cart_bindings cart_data).
Proof. reflexivity. Qed.

Lemma cart_row_inv : forall (info : dict) (product : value) (row : dict),
  Flatten.cart_row info product = Ok row ->
  exists item, product = VDict item /\ row = dict_update info (item_bindings item).
Proof.
  intros info product row H.
  destruct product as [| | | | | | item]; try discriminate.
  exists item. split; [reflexivity |].
  unfold Flatten.cart_row in H. cbn in H. injection H as <-. reflexivity.
Qed.

Lemma for_each_raise : forall {A B : Type} (f : A -> result B) (l : list A) (x : A) (e : exn),
  In x l -> f x = Raise e ->
  (forall y e', In y l -> f y = Raise e' -> e' = e) ->
  for_each f l = Raise e.
Proof.
  induction l as [| y l IH]; intros x e Hin Hx Hall; [destruct Hin |].
  cbn [for_each]. destruct (f y) as [b | e'] eqn:Hy; cbn [bind].
  - destruct Hin as [-> | Hin]; [congruence |].
    rewrite (IH x e Hin Hx); [reflexivity |].
    intros z e'' Hz. apply Hall. right. exact Hz.
  - f_equal. apply (Hall y e'); [left; reflexivity | exact Hy].
Qed.

(** X5.  The product list of a cart.  Without a [products] key the cart
    gives no row; a null [products] raises TypeError; a list holding an
    item that is no object raises AttributeError, wherever the item stands;
    without a [data] key the record gives no row, and a [data] that is no
    object raises AttributeError. *)
Theorem flatten_cart_json_product_list :
  forall (nested_json : dict),
    (forall cart_data,
       dict_get_default nested_json "data" (VDict []) = VDict cart_data ->
       (dict_get cart_data "products" = None ->
        Flatten.flatten_cart_json nested_json = Ok []) /\
       (dict_get cart_data "products" = Some VNone ->
        Flatten.flatten_cart_json nested_json = Raise TypeError) /\
       (forall items item,
          dict_get cart_data "products" = Some (VList items) ->
          In item items -> is_dict item = false ->
          Flatten.flatten_cart_json nested_json = Raise AttributeError)) /\
    (dict_get nested_json "data" = None ->
     Flatten.flatten_cart_json nested_json = Ok []) /\
    ((forall d, dict_get_default nested_json "data" (VDict []) <> VDict d) ->
     Flatten.flatten_cart_json nested_json = Raise AttributeError).
Proof.
  intros nested_json. split; [| split].
  - intros cart_data Hdata.
    unfold Flatten.flatten_cart_json. rewrite Hdata, cart_info_bindings.
    cbn [bind method_get]. unfold dict_get_default.
    split; [| split].
    + intros ->. reflexivity.
    + intros ->. reflexivity.
    + intros items item -> Hin Hitem. cbn [py_iter bind].
      apply (for_each_raise _ items item AttributeError Hin).
      * destruct item; try reflexivity. discriminate.
      * intros y e' _ Hy. destruct y; try (cbn in Hy; congruence).
  - intros Hnone. unfold Flatten.flatten_cart_json, dict_get_default. rewrite Hnone.
    reflexivity.
  - intros Hnot. unfold Flatten.flatten_cart_json.
    destruct (dict_get_default nested_json "data" (VDict [])) as [| | | | | | d];
      try reflexivity.
    exfalso. apply (Hnot d). reflexivity.
Qed.

Lemma Forall2_in_right : forall {A B : Type} (R : A -> B -> Prop) (l : list A) (l' : list B)
                                (y : B),
  Forall2 R l l' -> In y l' -> exists x, In x l /\ R x y.
Proof.
  intros A B R l l' y H. induction H as [| a b l l' Hab _ IH]; intros Hin; [destruct Hin |].
  destruct Hin as [<- | Hin].
  - exists a. split; [left; reflexivity | exact Hab].
  - destruct (IH Hin) as (x & Hx & Hxy). exists x. split; [right; exact Hx | exact Hxy].
Qed.

(** The rows of a cart, one for each thing its [products] iterates over. *)
Lemma flatten_cart_json_items : forall (nested_json : dict) (rows : list dict),
  Flatten.flatten_cart_json nested_json = Ok rows ->
  exists cart_data line_items,
    dict_get_default nested_json "data" (VDict []) = VDict cart_data /\
    py_iter (dict_get_default cart_data "products" (VList [])) = Ok line_items /\
    Forall2 (fun product row =>
               exists item, product = VDict item /\
                            row = cart_bindings cart_data ++ item_bindings item)
            line_items rows.
Proof.
  intros nested_json rows H. unfold Flatten.flatten_cart_json in H.
  destruct (dict_get_default nested_json "data" (VDict [])) as [| | | | | | cart_data];
    try discriminate.
  rewrite cart_info_bindings in H. cbn [bind method_get] in H.
  apply bind_ok in H as (items & Hiter & H).
  exists cart_data, items. split; [reflexivity |]. split; [exact Hiter |].
  clear Hiter. apply for_each_Forall2 in H.
  induction H as [| product row items rows Hrow _ IH]; constructor; [| exact IH].
  apply cart_row_inv in Hrow as (item & -> & ->). exists item. split; reflexivity.
Qed.

Lemma flatten_cart_json_inv : forall (nested_json : dict) (rows : list dict),
  Flatten.flatten_cart_json nested_json = Ok rows ->
  exists cart_data,
    dict_get_default nested_json "data" (VDict []) = VDict cart_data /\
    Forall (fun row => exists item, row = cart_bindings cart_data ++ item_bindings item) rows.
Proof.
  intros nested_json rows H.
  apply flatten_cart_json_items in H as (cart_data & line_items & Hdata & _ & H).
  exists cart_data. split; [exact Hdata |].
  induction H as [| product row items rows (item & _ & ->) _ IH]; constructor; [| exact IH].
  exists item. reflexivity.
Qed.

(** The field of the cart read for each cart-level column, and the field of
    the line item read for each per-item column. *)
Definition cart_level_sources : list (string * string) :=
  [ ("cart_id", "id"); ("user_id", "userId"); ("total_cart_value", "total");
    ("discounted_total_cart_value", "discountedTotal");
    ("total_products", "totalProducts"); ("total_quantity", "totalQuantity") ].

Definition item_level_sources : list (string * string) :=
  [ ("product_id", "id"); ("product_title", "title"); ("product_price", "price");
    ("product_quantity", "quantity"); ("product_total", "total");
    ("product_discount_percentage", "discountPercentage");
    ("product_discounted_total", "discountedTotal"); ("product_thumbnail", "thumbnail") ].

(** X6.  Every row of a flattened cart has the same fourteen columns in the
    same order, the six cart-level ones and then the eight per-item ones,
    whatever fields the cart and the line item hold.  The row belongs to one
    line item of the cart's [products]; each cart-level column holds the
    value of its field of the cart and each per-item column the value of its
    field of that line item, and a field that is missing is a None cell. *)
Theorem flatten_cart_json_columns :
  forall (nested_json : dict) (rows : list dict) (row : dict),
    Flatten.flatten_cart_json nested_json = Ok rows ->
    In row rows ->
    dict_keys row = cart_level_fields ++ item_level_fields /\
    map fst cart_level_sources = cart_level_fields /\
    map fst item_level_sources = item_level_fields /\
    exists (cart_data : dict) (line_items : list value) (item : dict),
      dict_get_default nested_json "data" (VDict []) = VDict cart_data /\
      py_iter (dict_get_default cart_data "products" (VList [])) = Ok line_items /\
      In (VDict item) line_items /\
      (forall column field, In (column, field) cart_level_sources ->
         dict_get row column =
         Some (match dict_get cart_data field with Some v => v | None => VNone end)) /\
      (forall column field, In (column, field) item_level_sources ->
         dict_get row column =
         Some (match dict_get item field with Some v => v | None => VNone end)).
Proof.
  intros nested_json rows row H Hin.
  apply flatten_cart_json_items in H as (cart_data & line_items & Hdata & Hiter & Hrows).
  destruct (Forall2_in_right _ _ _ _ Hrows Hin) as (product & Hproduct & item & -> & ->).
  split; [reflexivity |]. split; [reflexivity |]. split; [reflexivity |].
  exists cart_data, line_items, item.
  split; [exact Hdata |]. split; [exact Hiter |]. split; [exact Hproduct |].
  split; intros column field Hc; simpl in Hc;
    repeat (destruct Hc as [Hc | Hc]; [injection Hc as <- <-; reflexivity |]);
    destruct Hc.
Qed.

(** ** The metadata columns *)

Lemma dict_get_some_in : forall (d : dict) (k : string) (v : value),
  dict_get d k = Some v -> In k (dict_keys d).
Proof.
  induction d as [| [k' v'] d IH]; intros k v H; simpl in H; [discriminate |].
  destruct (String.eqb_spec k k') as [-> | Hne]; [left; reflexivity |].
  right. apply (IH k v H).
Qed.

Lemma dict_get_fold_write_other : forall (bs acc : dict) (k : string),
  ~ In k (dict_keys bs) -> dict_get (fold_left write bs acc) k = dict_get acc k.
Proof.
  induction bs as [| [k0 v0] bs IH]; intros acc k H; [reflexivity |].
  cbn [fold_left]. rewrite IH by (intros Hin; apply H; right; exact Hin).
  unfold write. cbn [fst snd]. apply dict_get_set_other.
  intros ->. apply H. left. reflexivity.
Qed.

Lemma dict_get_fold_write_in : forall (bs acc : dict) (k : string) (v : value),
  NoDup (dict_keys bs) -> In (k, v) bs -> dict_get (fold_left write bs acc) k = Some v.
Proof.
  induction bs as [| [k0 v0] bs IH]; intros acc k v Hnd Hin; [destruct Hin |].
  unfold dict_keys in Hnd. cbn [map fst] in Hnd. inversion Hnd as [| ? ? Hfresh Hnd']; subst.
  cbn [fold_left]. destruct Hin as [Heq | Hin].
  - injection Heq as -> ->. rewrite dict_get_fold_write_other by exact Hfresh.
    unfold write. cbn [fst snd]. apply dict_get_set_same.
  - apply IH; assumption.
Qed.

(** The bindings the metadata loop writes. *)
Definition metadata_bindings (m : dict) : dict :=
  map (fun kv => (("metadata_" ++ fst kv)%string, snd kv)) m.

Lemma add_metadata_inv : forall (envelope entry entry' : dict),
  Transform.add_metadata envelope entry = Ok entry' ->
  exists m,
    dict_get_default envelope "metadata" (VDict []) = VDict m /\
    entry' = fold_left write (metadata_bindings m) entry.
Proof.
  intros envelope entry entry' H. unfold Transform.add_metadata in H.
  destruct (dict_get_default envelope "metadata" (VDict [])) as [| | | | | | m];
    try discriminate.
  exists m. split; [reflexivity |].
  cbn [method_items bind] in H. injection H as <-.
  unfold metadata_bindings. rewrite fold_left_map. reflexivity.
Qed.

Lemma metadata_bindings_keys : forall (m : dict) (k : string),
  In k (dict_keys (metadata_bindings m)) -> Str.startswith k "metadata_" = true.
Proof.
  intros m k H. unfold dict_keys, metadata_bindings in H. rewrite map_map in H.
  apply in_map_iff in H as (kv & <- & _). cbn [fst]. apply startswith_app.
Qed.

Lemma metadata_bindings_nodup : forall m : dict,
  dict_wf m -> NoDup (dict_keys (metadata_bindings m)).
Proof.
  unfold dict_wf, dict_keys, metadata_bindings.
  induction m as [| [k v] m IH]; intros H; [constructor |].
  cbn [map fst] in H |- *. inversion H as [| ? ? Hfresh Hnd]; subst.
  constructor; [| apply IH; exact Hnd].
  intros Hin. apply Hfresh. rewrite map_map in Hin.
  apply in_map_iff in Hin as ([k' v'] & Heq & Hin). cbn [fst] in Heq.
  injection Heq as ->. apply (in_map fst) in Hin. exact Hin.
Qed.

Lemma startswith_other_letter : forall (s : string) (a b : ascii) (p q : string),
  Str.startswith s (String a p) = true -> a <> b ->
  Str.startswith s (String b q) = false.
Proof.
  intros [| c s] a b p q H Hne; [discriminate |].
  unfold Str.startswith in *. cbn [Str.strip_prefix] in *.
  destruct (Ascii.eqb_spec a c) as [-> | _]; [| discriminate].
  destruct (Ascii.eqb_spec b c) as [-> | _]; [contradiction | reflexivity].
Qed.

(** The columns of a flattened entry of the three known data types are not
    metadata columns. *)
Lemma flatten_json_keys : forall (data_type : string) (envelope : dict) (entries : list dict)
                                 (entry : dict) (k : string),
  In data_type ["carts"; "users"; "products"] ->
  Flatten.flatten_json envelope data_type = Ok entries ->
  In entry entries -> In k (dict_keys entry) ->
  Str.startswith k "metadata_" = false.
Proof.
  intros data_type envelope entries entry k Hdt H Hentry Hk.
  destruct Hdt as [<- | [<- | [<- | []]]]; cbn in H.
  - apply flatten_cart_json_inv in H as (cart_data & _ & Hrows).
    rewrite Forall_forall in Hrows. destruct (Hrows entry Hentry) as (item & ->).
    simpl in Hk.
    repeat (destruct Hk as [<- | Hk]; [reflexivity |]). destruct Hk.
  - pose proof (flatten_prefixed_keys "user_" _ _ _ _ H Hentry Hk) as Hp.
    apply (startswith_other_letter _ _ _ _ _ Hp). discriminate.
  - pose proof (flatten_prefixed_keys "product_" _ _ _ _ H Hentry Hk) as Hp.
    apply (startswith_other_letter _ _ _ _ _ Hp). discriminate.
Qed.

(** X7.  For carts, users and products the loop that copies the metadata of
    the envelope into a flattened entry never overwrites a column of the
    entry; every metadata field [k] of the envelope becomes the column
    [metadata_k] of the entry; and the entry gets no other new column. *)
Theorem add_metadata_keeps_columns :
  forall (data_type : string) (envelope : dict) (entries : list dict) (entry entry' : dict),
    In data_type ["carts"; "users"; "products"] ->
    Flatten.flatten_json envelope data_type = Ok entries ->
    In entry entries ->
    Transform.add_metadata envelope entry = Ok entry' ->
    (forall k v, dict_get entry k = Some v -> dict_get entry' k = Some v) /\
    (forall m k v,
       dict_get_default envelope "metadata" (VDict []) = VDict m -> dict_wf m ->
       In (k, v) m -> dict_get entry' ("metadata_" ++ k)%string = Some v) /\
    (forall k, In k (dict_keys entry') ->
       In k (dict_keys entry) \/ Str.startswith k "metadata_" = true).
Proof.
  intros data_type envelope entries entry entry' Hdt Hflat Hentry Hmeta.
  apply add_metadata_inv in Hmeta as (m & Hm & ->).
  split; [| split].
  - intros k v Hget. rewrite dict_get_fold_write_other; [exact Hget |].
    intros Hin. apply metadata_bindings_keys in Hin.
    apply dict_get_some_in in Hget.
    rewrite (flatten_json_keys data_type envelope entries entry k Hdt Hflat Hentry Hget) in Hin.
    discriminate.
  - intros m' k v Hm' Hwf Hin. rewrite Hm in Hm'. injection Hm' as <-.
    apply dict_get_fold_write_in; [apply metadata_bindings_nodup; exact Hwf |].
    unfold metadata_bindings. apply in_map_iff. exists (k, v). split; [reflexivity | exact Hin].
  - intros k Hk. apply dict_keys_fold_write in Hk as [Hk | Hk]; [left; exact Hk |].
    right. apply (metadata_bindings_keys m). exact Hk.
Qed.

(** ** The audit columns *)

Lemma audit_row_stamps : forall (current_time : string) (r : dict),
  dict_get (audit_row current_time r) "record_create_name" = Some (VStr "Daniel Oselu") /\
  dict_get (audit_row current_time r) "record_create_datetime" = Some (VStr current_time) /\
  dict_get (audit_row current_time r) "record_update_name" = Some (VStr "Daniel Oselu") /\
  dict_get (audit_row current_time r) "record_update_datetime" = Some (VStr current_time) /\
  dict_get (audit_row current_time r) "source_system_code" = Some (VStr "PUBLIC_DUMMYJSON_API").
Proof.
  intros current_time r. unfold audit_row.
  repeat split;
    repeat first [ apply dict_get_set_same
                 | rewrite dict_get_set_other by discriminate ].
Qed.

(** What every row of the enriched frame holds. *)
Definition stamped (current_time : string) (r r' : dict) : Prop :=
  dict_get r' "record_create_name" = Some (VStr "Daniel Oselu") /\
  dict_get r' "record_create_datetime" = Some (VStr current_time) /\
  dict_get r' "record_update_name" = Some (VStr "Daniel Oselu") /\
  dict_get r' "record_update_datetime" = Some (VStr current_time) /\
  dict_get r' "source_system_code" = Some (VStr "PUBLIC_DUMMYJSON_API") /\
  (forall k, ~ In k audit_names ->
             ~ In k ["sgk_product_id"; "sgk_user_id"; "sgk_cart_id"] ->
             dict_get r' k = dict_get r k).

Lemma stamped_audit_row : forall (current_time : string) (r : dict),
  stamped current_time r (audit_row current_time r).
Proof.
  intros current_time r.
  destruct (audit_row_stamps current_time r) as (H1 & H2 & H3 & H4 & H5).
  repeat split; try assumption.
  intros k Hk _. apply dict_get_audit_row. exact Hk.
Qed.

Lemma stamped_set_key : forall (current_time sgk : string) (r : dict) (key : value),
  In sgk ["sgk_product_id"; "sgk_user_id"; "sgk_cart_id"] ->
  stamped current_time r (dict_set (audit_row current_time r) sgk key).
Proof.
  intros current_time sgk r key Hsgk.
  destruct (stamped_audit_row current_time r) as (H1 & H2 & H3 & H4 & H5 & H6).
  assert (Hne : forall k, In k audit_names -> sgk <> k).
  { intros k Hk ->. simpl in Hsgk, Hk.
    destruct Hsgk as [<- | [<- | [<- | []]]];
      destruct Hk as [E | [E | [E | [E | [E | []]]]]]; discriminate. }
  repeat split;
    try (rewrite dict_get_set_other by (apply Hne; simpl; tauto); assumption).
  intros k Hk Hk'. rewrite dict_get_set_other; [apply H6; assumption |].
  intros ->. apply Hk'. exact Hsgk.
Qed.

Lemma getitem_length : forall (df : DataFrame) (c : string) (vs : list value),
  Pandas.getitem df c = Ok vs -> List.length vs = List.length (records df).
Proof.
  intros df c vs H. unfold Pandas.getitem in H.
  destruct (Pandas.has_column _ _); [| discriminate]. injection H as <-.
  unfold Pandas.column_values. apply length_map.
Qed.

Lemma stamped_set_column :
  forall (current_time sgk : string) (df : DataFrame) (keys : list value),
    In sgk ["sgk_product_id"; "sgk_user_id"; "sgk_cart_id"] ->
    List.length keys = List.length (records df) ->
    Forall2 (stamped current_time) (records df)
            (records (Pandas.setitem_column (audit_frame current_time df) sgk keys)).
Proof.
  intros current_time sgk df keys Hsgk. unfold Pandas.setitem_column, audit_frame.
  cbn [records]. revert keys.
  induction (records df) as [| r rows IH]; intros keys Hlen.
  - constructor.
  - destruct keys as [| key keys]; [discriminate |]. cbn [map combine fst snd].
    constructor; [apply stamped_set_key; exact Hsgk | apply IH].
    cbn [List.length] in Hlen. injection Hlen as Hlen. exact Hlen.
Qed.

Lemma add_audit_columns_rows :
  forall (L : PyLib) (current_time data_type : string) (df out : DataFrame),
    Transform.add_audit_columns L current_time df data_type = Ok out ->
    Forall2 (stamped current_time) (records df) (records out).
Proof.
  intros L current_time data_type df out H.
  rewrite add_audit_columns_unfold in H. cbv zeta in H.
  assert (Hrows : List.length (records (audit_frame current_time df))
                  = List.length (records df)).
  { unfold audit_frame. cbn [records]. apply length_map. }
  destruct (String.eqb data_type "products");
    [| destruct (String.eqb data_type "users");
     [| destruct (String.eqb data_type "carts")]].
  - apply bind_ok in H as (ids & Hget & H). apply bind_ok in H as (keys & Hkeys & H).
    injection H as <-.
    apply for_each_length in Hkeys. apply getitem_length in Hget.
    apply stamped_set_column; [simpl; tauto | congruence].
  - apply bind_ok in H as (ids & Hget & H). apply bind_ok in H as (keys & Hkeys & H).
    injection H as <-.
    apply for_each_length in Hkeys. apply getitem_length in Hget.
    apply stamped_set_column; [simpl; tauto | congruence].
  - destruct (records (audit_frame current_time df)) as [| r0 rows0] eqn:Hrecords;
      [discriminate |].
    rewrite <- Hrecords in H, Hrows. clear Hrecords r0 rows0.
    apply bind_ok in H as (keys & Hkeys & H). injection H as <-.
    apply for_each_length in Hkeys.
    apply stamped_set_column; [simpl; tauto | congruence].
  - injection H as <-. unfold audit_frame. cbn [records].
    apply Forall2_map_right. intros r. apply stamped_audit_row.
Qed.

(** X8.  The enrichment keeps the rows, one for one and in order.  Every
    row of the result holds the creator and updater name, the one time
    stamp read at the start of the call in both date columns, and the
    source system code; every cell of the input outside the five audit
    columns and the surrogate-key columns is unchanged (a column of the
    input that has an audit name is overwritten). *)
Theorem add_audit_columns_stamps :
  forall (L : PyLib) (current_time data_type : string) (df out : DataFrame),
    Transform.add_audit_columns L current_time df data_type = Ok out ->
    Forall2 (stamped current_time) (records df) (records out) /\
    List.length (records out) = List.length (records df).
Proof.
  intros L current_time data_type df out H.
  pose proof (add_audit_columns_rows L current_time data_type df out H) as Hrows.
  split; [exact Hrows |].
  symmetry. apply (Forall2_length Hrows).
Qed.

(** ** When the conversion run succeeds *)

Definition has_key (row : dict) (c : string) : bool :=
  existsb (String.eqb c) (dict_keys row).

Lemma has_key_spec : forall (row : dict) (c : string),
  has_key row c = true <-> dict_get row c <> None.
Proof.
  intros row c. unfold has_key. induction row as [| [k v] row IH]; simpl.
  - split; [discriminate | intros H; contradiction].
  - destruct (String.eqb c k); simpl; [split; [discriminate | reflexivity] | exact IH].
Qed.

Lemma has_column_fold_add_label : forall (ks cols : list string) (c : string),
  Pandas.has_column (fold_left Pandas.add_label ks cols) c =
  Pandas.has_column cols c || existsb (String.eqb c) ks.
Proof.
  induction ks as [| k ks IH]; intros cols c; simpl; [rewrite orb_false_r; reflexivity |].
  rewrite IH, has_column_add_label, orb_assoc. reflexivity.
Qed.

Lemma has_column_union : forall (data : list dict) (c : string),
  Pandas.has_column (Pandas.union_columns data) c = existsb (fun row => has_key row c) data.
Proof.
  intros data c. unfold Pandas.union_columns.
  assert (H : forall cols,
            Pandas.has_column
              (fold_left (fun cols row => fold_left Pandas.add_label (dict_keys row) cols) data cols) c
            = Pandas.has_column cols c || existsb (fun row => has_key row c) data).
  { induction data as [| row data IH]; intros cols; simpl; [rewrite orb_false_r; reflexivity |].
    rewrite IH, has_column_fold_add_label, orb_assoc. reflexivity. }
  rewrite H. reflexivity.
Qed.

Lemma infer_column_length : forall (rows : list dict) (c : string),
  List.length (Pandas.infer_column rows c) = List.length rows.
Proof.
  intros rows c. unfold Pandas.infer_column.
  destruct (Pandas.becomes_float64 _); [apply length_map | reflexivity].
Qed.

Lemma fold_infer_column_length : forall (cols : list string) (rows : list dict),
  List.length (fold_left Pandas.infer_column cols rows) = List.length rows.
Proof.
  induction cols as [| c cols IH]; intros rows; [reflexivity |].
  cbn [fold_left]. rewrite IH. apply infer_column_length.
Qed.

Lemma of_records_length : forall data : list dict,
  List.length (records (Pandas.of_records data)) = List.length data.
Proof.
  intros data. unfold Pandas.of_records. cbn [records].
  rewrite fold_infer_column_length. apply length_map.
Qed.

(** X10.  When the reading loop has run through, the products run and the
    users run succeed exactly when some flattened row has the natural-key
    column ([product_id], [user_id]) and the text of the id of every row of
    the frame can be written and encoded; the frame then has one row for
    each flattened row.  When no row has that column the run raises KeyError
    on it, and when the id of some row cannot be written or encoded (a lone
    surrogate, for one) the run raises too: in both cases it returns no
    frame. *)
Theorem convert_json_to_csv_needs_id_column :
  forall (L : PyLib) (lines : list string) (current_time data_type : string)
         (flattened_data : list dict),
    In data_type ["products"; "users"] ->
    Transform.read_loop L data_type lines [] = Ok flattened_data ->
    ((exists row, In row flattened_data /\ dict_get row (id_column data_type) <> None) ->
     Forall (fun r => exists key,
               surrogate_key L data_type (natural_key data_type r) = Ok key)
            (records (Pandas.of_records flattened_data)) ->
     exists df,
       Transform.convert_json_to_csv L lines current_time data_type = Ok df /\
       List.length (records df) = List.length flattened_data) /\
    ((forall row, In row flattened_data -> dict_get row (id_column data_type) = None) ->
     Transform.convert_json_to_csv L lines current_time data_type
     = Raise (KeyError (id_column data_type))) /\
    (forall r e,
       In r (records (Pandas.of_records flattened_data)) ->
       surrogate_key L data_type (natural_key data_type r) = Raise e ->
       exists e', Transform.convert_json_to_csv L lines current_time data_type = Raise e').
Proof.
  intros L lines current_time data_type flattened_data Hdt Hread.
  unfold Transform.convert_json_to_csv. rewrite Hread. cbn [bind].
  assert (Hfree : ~ In (id_column data_type) audit_names).
  { destruct Hdt as [<- | [<- | []]]; simpl;
      intros [E | [E | [E | [E | [E | []]]]]]; discriminate. }
  pose proof (has_column_audit current_time (Pandas.of_records flattened_data) _ Hfree) as Hcol.
  unfold Pandas.of_records in Hcol at 2. cbn [columns] in Hcol.
  rewrite has_column_union in Hcol.
  split; [| split].
  - intros (row & Hin & Hrow) Hkeys.
    assert (Hex : existsb (fun row => has_key row (id_column data_type)) flattened_data = true).
    { apply existsb_exists. exists row. split; [exact Hin |]. apply has_key_spec. exact Hrow. }
    destruct (add_audit_columns_succeeds L current_time data_type
                (Pandas.of_records flattened_data) Hdt) as (df & Hrun).
    { unfold Pandas.of_records at 1. cbn [columns]. rewrite has_column_union. exact Hex. }
    { exact Hkeys. }
    exists df. split; [exact Hrun |].
    rewrite <- (Forall2_length (add_audit_columns_rows L _ _ _ _ Hrun)).
    apply of_records_length.
  - intros Hnone.
    assert (Hex : existsb (fun row => has_key row (id_column data_type)) flattened_data = false).
    { apply not_true_is_false. intros Hex. apply existsb_exists in Hex as (row & Hin & Hrow).
      apply has_key_spec in Hrow. apply Hrow. apply Hnone. exact Hin. }
    rewrite Hex in Hcol.
    rewrite add_audit_columns_unfold. cbv zeta. unfold Pandas.getitem.
    destruct Hdt as [<- | [<- | []]];
      cbv [id_column String.eqb Ascii.eqb Bool.eqb] in Hcol |- *;
      rewrite Hcol; reflexivity.
  - intros r e Hin Hraise.
    apply (add_audit_columns_raises L current_time data_type _ r e); [| exact Hin | exact Hraise].
    destruct Hdt as [<- | [<- | []]]; simpl; tauto.
Qed.

(** ** The text of an int, digit by digit *)

(** The decimal digit [d], as the one-digit numeral. *)
Definition digit_numeral (d : Z) : Decimal.uint :=
  match Z.to_int d with
  | Decimal.Pos u => u
  | Decimal.Neg u => u
  end.

Lemma string_of_uint_app : forall u u' : Decimal.uint,
  NilEmpty.string_of_uint (Decimal.app u u')
  = (NilEmpty.string_of_uint u ++ NilEmpty.string_of_uint u')%string.
Proof.
  intros u u'.
  assert (Hlist : forall l l',
            NilEmpty.string_of_uint (DecimalFacts.of_list (l ++ l'))
            = (NilEmpty.string_of_uint (DecimalFacts.of_list l)
               ++ NilEmpty.string_of_uint (DecimalFacts.of_list l'))%string).
  { induction l as [| d l IH]; intros l'; [reflexivity |].
    destruct d; cbn [DecimalFacts.of_list app NilEmpty.string_of_uint String.append];
      rewrite IH; reflexivity. }
  rewrite <- (DecimalFacts.of_list_to_list (Decimal.app u u')), DecimalFacts.app_spec, Hlist.
  rewrite !DecimalFacts.of_list_to_list. reflexivity.
Qed.

Lemma rev_app_digit : forall (u : Decimal.uint) (d : Z),
  0 <= d <= 9 ->
  Decimal.rev (Decimal.app u (digit_numeral d))
  = Decimal.app (digit_numeral d) (Decimal.rev u).
Proof.
  intros u d Hd. apply DecimalFacts.to_list_inj.
  rewrite DecimalFacts.rev_spec, !DecimalFacts.app_spec, DecimalFacts.rev_spec, rev_app_distr.
  f_equal.
  assert (Hcases : d = 0 \/ d = 1 \/ d = 2 \/ d = 3 \/ d = 4 \/ d = 5 \/ d = 6 \/ d = 7 \/
                   d = 8 \/ d = 9) by lia.
  repeat (destruct Hcases as [-> | Hcases]; [reflexivity |]). subst d. reflexivity.
Qed.

Lemma of_lu_app_digit : forall (u : Decimal.uint) (d : Z),
  0 <= d <= 9 ->
  Z.of_N (DecimalPos.Unsigned.of_lu (Decimal.app (digit_numeral d) u))
  = d + 10 * Z.of_N (DecimalPos.Unsigned.of_lu u).
Proof.
  intros u d Hd.
  assert (Hcases : d = 0 \/ d = 1 \/ d = 2 \/ d = 3 \/ d = 4 \/ d = 5 \/ d = 6 \/ d = 7 \/
                   d = 8 \/ d = 9) by lia.
  repeat (destruct Hcases as [-> | Hcases];
          [change (Decimal.app (digit_numeral _) u) with (Decimal.D0 u)
           || change (Decimal.app (digit_numeral _) u) with (Decimal.D1 u)
           || change (Decimal.app (digit_numeral _) u) with (Decimal.D2 u)
           || change (Decimal.app (digit_numeral _) u) with (Decimal.D3 u)
           || change (Decimal.app (digit_numeral _) u) with (Decimal.D4 u)
           || change (Decimal.app (digit_numeral _) u) with (Decimal.D5 u)
           || change (Decimal.app (digit_numeral _) u) with (Decimal.D6 u)
           || change (Decimal.app (digit_numeral _) u) with (Decimal.D7 u)
           || change (Decimal.app (digit_numeral _) u) with (Decimal.D8 u);
           cbn [DecimalPos.Unsigned.of_lu]; lia |]).
  subst d. change (Decimal.app (digit_numeral 9) u) with (Decimal.D9 u).
  cbn [DecimalPos.Unsigned.of_lu]. lia.
Qed.

Lemma to_uint_normal : forall p : positive,
  Decimal.unorm (Pos.to_uint p) = Pos.to_uint p.
Proof.
  intros p.
  pose proof (DecimalPos.Unsigned.to_of (Pos.to_uint p)) as H.
  rewrite DecimalPos.Unsigned.of_to in H. symmetry. exact H.
Qed.

Lemma to_int_app_digit : forall (p : positive) (d : Z),
  0 <= d <= 9 ->
  Z.to_int (10 * Z.pos p + d)
  = Decimal.Pos (Decimal.app (Pos.to_uint p) (digit_numeral d)).
Proof.
  intros p d Hd.
  set (w := Decimal.app (Pos.to_uint p) (digit_numeral d)).
  assert (Hval : Z.of_int (Decimal.Pos w) = 10 * Z.pos p + d).
  { unfold Z.of_int, Z.of_uint. rewrite DecimalPos.Unsigned.of_uint_alt.
    unfold w. rewrite (rev_app_digit _ d Hd), (of_lu_app_digit _ d Hd).
    rewrite <- DecimalPos.Unsigned.of_uint_alt, DecimalPos.Unsigned.of_to. lia. }
  rewrite <- Hval, DecimalZ.to_of. unfold Decimal.norm, w.
  rewrite DecimalFacts.unorm_app_l.
  - rewrite to_uint_normal. reflexivity.
  - apply Nat.nle_gt. intros Hle. apply DecimalFacts.unorm_app_zero in Hle.
    rewrite to_uint_normal in Hle.
    apply (DecimalPos.Unsigned.to_uint_nonzero p). exact Hle.
Qed.

(** The text of [10 * u + d] is the text of [u] followed by the digit [d]. *)
Lemma str_of_int_app_digit : forall (u d : Z),
  0 < u -> 0 <= d <= 9 ->
  str_of_int (10 * u + d) = (str_of_int u ++ str_of_int d)%string.
Proof.
  intros u d Hu Hd. destruct u as [| p |]; try lia.
  unfold str_of_int. rewrite (to_int_app_digit p d Hd).
  cbn [NilZero.string_of_int Z.to_int].
  assert (Hp : NilZero.string_of_uint (Pos.to_uint p) = NilEmpty.string_of_uint (Pos.to_uint p)).
  { pose proof (DecimalPos.Unsigned.to_uint_nonnil p) as Hnn.
    destruct (Pos.to_uint p); [contradiction | reflexivity ..]. }
  assert (Hw : forall w, w <> Decimal.Nil -> NilZero.string_of_uint w = NilEmpty.string_of_uint w).
  { intros w Hw. destruct w; [contradiction | reflexivity ..]. }
  rewrite Hp, Hw, string_of_uint_app.
  - f_equal.
    assert (Hcases : d = 0 \/ d = 1 \/ d = 2 \/ d = 3 \/ d = 4 \/ d = 5 \/ d = 6 \/ d = 7 \/
                     d = 8 \/ d = 9) by lia.
    repeat (destruct Hcases as [-> | Hcases]; [reflexivity |]). subst d. reflexivity.
  - intros Hnil. apply (f_equal DecimalFacts.to_list) in Hnil.
    rewrite DecimalFacts.app_spec in Hnil. apply app_eq_nil in Hnil as [Hnil _].
    apply (DecimalPos.Unsigned.to_uint_nonnil p).
    apply DecimalFacts.to_list_inj. exact Hnil.
Qed.

Lemma string_app_assoc : forall a b c : string,
  ((a ++ b) ++ c = a ++ (b ++ c))%string.
Proof.
  induction a as [| x a IH]; intros b c; simpl; [reflexivity | rewrite IH; reflexivity].
Qed.

(** ** The surrogate key of a cart line is not injective *)

Lemma int_str_ok : forall (n : Z) (s : string), int_str n = Ok s -> s = str_of_int n.
Proof.
  intros n s H. unfold int_str in H.
  destruct (within_str_digits n); [| discriminate]. injection H as <-. reflexivity.
Qed.

(** X9.  The carts key hashes the texts of user id, product id and cart id
    put end to end with nothing between them, so a digit can move from one
    id to the next: for every user, every product id [p > 0], and digits
    [d] (not 0) and [e], the line item of product [10 p + d] in cart [e]
    and the line item of product [p] in cart [10 d + e] get the same
    surrogate key, in one frame or in two. *)
Theorem cart_surrogate_key_collision :
  forall (L : PyLib) (time1 time2 : string) (df1 df2 out1 out2 : DataFrame) (i j : nat)
         (r1 r2 : dict) (user : value) (p d e : Z),
    0 < p -> 1 <= d <= 9 -> 0 <= e <= 9 ->
    Transform.add_audit_columns L time1 df1 "carts" = Ok out1 ->
    Transform.add_audit_columns L time2 df2 "carts" = Ok out2 ->
    nth_error (records df1) i = Some r1 ->
    nth_error (records df2) j = Some r2 ->
    dict_get r1 "user_id" = Some user ->
    dict_get r1 "product_id" = Some (VInt (10 * p + d)) ->
    dict_get r1 "cart_id" = Some (VInt e) ->
    dict_get r2 "user_id" = Some user ->
    dict_get r2 "product_id" = Some (VInt p) ->
    dict_get r2 "cart_id" = Some (VInt (10 * d + e)) ->
    exists r1' r2' key,
      nth_error (records out1) i = Some r1' /\
      nth_error (records out2) j = Some r2' /\
      dict_get r1' "sgk_cart_id" = Some key /\
      dict_get r2' "sgk_cart_id" = Some key.
Proof.
  intros L time1 time2 df1 df2 out1 out2 i j r1 r2 user p d e Hp Hd He H1 H2 Hi Hj
         Hu1 Hp1 Hc1 Hu2 Hp2 Hc2.
  apply (add_audit_columns_keys L time1 "carts" df1 out1) in H1; [| simpl; tauto].
  apply (add_audit_columns_keys L time2 "carts" df2 out2) in H2; [| simpl; tauto].
  destruct (Forall2_nth_error _ _ _ _ _ H1 Hi) as (r1' & Hr1' & key1 & Hs1 & Hk1).
  destruct (Forall2_nth_error _ _ _ _ _ H2 Hj) as (r2' & Hr2' & key2 & Hs2 & Hk2).
  exists r1', r2', key1.
  repeat split; try assumption.
  change (surrogate_column "carts") with "sgk_cart_id" in Hk1, Hk2.
  rewrite Hk2. f_equal.
  unfold surrogate_key, natural_key in Hs1, Hs2.
  cbn [String.eqb Ascii.eqb Bool.eqb] in Hs1, Hs2.
  rewrite Hu1, Hp1, Hc1 in Hs1. rewrite Hu2, Hp2, Hc2 in Hs2.
  cbn [or_default py_str] in Hs1, Hs2.
  apply bind_ok in Hs1 as (user1 & Huser1 & Hs1).
  apply bind_ok in Hs1 as (product1 & Hproduct1 & Hs1).
  apply bind_ok in Hs1 as (cart1 & Hcart1 & Hs1).
  apply bind_ok in Hs1 as (data1 & Hdata1 & Hs1). injection Hs1 as <-.
  apply bind_ok in Hs2 as (user2 & Huser2 & Hs2).
  apply bind_ok in Hs2 as (product2 & Hproduct2 & Hs2).
  apply bind_ok in Hs2 as (cart2 & Hcart2 & Hs2).
  apply bind_ok in Hs2 as (data2 & Hdata2 & Hs2). injection Hs2 as <-.
  rewrite Huser1 in Huser2. injection Huser2 as <-.
  apply int_str_ok in Hproduct1, Hcart1, Hproduct2, Hcart2. subst.
  rewrite (str_of_int_app_digit p d) in Hdata1 by lia.
  rewrite (str_of_int_app_digit d e) in Hdata2 by lia.
  rewrite string_app_assoc in Hdata1.
  rewrite Hdata1 in Hdata2. injection Hdata2 as <-. reflexivity.
Qed.

(** ** The fetch loop: how it ends *)

Lemma py_len_truthy : forall (items : value) (n : Z),
  py_truthy items = true -> py_len items = Ok n -> 1 <= n.
Proof.
  intros [| b | z | f | s | l | d] n Ht Hn; try discriminate; cbn in Ht, Hn; injection Hn as <-.
  - destruct s as [| c s]; [discriminate |].
    unfold py_chars. cbn [String.length py_chars_fuel].
    destruct (take_continuation s). cbn [List.length]. lia.
  - destruct l; [discriminate |]. cbn [List.length]. lia.
  - destruct d; [discriminate |]. cbn [List.length]. lia.
Qed.

(** A pass that goes on has fetched something, and is still below the
    total the page reports. *)
Lemma fetch_pass_next :
  forall (r : Extract.response) (all_items items' : list value) (total_fetched fetched' : Z),
    Extract.fetch_pass r all_items total_fetched = Ok (Extract.Next items' fetched') ->
    exists d,
      r = Extract.Body (VDict d) /\
      total_fetched < fetched' /\
      (forall t, dict_get_default d "total" (VInt 0) = VInt t -> fetched' < t).
Proof.
  intros r all_items items' total_fetched fetched' H.
  destruct r as [| data]; [discriminate |].
  destruct data as [| | | | | | d]; try discriminate.
  exists d. split; [reflexivity |].
  unfold Extract.fetch_pass in H.
  destruct (Extract.page_items (VDict d)) as [items | e]; [| discriminate].
  cbn [bind] in H.
  destruct (py_truthy items) eqn:Ht; [| discriminate]. cbn [negb] in H.
  destruct (py_iter items) as [extension | e]; [| discriminate]. cbn [bind] in H.
  destruct (py_len items) as [n | e] eqn:Hn; [| discriminate]. cbn [bind method_get] in H.
  pose proof (py_len_truthy items n Ht Hn) as Hpos.
  destruct (Extract.int_ge (total_fetched + n) (dict_get_default d "total" (VInt 0)))
    as [reached | e] eqn:Hge; [| discriminate].
  cbn [bind] in H. destruct reached; [discriminate |].
  injection H as _ <-. split; [lia |].
  intros t Ht'. rewrite Ht' in Hge. cbn in Hge. injection Hge as Hge.
  apply Z.leb_gt in Hge. exact Hge.
Qed.

Lemma fetch_loop_ends :
  forall (srv : Extract.server) (base_url : string) (limit bound : Z),
    (forall n url d,
       srv n url = Extract.Body (VDict d) ->
       exists t, dict_get_default d "total" (VInt 0) = VInt t /\ t <= bound) ->
    forall (fuel request : nat) (skip : Z) (all_items : list value) (total_fetched : Z),
      (Z.to_nat (bound - total_fetched) < fuel)%nat ->
      exists r,
        Extract.fetch_loop fuel srv base_url limit request skip all_items total_fetched = Some r.
Proof.
  intros srv base_url limit bound Htotal.
  induction fuel as [| fuel IH]; intros request skip all_items total_fetched Hfuel; [lia |].
  cbn [Extract.fetch_loop].
  destruct (Extract.fetch_pass (srv request (Extract.page_url base_url limit skip))
              all_items total_fetched) as [[items | items fetched'] | e] eqn:Hpass;
    [eexists; reflexivity | | eexists; reflexivity].
  apply fetch_pass_next in Hpass as (d & Hbody & Hmore & Hbelow).
  destruct (Htotal _ _ _ Hbody) as (t & Ht & Hle).
  specialize (Hbelow t Ht).
  apply IH. lia.
Qed.

(** X11.  The loop ends.  When every page that is an object reports an
    integer total of at most [bound], the fetch returns, with a list or
    with an exception, after at most [bound + 1] requests, whatever else
    the endpoint answers: pages that ignore [skip], totals that change
    from page to page, failures. *)
Theorem fetch_paginated_data_terminates :
  forall (srv : Extract.server) (base_url : string) (limit bound : Z),
    (forall n url d,
       srv n url = Extract.Body (VDict d) ->
       exists t, dict_get_default d "total" (VInt 0) = VInt t /\ t <= bound) ->
    exists r,
      Extract.fetch_paginated_data (S (Z.to_nat bound)) srv base_url limit = Some r.
Proof.
  intros srv base_url limit bound Htotal. unfold Extract.fetch_paginated_data.
  apply (fetch_loop_ends srv base_url limit bound Htotal). lia.
Qed.

(** X12.  A first page without a [total]: the missing total counts as 0,
    which the items fetched have reached at once, so the fetch returns the
    items of the first page only and asks for no second page. *)
Theorem fetch_paginated_data_without_total :
  forall (srv : Extract.server) (base_url : string) (limit : Z) (d : dict) (x : value)
         (l : list value) (fuel : nat),
    srv O (Extract.page_url base_url limit 0) = Extract.Body (VDict d) ->
    dict_get d "total" = None ->
    Extract.page_items (VDict d) = Ok (VList (x :: l)) ->
    Extract.fetch_paginated_data (S fuel) srv base_url limit = Some (Ok (x :: l)).
Proof.
  intros srv base_url limit d x l fuel Hsrv Htotal Hitems.
  unfold Extract.fetch_paginated_data. cbn [Extract.fetch_loop]. rewrite Hsrv.
  unfold Extract.fetch_pass. rewrite Hitems.
  cbn [bind py_truthy negb py_iter py_len method_get].
  unfold dict_get_default. rewrite Htotal. cbn [Extract.int_ge bind].
  destruct (Z.leb_spec 0 (0 + Z.of_nat (List.length (x :: l)))) as [_ | Hlt]; [reflexivity |].
  cbn [List.length] in Hlt. lia.
Qed.

(** ** The extraction script as a whole *)

(** X13.  [main] returns normally on the two failures the script catches.
    When the first request fails, the raw file is overwritten with an empty
    text; when the upload fails, whatever was fetched is dropped and the
    bucket is left as it was.  In neither case does an exception leave
    [main]. *)
Theorem main_swallows_failures :
  forall (L : PyLib) (srv : Extract.server) (extraction_timestamp : string)
         (b : Extract.bucket) (url name : string),
    (forall fuel,
       srv O (Extract.page_url url 30 0) = Extract.RequestException ->
       Extract.main L (S fuel) srv extraction_timestamp true b url name
       = Some (Ok (Extract.put_blob b ("raw/" ++ name ++ ".json")%string ""%string))) /\
    (forall fuel data,
       Extract.fetch_paginated_data fuel srv url 30 = Some (Ok data) ->
       Extract.main L fuel srv extraction_timestamp false b url name = Some (Ok b)).
Proof.
  intros L srv extraction_timestamp b url name. split.
  - intros fuel Hfail. unfold Extract.main, Extract.fetch_paginated_data.
    cbn [Extract.fetch_loop]. rewrite Hfail. reflexivity.
  - intros fuel data Hfetch. unfold Extract.main. rewrite Hfetch. reflexivity.
Qed.

(** ** Paths into the object store *)

(** [old] occurs somewhere in [s]. *)
Fixpoint occurs (old s : string) : bool :=
  match Str.strip_prefix old s with
  | Some _ => true
  | None =>
      match s with
      | EmptyString => false
      | String _ rest => occurs old rest
      end
  end.

(** A bucket name of ASCII characters without a slash. *)
Fixpoint plain (s : string) : bool :=
  match s with
  | EmptyString => true
  | String c rest =>
      (N_of_ascii c <? 128)%N && negb (Ascii.eqb c "/") && plain rest
  end.

Lemma string_app_nil_r : forall s : string, (s ++ "")%string = s.
Proof.
  induction s as [| c s IH]; simpl; [reflexivity | rewrite IH; reflexivity].
Qed.

Lemma occurs_step : forall (old : string) (c : ascii) (rest : string),
  occurs old (String c rest) = false ->
  Str.strip_prefix old (String c rest) = None /\ occurs old rest = false.
Proof.
  intros old c rest H. cbn [occurs] in H.
  destruct (Str.strip_prefix old (String c rest)); [discriminate |].
  split; [reflexivity | exact H].
Qed.

Lemma replace_fuel_step : forall (fuel : nat) (s old new : string),
  Str.replace_fuel (S fuel) s old new =
  match Str.strip_prefix old s with
  | Some rest => (new ++ Str.replace_fuel fuel rest old new)%string
  | None =>
      match s with
      | EmptyString => EmptyString
      | String c rest => String c (Str.replace_fuel fuel rest old new)
      end
  end.
Proof. reflexivity. Qed.

Lemma replace_fuel_absent : forall (fuel : nat) (s old new : string),
  occurs old s = false -> Str.replace_fuel fuel s old new = s.
Proof.
  induction fuel as [| fuel IH]; intros s old new H; [reflexivity |].
  destruct s as [| c rest].
  - rewrite replace_fuel_step. cbn [occurs] in H.
    destruct (Str.strip_prefix old ""); [discriminate | reflexivity].
  - apply occurs_step in H as [Hhead Hrest].
    rewrite replace_fuel_step, Hhead. f_equal. apply IH. exact Hrest.
Qed.

(** Without another [gs://] in it, a path loses its scheme and nothing
    else. *)
Lemma replace_scheme : forall t : string,
  occurs "gs://" t = false -> Str.replace ("gs://" ++ t) "gs://" "" = t.
Proof.
  intros t H. unfold Str.replace.
  change (String.length ("gs://" ++ t)) with (S (S (S (S (S (String.length t)))))).
  rewrite replace_fuel_step, strip_prefix_app.
  cbn [String.append]. apply replace_fuel_absent. exact H.
Qed.

Lemma split_once_plain : forall (bucket_name rest : string),
  plain bucket_name = true ->
  Str.split_once (bucket_name ++ String "/" rest) "/" = [bucket_name; rest].
Proof.
  induction bucket_name as [| c b IH]; intros rest H.
  - reflexivity.
  - cbn [plain] in H. apply andb_true_iff in H as [H Hb].
    apply andb_true_iff in H as [_ Hc]. apply negb_true_iff in Hc.
    cbn [String.append Str.split_once]. rewrite Hc, (IH rest Hb). reflexivity.
Qed.

Lemma split_once_no_slash : forall s : string,
  plain s = true -> Str.split_once s "/" = [s].
Proof.
  induction s as [| c s IH]; intros H; [reflexivity |].
  cbn [plain] in H. apply andb_true_iff in H as [H Hs].
  apply andb_true_iff in H as [_ Hc]. apply negb_true_iff in Hc.
  cbn [Str.split_once]. rewrite Hc, (IH Hs). reflexivity.
Qed.

(** The blob [read_from_gcs] reads for the path [convert_json_to_csv]
    builds. *)
Lemma read_from_gcs_resolves : forall (st : Gcs.store) (bucket_name source_blob_name : string),
  plain bucket_name = true ->
  occurs "gs://" (bucket_name ++ "/" ++ source_blob_name) = false ->
  Transform.read_from_gcs st (Transform.full_gcs_path bucket_name source_blob_name) =
  match st bucket_name source_blob_name with
  | Some content => Transform.Lines (Str.splitlines content)
  | None => Transform.NotFound
  end.
Proof.
  intros st bucket_name source_blob_name Hplain Hocc.
  unfold Transform.read_from_gcs, Transform.full_gcs_path.
  rewrite (replace_scheme _ Hocc).
  change (bucket_name ++ "/" ++ source_blob_name)%string
    with (bucket_name ++ String "/" source_blob_name)%string.
  rewrite (split_once_plain _ _ Hplain). reflexivity.
Qed.

(** X15.  The transformer reads the blob it was asked for: for a bucket
    name of ASCII characters without a slash and a blob name such that
    [gs://] occurs nowhere in bucket name, slash, blob name, the lines read
    are the lines of that blob of that bucket, and a blob that does not
    exist is a NotFound.  The condition matters, since every [gs://] of the
    path is removed and not only the scheme: asked for the blob
    [a/gs://x.json], the function reads the blob [a/x.json]. *)
Theorem read_from_gcs_reads_the_blob :
  forall (st : Gcs.store) (bucket_name source_blob_name : string),
    plain bucket_name = true ->
    occurs "gs://" (bucket_name ++ "/" ++ source_blob_name) = false ->
    Transform.read_from_gcs st (Transform.full_gcs_path bucket_name source_blob_name) =
    match st bucket_name source_blob_name with
    | Some content => Transform.Lines (Str.splitlines content)
    | None => Transform.NotFound
    end /\
    Transform.read_from_gcs st (Transform.full_gcs_path bucket_name "a/gs://x.json") =
    match st bucket_name "a/x.json" with
    | Some content => Transform.Lines (Str.splitlines content)
    | None => Transform.NotFound
    end.
Proof.
  intros st bucket_name source_blob_name Hplain Hocc.
  split; [apply read_from_gcs_resolves; assumption |].
  unfold Transform.read_from_gcs, Transform.full_gcs_path.
  assert (Hgen : forall b fuel,
            plain b = true ->
            (String.length (b ++ "/a/gs://x.json") <= fuel)%nat ->
            Str.replace_fuel fuel (b ++ "/a/gs://x.json") "gs://" ""
            = (b ++ "/a/x.json")%string).
  { clear. induction b as [| c b IH]; intros fuel Hb Hfuel.
    - cbn in Hfuel.
      do 14 (destruct fuel as [| fuel]; [lia |]). reflexivity.
    - cbn [plain] in Hb. apply andb_true_iff in Hb as [_ Hb].
      cbn [String.append String.length] in Hfuel |- *.
      destruct fuel as [| fuel]; [lia |].
      assert (Hhead : Str.strip_prefix "gs://" (String c (b ++ "/a/gs://x.json")) = None).
      { clear IH Hfuel. cbn [Str.strip_prefix].
        destruct (Ascii.eqb "g" c); [| reflexivity].
        destruct b as [| c1 b]; [reflexivity |]. cbn [String.append Str.strip_prefix].
        destruct (Ascii.eqb "s" c1); [| reflexivity].
        destruct b as [| c2 b]; [reflexivity |]. cbn [String.append Str.strip_prefix].
        destruct (Ascii.eqb ":" c2); [| reflexivity].
        destruct b as [| c3 b]; [reflexivity |]. cbn [String.append Str.strip_prefix].
        cbn [plain] in Hb.
        apply andb_true_iff in Hb as [_ Hb]. apply andb_true_iff in Hb as [_ Hb].
        apply andb_true_iff in Hb as [Hb _]. apply andb_true_iff in Hb as [_ Hc3].
        apply negb_true_iff in Hc3. rewrite Ascii.eqb_sym, Hc3. reflexivity. }
      rewrite replace_fuel_step, Hhead. f_equal. apply IH; [exact Hb | lia]. }
  assert (Hrep : Str.replace ("gs://" ++ bucket_name ++ "/" ++ "a/gs://x.json") "gs://" ""
                 = (bucket_name ++ String "/" "a/x.json")%string).
  { unfold Str.replace.
    change (String.length ("gs://" ++ bucket_name ++ "/" ++ "a/gs://x.json"))
      with (S (S (S (S (S (String.length (bucket_name ++ "/a/gs://x.json"))))))).
    rewrite replace_fuel_step, strip_prefix_app. cbn [String.append].
    apply (Hgen bucket_name _ Hplain). lia. }
  rewrite Hrep, (split_once_plain _ _ Hplain). reflexivity.
Qed.

(** ** The input path of the loaders *)

(** The text does not begin in the middle of a character. *)
Definition well_started (s : string) : bool :=
  match s with
  | EmptyString => true
  | String c _ => negb (is_continuation c)
  end.

Lemma take_continuation_app : forall (s h t : string),
  take_continuation s = (h, t) ->
  s = (h ++ t)%string /\ (String.length t <= String.length s)%nat.
Proof.
  induction s as [| c s IH]; intros h t H; cbn [take_continuation] in H.
  - injection H as <- <-. split; [reflexivity | apply Nat.le_refl].
  - destruct (is_continuation c).
    + destruct (take_continuation s) as [h' t'] eqn:Hs. injection H as <- <-.
      destruct (IH h' t' eq_refl) as [-> Hlen].
      split; [reflexivity |]. cbn [String.length]. lia.
    + injection H as <- <-. split; [reflexivity | apply Nat.le_refl].
Qed.

Lemma take_continuation_well_started : forall s : string,
  well_started s = true -> take_continuation s = (EmptyString, s).
Proof.
  intros [| c s] H; [reflexivity |].
  cbn [well_started] in H. apply negb_true_iff in H.
  cbn [take_continuation]. rewrite H. reflexivity.
Qed.

Lemma concat_cons : forall (x : string) (xs : list string),
  String.concat "" (x :: xs) = (x ++ String.concat "" xs)%string.
Proof.
  intros x [| y ys]; cbn [String.concat]; [rewrite string_app_nil_r |]; reflexivity.
Qed.

Lemma py_chars_fuel_concat : forall (fuel : nat) (s : string),
  (String.length s <= fuel)%nat -> String.concat "" (py_chars_fuel fuel s) = s.
Proof.
  induction fuel as [| fuel IH]; intros s Hlen.
  - destruct s; [reflexivity | cbn in Hlen; lia].
  - destruct s as [| c rest]; [reflexivity |].
    cbn [py_chars_fuel]. destruct (take_continuation rest) as [h t] eqn:Hrest.
    destruct (take_continuation_app rest h t Hrest) as [-> Hle].
    rewrite concat_cons, IH; [reflexivity |].
    cbn [String.length] in Hlen. lia.
Qed.

Lemma py_chars_fuel_enough : forall (fuel fuel' : nat) (s : string),
  (String.length s <= fuel)%nat -> (String.length s <= fuel')%nat ->
  py_chars_fuel fuel s = py_chars_fuel fuel' s.
Proof.
  induction fuel as [| fuel IH]; intros fuel' s Hlen Hlen'.
  - destruct s; [destruct fuel'; reflexivity | cbn in Hlen; lia].
  - destruct s as [| c rest]; [destruct fuel'; reflexivity |].
    destruct fuel' as [| fuel']; [cbn in Hlen'; lia |].
    cbn [py_chars_fuel]. destruct (take_continuation rest) as [h t] eqn:Hrest.
    destruct (take_continuation_app rest h t Hrest) as [_ Hle].
    cbn [String.length] in Hlen, Hlen'.
    f_equal. apply IH; lia.
Qed.

Lemma py_chars_head : forall (c : ascii) (rest : string),
  well_started rest = true ->
  py_chars (String c rest) = String c EmptyString :: py_chars rest.
Proof.
  intros c rest H. unfold py_chars. cbn [String.length py_chars_fuel].
  rewrite (take_continuation_well_started rest H). reflexivity.
Qed.

Lemma slice_from_scheme : forall s : string,
  well_started s = true -> Str.slice_from 5 ("gs://" ++ s) = s.
Proof.
  intros s H. unfold Str.slice_from. cbn [String.append].
  rewrite !py_chars_head by (exact H || reflexivity).
  cbn [skipn]. apply py_chars_fuel_concat. apply Nat.le_refl.
Qed.

Lemma plain_well_started : forall (bucket_name rest : string),
  plain bucket_name = true -> well_started (bucket_name ++ String "/" rest) = true.
Proof.
  intros [| c b] rest H; [reflexivity |].
  cbn [plain] in H. apply andb_true_iff in H as [H _]. apply andb_true_iff in H as [H _].
  cbn [String.append well_started]. unfold is_continuation.
  apply N.ltb_lt in H. apply negb_true_iff, andb_false_iff. left.
  apply N.leb_gt. exact H.
Qed.

Lemma plain_well_started_alone : forall bucket_name : string,
  plain bucket_name = true -> well_started bucket_name = true.
Proof.
  intros [| c b] H; [reflexivity |].
  cbn [plain] in H. apply andb_true_iff in H as [H _]. apply andb_true_iff in H as [H _].
  cbn [well_started]. unfold is_continuation.
  apply N.ltb_lt in H. apply negb_true_iff, andb_false_iff. left.
  apply N.leb_gt. exact H.
Qed.

(** X16.  The path handling at the start of the three [clean_*_table].
    A path [gs://bucket/blob], the bucket name being ASCII without a slash,
    gives that bucket and that blob, slashes of the blob name included; a
    path with nothing after the bucket name, and a path that does not start
    with [gs://], raise ValueError before anything is read. *)
Theorem gcs_location_of_path :
  forall (bucket_name blob_name : string),
    plain bucket_name = true ->
    Load.gcs_location ("gs://" ++ bucket_name ++ "/" ++ blob_name)
    = Ok (bucket_name, blob_name) /\
    Load.gcs_location ("gs://" ++ bucket_name) = Raise ValueError /\
    (forall input_file,
       Str.startswith input_file "gs://" = false ->
       Load.gcs_location input_file = Raise ValueError).
Proof.
  intros bucket_name blob_name Hplain. split; [| split].
  - unfold Load.gcs_location. rewrite startswith_app. cbn [negb].
    change (bucket_name ++ "/" ++ blob_name)%string
      with (bucket_name ++ String "/" blob_name)%string.
    rewrite slice_from_scheme by (apply plain_well_started; exact Hplain).
    rewrite (split_once_plain _ _ Hplain). reflexivity.
  - unfold Load.gcs_location. rewrite startswith_app. cbn [negb].
    rewrite slice_from_scheme by (apply plain_well_started_alone; exact Hplain).
    rewrite (split_once_no_slash _ Hplain). reflexivity.
  - intros input_file H. unfold Load.gcs_location. rewrite H. reflexivity.
Qed.

(** ** The loaders: required columns and the cells of a cleaned row *)

Lemma check_columns_present : forall (have want : list string),
  (forall c, In c want -> Pandas.has_column have c = true) ->
  Pandas.check_columns have want = Ok tt.
Proof.
  induction want as [| c want IH]; intros H; [reflexivity |].
  cbn [Pandas.check_columns]. rewrite (H c (or_introl eq_refl)).
  apply IH. intros c' Hc'. apply H. right. exact Hc'.
Qed.

Lemma check_columns_ok_inv : forall (have want : list string),
  Pandas.check_columns have want = Ok tt ->
  forall c, In c want -> Pandas.has_column have c = true.
Proof.
  induction want as [| c0 want IH]; intros H c Hc; [destruct Hc |].
  cbn [Pandas.check_columns] in H.
  destruct (Pandas.has_column have c0) eqn:Hc0; [| discriminate].
  destruct Hc as [<- | Hc]; [exact Hc0 | apply IH; assumption].
Qed.

Lemma check_columns_missing : forall (have want : list string) (c : string),
  In c want -> Pandas.has_column have c = false ->
  exists c', In c' want /\ Pandas.has_column have c' = false /\
             Pandas.check_columns have want = Raise (KeyError c').
Proof.
  induction want as [| c0 want IH]; intros c Hc Hmiss; [destruct Hc |].
  cbn [Pandas.check_columns].
  destruct (Pandas.has_column have c0) eqn:Hc0.
  - destruct Hc as [-> | Hc]; [congruence |].
    destruct (IH c Hc Hmiss) as (c' & Hin & Hc' & Hraise).
    exists c'. repeat split; [right; exact Hin | exact Hc' | exact Hraise].
  - exists c0. repeat split; [left; reflexivity | exact Hc0].
Qed.

Lemma select_ok_inv : forall (df t : DataFrame) (cols : list string),
  Pandas.select df cols = Ok t -> Pandas.check_columns (columns df) cols = Ok tt.
Proof.
  intros df t cols H. unfold Pandas.select in H.
  destruct (Pandas.check_columns (columns df) cols) as [[] | e]; [reflexivity | discriminate].
Qed.

Lemma select_missing : forall (df : DataFrame) (cols : list string) (c : string),
  Pandas.check_columns (columns df) cols = Raise (KeyError c) ->
  Pandas.select df cols = Raise (KeyError c).
Proof.
  intros df cols c H. unfold Pandas.select. rewrite H. reflexivity.
Qed.

(** A column of the cleaned row against the column of the row read that has
    its position: the numeric reading of the cell, as [reads_as] spells it
    out, for a column the loader coerces, the cell itself for any other. *)
Definition carried (L : PyLib) (numeric : list string) (raw r : dict)
    (pair : string * string) : Prop :=
  if Pandas.has_column numeric (snd pair)
  then reads_as L (cell raw (fst pair)) (cell r (snd pair))
  else cell r (snd pair) = cell raw (fst pair).

Ltac carried_cell :=
  unfold carried; cbn [fst snd];
  match goal with
  | |- context [Pandas.has_column ?n ?c] =>
      let b := eval vm_compute in (Pandas.has_column n c) in
      change (Pandas.has_column n c) with b
  end;
  cbv iota; unfold cell;
  repeat first [ rewrite dict_get_default_set_same
               | rewrite dict_get_default_set_other by discriminate ];
  first [ reflexivity | eassumption ].

Lemma clean_products_table_cells : forall (L : PyLib) (df : DataFrame),
  Pandas.check_columns (columns df) products_required = Ok tt ->
  exists prepared : list dict,
    Load.clean_products_table L df =
    Ok {| columns := products_target;
          records := filter (fun r => Pandas.cell_gt (price_of r) 50) prepared |} /\
    Forall2 (fun raw r => Forall (carried L ["price"] raw r)
                                 (combine products_required products_target))
            (records df) prepared.
Proof.
  intros L df Hcols.
  unfold Load.clean_products_table.
  change (["sgk_product_id"] ++
          ["product_id"; "product_title"; "product_category"; "product_brand"; "product_price"] ++
          Load.audit_columns) with products_required.
  rewrite (select_present df products_required Hcols). cbn [bind].
  change (["sgk_product_id"; "product_id"; "name"; "category"; "brand"; "price"] ++
          Load.audit_columns) with products_target.
  destruct (to_numeric_column_rows L
              (Pandas.rename_columns
                 {| columns := products_required;
                    records := map (Pandas.reindex products_required) (records df) |}
                 products_target) "price" eq_refl) as (prepared & -> & Hrows).
  cbn [bind Pandas.rename_columns columns records] in Hrows |- *.
  unfold Pandas.filter_gt, Pandas.getitem. cbn [columns records].
  change (Pandas.has_column products_target "price") with true. cbn [bind].
  exists prepared. split; [reflexivity |].
  rewrite map_map in Hrows.
  apply (numeric_rows L "price" _ _ _ _ Hrows).
  intros raw v Hv.
  change (reads_as L (dict_get_default raw "product_price" NaN) v) in Hv.
  repeat (apply Forall_cons; [carried_cell |]). apply Forall_nil.
Qed.

Lemma clean_users_table_cells : forall (L : PyLib) (df : DataFrame),
  Pandas.check_columns (columns df) users_required = Ok tt ->
  exists prepared : list dict,
    Load.clean_users_table L df =
    Ok {| columns := users_target;
          records := filter (no_null ["user_id"; "first_name"; "last_name"]) prepared |} /\
    Forall2 (fun raw r => Forall (carried L ["age"] raw r)
                                 (combine users_required users_target))
            (records df) prepared.
Proof.
  intros L df Hcols.
  unfold Load.clean_users_table.
  change (["sgk_user_id"] ++
          ["user_id"; "user_firstName"; "user_lastName"; "user_gender"; "user_age";
           "user_address_address"; "user_address_city"; "user_address_postalCode"] ++
          Load.audit_columns) with users_required.
  rewrite (select_present df users_required Hcols). cbn [bind].
  change (["sgk_user_id"; "user_id"; "first_name"; "last_name"; "gender"; "age"; "street";
           "city"; "postal_code"] ++ Load.audit_columns) with users_target.
  destruct (to_numeric_column_rows L
              (Pandas.rename_columns
                 {| columns := users_required;
                    records := map (Pandas.reindex users_required) (records df) |}
                 users_target) "age" eq_refl) as (prepared & -> & Hrows).
  cbn [bind Pandas.rename_columns columns records] in Hrows |- *.
  unfold Pandas.dropna. cbn [columns records].
  change (Pandas.check_columns users_target ["user_id"; "first_name"; "last_name"]) with (Ok tt).
  cbn [bind].
  exists prepared. split; [reflexivity |].
  rewrite map_map in Hrows.
  apply (numeric_rows L "age" _ _ _ _ Hrows).
  intros raw v Hv.
  change (reads_as L (dict_get_default raw "user_age" NaN) v) in Hv.
  repeat (apply Forall_cons; [carried_cell |]). apply Forall_nil.
Qed.

Lemma clean_carts_table_cells : forall (L : PyLib) (df : DataFrame),
  Pandas.check_columns (columns df) carts_required = Ok tt ->
  exists prepared : list dict,
    Load.clean_carts_table L df =
    Ok {| columns := carts_target;
          records := filter (no_null ["cart_id"; "user_id"; "product_id"]) prepared |} /\
    Forall2 (fun raw r => Forall (carried L ["quantity"; "price"] raw r)
                                 (combine carts_required carts_target))
            (records df) prepared.
Proof.
  intros L df Hcols.
  unfold Load.clean_carts_table.
  change (["sgk_cart_id"] ++
          ["cart_id"; "user_id"; "product_id"; "product_quantity"; "product_price";
           "total_cart_value"] ++ Load.audit_columns) with carts_required.
  rewrite (select_present df carts_required Hcols). cbn [bind].
  change (["sgk_cart_id"; "cart_id"; "user_id"; "product_id"; "quantity"; "price";
           "total_cart_value"] ++ Load.audit_columns) with carts_target.
  destruct (to_numeric_column_rows L
              (Pandas.rename_columns
                 {| columns := carts_required;
                    records := map (Pandas.reindex carts_required) (records df) |}
                 carts_target) "quantity" eq_refl) as (rows1 & -> & Hrows1).
  cbn [bind Pandas.rename_columns columns records] in Hrows1 |- *.
  destruct (to_numeric_column_rows L {| columns := carts_target; records := rows1 |}
              "price" eq_refl) as (prepared & -> & Hrows2).
  cbn [bind columns records] in Hrows2 |- *.
  unfold Pandas.dropna. cbn [columns records].
  change (Pandas.check_columns carts_target ["cart_id"; "user_id"; "product_id"]) with (Ok tt).
  cbn [bind].
  exists prepared. split; [reflexivity |].
  rewrite map_map in Hrows1.
  pose (g := fun raw : dict =>
               combine carts_target (map snd (Pandas.reindex carts_required raw))).
  apply (Forall2_trans_step
           (fun raw r1 => exists v1,
              reads_as L (dict_get_default raw "product_quantity" NaN) v1 /\
              r1 = dict_set (g raw) "quantity" v1)
           (numeric_step L "price") _ (records df) rows1 prepared).
  - intros raw r1 r (v1 & Hv1 & ->) (v2 & Hv2 & ->).
    rewrite dict_get_default_set_other in Hv2 by discriminate.
    change (reads_as L (dict_get_default raw "product_price" NaN) v2) in Hv2.
    unfold g.
    repeat (apply Forall_cons; [carried_cell |]). apply Forall_nil.
  - apply (numeric_rows L "quantity" g _ _ _ Hrows1).
    intros raw v Hv. exists v. split; [exact Hv | reflexivity].
  - exact Hrows2.
Qed.

Lemma Forall2_filter_sources : forall {A B : Type} (R : A -> B -> Prop) (p : B -> bool)
                                      (l : list A) (l' : list B),
  Forall2 R l l' ->
  Forall (fun r => exists raw, In raw l /\ R raw r) (filter p l').
Proof.
  intros A B R p l l' H. induction H as [| x y l l' Hxy _ IH]; [constructor |].
  assert (Hrest : Forall (fun r => exists raw, In raw (x :: l) /\ R raw r) (filter p l')).
  { eapply Forall_impl; [| exact IH].
    intros r (raw & Hin & Hr). exists raw. split; [right; exact Hin | exact Hr]. }
  cbn [filter]. destruct (p y); [| exact Hrest].
  constructor; [| exact Hrest]. exists x. split; [left; reflexivity | exact Hxy].
Qed.

(** X17.  What the three loaders hand to the warehouse.  A frame one of them
    returns has the columns of the target schema, in its order, whatever
    other columns the file had; every row of it comes from a row of the
    file, and each target column holds the cell of the required column at
    the same position (name from product_title, street from
    user_address_address, quantity from product_quantity, ...): unchanged,
    except for the coerced columns (price; age; quantity and price), which
    hold the numeric reading of the cell: the number itself for a number,
    the number written in it for a text, NaN for a text that is no
    number. *)
Theorem clean_tables_carry_cells :
  forall (L : PyLib) (df out : DataFrame),
    (Load.clean_products_table L df = Ok out ->
     columns out = products_target /\
     Forall (fun r => exists raw, In raw (records df) /\
                        Forall (carried L ["price"] raw r)
                               (combine products_required products_target))
            (records out)) /\
    (Load.clean_users_table L df = Ok out ->
     columns out = users_target /\
     Forall (fun r => exists raw, In raw (records df) /\
                        Forall (carried L ["age"] raw r)
                               (combine users_required users_target))
            (records out)) /\
    (Load.clean_carts_table L df = Ok out ->
     columns out = carts_target /\
     Forall (fun r => exists raw, In raw (records df) /\
                        Forall (carried L ["quantity"; "price"] raw r)
                               (combine carts_required carts_target))
            (records out)).
Proof.
  intros L df out. split; [| split]; intros H.
  - assert (Hcols : Pandas.check_columns (columns df) products_required = Ok tt).
    { unfold Load.clean_products_table in H. apply bind_ok in H as (t & Hsel & _).
      exact (select_ok_inv _ _ _ Hsel). }
    destruct (clean_products_table_cells L df Hcols) as (prepared & Hrun & Hrows).
    rewrite Hrun in H. injection H as <-. cbn [columns records].
    split; [reflexivity | apply Forall2_filter_sources; exact Hrows].
  - assert (Hcols : Pandas.check_columns (columns df) users_required = Ok tt).
    { unfold Load.clean_users_table in H. apply bind_ok in H as (t & Hsel & _).
      exact (select_ok_inv _ _ _ Hsel). }
    destruct (clean_users_table_cells L df Hcols) as (prepared & Hrun & Hrows).
    rewrite Hrun in H. injection H as <-. cbn [columns records].
    split; [reflexivity | apply Forall2_filter_sources; exact Hrows].
  - assert (Hcols : Pandas.check_columns (columns df) carts_required = Ok tt).
    { unfold Load.clean_carts_table in H. apply bind_ok in H as (t & Hsel & _).
      exact (select_ok_inv _ _ _ Hsel). }
    destruct (clean_carts_table_cells L df Hcols) as (prepared & Hrun & Hrows).
    rewrite Hrun in H. injection H as <-. cbn [columns records].
    split; [reflexivity | apply Forall2_filter_sources; exact Hrows].
Qed.

(** X18.  A file that lacks a required column is refused: each loader then
    raises KeyError on a required column the frame does not have, and
    returns no frame, whatever the rows hold.  With all the required columns
    there each loader returns a frame. *)
Theorem clean_tables_need_columns :
  forall (L : PyLib) (df : DataFrame) (c : string),
    Pandas.has_column (columns df) c = false ->
    (In c products_required ->
     exists c', In c' products_required /\ Pandas.has_column (columns df) c' = false /\
                Load.clean_products_table L df = Raise (KeyError c')) /\
    (In c users_required ->
     exists c', In c' users_required /\ Pandas.has_column (columns df) c' = false /\
                Load.clean_users_table L df = Raise (KeyError c')) /\
    (In c carts_required ->
     exists c', In c' carts_required /\ Pandas.has_column (columns df) c' = false /\
                Load.clean_carts_table L df = Raise (KeyError c')).
Proof.
  intros L df c Hmiss. split; [| split]; intros Hc.
  - destruct (check_columns_missing (columns df) _ c Hc Hmiss) as (c' & Hin & Hc' & Hraise).
    exists c'. repeat split; [exact Hin | exact Hc' |].
    unfold Load.clean_products_table.
    change (["sgk_product_id"] ++
            ["product_id"; "product_title"; "product_category"; "product_brand";
             "product_price"] ++ Load.audit_columns) with products_required.
    rewrite (select_missing _ _ _ Hraise). reflexivity.
  - destruct (check_columns_missing (columns df) _ c Hc Hmiss) as (c' & Hin & Hc' & Hraise).
    exists c'. repeat split; [exact Hin | exact Hc' |].
    unfold Load.clean_users_table.
    change (["sgk_user_id"] ++
            ["user_id"; "user_firstName"; "user_lastName"; "user_gender"; "user_age";
             "user_address_address"; "user_address_city"; "user_address_postalCode"] ++
            Load.audit_columns) with users_required.
    rewrite (select_missing _ _ _ Hraise). reflexivity.
  - destruct (check_columns_missing (columns df) _ c Hc Hmiss) as (c' & Hin & Hc' & Hraise).
    exists c'. repeat split; [exact Hin | exact Hc' |].
    unfold Load.clean_carts_table.
    change (["sgk_cart_id"] ++
            ["cart_id"; "user_id"; "product_id"; "product_quantity"; "product_price";
             "total_cart_value"] ++ Load.audit_columns) with carts_required.
    rewrite (select_missing _ _ _ Hraise). reflexivity.
Qed.

(** ** From the raw file to the rows of the conversion *)

(** The bucket [bucket_name] of the object store, its blobs being [b]. *)
Definition store_of (bucket_name : string) (b : Extract.bucket) : Gcs.store :=
  fun bucket blob => if String.eqb bucket bucket_name then get_blob b blob else None.

(** ASCII text without a line boundary. *)
Fixpoint ascii_line (s : string) : bool :=
  match s with
  | EmptyString => true
  | String c rest =>
      (N_of_ascii c <? 128)%N && negb (Str.is_break c) && ascii_line rest
  end.

(** A line of the raw file: not empty, ASCII, no line boundary in it. *)
Definition raw_line (s : string) : bool :=
  negb (String.eqb s EmptyString) && ascii_line s.

Lemma str_splitlines_step : forall (c : ascii) (rest : string),
  Str.splitlines (String c rest) =
  let keep :=
    match Str.splitlines rest with
    | [] => [String c EmptyString]
    | line :: lines => String c line :: lines
    end in
  if Str.is_break c then
    match rest with
    | String c2 rest2 =>
        if Ascii.eqb c (Str.byte 13) && Ascii.eqb c2 (Str.byte 10)
        then EmptyString :: Str.splitlines rest2
        else EmptyString :: Str.splitlines rest
    | EmptyString => [EmptyString]
    end
  else
    match rest with
    | String c2 rest2 =>
        if Ascii.eqb c (Str.byte 194) && Ascii.eqb c2 (Str.byte 133)
        then EmptyString :: Str.splitlines rest2
        else
          match rest2 with
          | String c3 rest3 =>
              if Ascii.eqb c (Str.byte 226) && Ascii.eqb c2 (Str.byte 128) &&
                 (Ascii.eqb c3 (Str.byte 168) || Ascii.eqb c3 (Str.byte 169))
              then EmptyString :: Str.splitlines rest3
              else keep
          | EmptyString => keep
          end
    | EmptyString => keep
    end.
Proof. intros c rest. destruct rest; reflexivity. Qed.

Lemma ascii_not_lead : forall c : ascii,
  (N_of_ascii c <? 128)%N = true ->
  Ascii.eqb c (Str.byte 194) = false /\ Ascii.eqb c (Str.byte 226) = false.
Proof.
  intros c H. split.
  - destruct (Ascii.eqb_spec c (Str.byte 194)) as [-> |]; [discriminate | reflexivity].
  - destruct (Ascii.eqb_spec c (Str.byte 226)) as [-> |]; [discriminate | reflexivity].
Qed.

Lemma str_splitlines_keep : forall (c : ascii) (rest : string),
  (N_of_ascii c <? 128)%N = true -> Str.is_break c = false ->
  Str.splitlines (String c rest) =
  match Str.splitlines rest with
  | [] => [String c EmptyString]
  | line :: lines => String c line :: lines
  end.
Proof.
  intros c rest Hc Hb. rewrite str_splitlines_step. cbv zeta. rewrite Hb.
  destruct (ascii_not_lead c Hc) as [H194 H226]. rewrite H194, H226. cbn [andb].
  destruct rest as [| c2 [| c3 rest3]]; reflexivity.
Qed.

Lemma str_splitlines_line_then : forall (p s : string),
  ascii_line p = true ->
  Str.splitlines (p ++ String line_feed s)%string = p :: Str.splitlines s.
Proof.
  induction p as [| c p IH]; intros s H.
  - cbn [String.append]. rewrite str_splitlines_step. destruct s; reflexivity.
  - cbn [ascii_line] in H. apply andb_true_iff in H as [H Hp].
    apply andb_true_iff in H as [Hc Hb]. apply negb_true_iff in Hb.
    cbn [String.append]. rewrite (str_splitlines_keep _ _ Hc Hb), (IH s Hp). reflexivity.
Qed.

Lemma str_splitlines_single : forall p : string,
  raw_line p = true -> Str.splitlines p = [p].
Proof.
  unfold raw_line. induction p as [| c p IH]; intros H; [discriminate |].
  apply andb_true_iff in H as [_ H]. cbn [ascii_line] in H.
  apply andb_true_iff in H as [H Hp].
  apply andb_true_iff in H as [Hc Hb]. apply negb_true_iff in Hb.
  rewrite (str_splitlines_keep _ _ Hc Hb).
  destruct p as [| c' p']; [reflexivity |].
  rewrite IH by exact Hp. reflexivity.
Qed.

Lemma str_splitlines_join : forall parts : list string,
  Forall (fun p => raw_line p = true) parts ->
  Str.splitlines (Extract.join Extract.newline parts) = parts.
Proof.
  induction parts as [| p parts IH]; intros H; [reflexivity |].
  inversion H as [| ? ? Hp Hparts]; subst.
  destruct parts as [| q parts].
  - apply str_splitlines_single. exact Hp.
  - change (Extract.join Extract.newline (p :: q :: parts))
      with (p ++ String line_feed (Extract.join Extract.newline (q :: parts)))%string.
    unfold raw_line in Hp. apply andb_true_iff in Hp as [_ Hp].
    rewrite (str_splitlines_line_then _ _ Hp), (IH Hparts). reflexivity.
Qed.

(** The row of one line of the raw file, for users and products. *)
Lemma envelope_row :
  forall (L : PyLib) (data_type extraction_timestamp line : string) (d : dict),
    In data_type ["products"; "users"] ->
    json_loads L (str_strip L line) = Ok (Extract.envelope extraction_timestamp (VDict d)) ->
    exists row,
      Transform.process_line L data_type line = Ok [row] /\
      dict_get row "metadata_extraction_timestamp" = Some (VStr extraction_timestamp).
Proof.
  intros L data_type extraction_timestamp line d Hdt Hloads.
  rewrite process_line_classified. unfold classify. rewrite Hloads.
  unfold Extract.envelope.
  change (dict_get_default
            [("metadata", VDict [("extraction_timestamp", VStr extraction_timestamp)]);
             ("data", VDict d)] "data" VNone) with (VDict d).
  cbv iota. unfold rows_of, Flatten.flatten_json.
  destruct Hdt as [<- | [<- | []]].
  - change (String.eqb "products" "carts") with false.
    change (String.eqb "products" "users") with false.
    change (String.eqb "products" "products") with true. cbv iota.
    unfold Flatten.flatten_product_json.
    rewrite (flatten_prefixed_fold "product_"
               [("metadata", VDict [("extraction_timestamp", VStr extraction_timestamp)]);
                ("data", VDict d)] d eq_refl).
    eexists. split; [reflexivity | apply dict_get_set_same].
  - change (String.eqb "users" "carts") with false.
    change (String.eqb "users" "users") with true. cbv iota.
    unfold Flatten.flatten_user_json.
    rewrite (flatten_prefixed_fold "user_"
               [("metadata", VDict [("extraction_timestamp", VStr extraction_timestamp)]);
                ("data", VDict d)] d eq_refl).
    eexists. split; [reflexivity | apply dict_get_set_same].
Qed.

Lemma raw_lines_rows :
  forall (L : PyLib) (data_type extraction_timestamp : string) (data : list value),
    In data_type ["products"; "users"] ->
    Forall (fun item =>
              exists d, item = VDict d /\
                json_loads L (str_strip L (json_dumps L (Extract.envelope extraction_timestamp item)))
                = Ok (Extract.envelope extraction_timestamp item)) data ->
    exists rows,
      Transform.read_loop L data_type (Extract.ndjson_content L extraction_timestamp data) []
      = Ok rows /\
      List.length rows = List.length data /\
      Forall (fun row => dict_get row "metadata_extraction_timestamp"
                         = Some (VStr extraction_timestamp)) rows.
Proof.
  intros L data_type extraction_timestamp data Hdt H.
  induction H as [| item data (d & -> & Hloads) _ (rows & Hrows & Hlen & Hall)].
  - exists []. repeat split. constructor.
  - destruct (envelope_row L data_type extraction_timestamp _ d Hdt Hloads)
      as (row & Hline & Hrow).
    exists ([row] ++ rows). split; [| split].
    + unfold Extract.ndjson_content. cbn [map].
      apply read_loop_cons; [exact Hline | exact Hrows].
    + cbn [app List.length]. rewrite Hlen. reflexivity.
    + constructor; assumption.
Qed.

(** X14.  What the extraction wrote, the conversion reads.  Take a bucket
    name of ASCII characters without a slash and a file name such that
    [gs://] occurs nowhere in bucket name, slash, file name; let every item
    be an object whose envelope is written by [json.dumps] as one non-empty
    line of ASCII and read back by [json.loads] as itself.  Then after a
    successful [save_to_gcs] the lines [read_from_gcs] returns for that file
    are the texts of the envelopes, one for each item and in order, and the
    reading loop of a products or users run turns them into one row for
    each item, every row holding in [metadata_extraction_timestamp] the one
    time stamp of the extraction. *)
Theorem raw_file_hand_over :
  forall (L : PyLib) (extraction_timestamp bucket_name filename data_type : string)
         (b : Extract.bucket) (data : list value),
    plain bucket_name = true ->
    occurs "gs://" (bucket_name ++ "/" ++ filename) = false ->
    In data_type ["products"; "users"] ->
    Forall (fun item =>
              exists d, item = VDict d /\
                json_loads L (str_strip L (json_dumps L (Extract.envelope extraction_timestamp item)))
                = Ok (Extract.envelope extraction_timestamp item)) data ->
    Forall (fun item =>
              raw_line (json_dumps L (Extract.envelope extraction_timestamp item)) = true) data ->
    exists rows,
      Transform.read_from_gcs
        (store_of bucket_name
           (snd (Extract.save_to_gcs L extraction_timestamp true b data filename)))
        (Transform.full_gcs_path bucket_name filename)
      = Transform.Lines (Extract.ndjson_content L extraction_timestamp data) /\
      Transform.read_loop L data_type (Extract.ndjson_content L extraction_timestamp data) []
      = Ok rows /\
      List.length rows = List.length data /\
      Forall (fun row => dict_get row "metadata_extraction_timestamp"
                         = Some (VStr extraction_timestamp)) rows.
Proof.
  intros L extraction_timestamp bucket_name filename data_type b data
         Hplain Hocc Hdt Hloads Hlines.
  destruct (raw_lines_rows L data_type extraction_timestamp data Hdt Hloads)
    as (rows & Hrows & Hlen & Hall).
  exists rows. split; [| repeat split; assumption].
  rewrite (read_from_gcs_resolves _ _ _ Hplain Hocc).
  unfold store_of, Extract.save_to_gcs. cbn [snd].
  rewrite String.eqb_refl, get_blob_put, str_splitlines_join; [reflexivity |].
  unfold Extract.ndjson_content. apply Forall_map. exact Hlines.
Qed.

(** ** The further properties at concrete inputs *)




Definition example_product : dict :=
  [ ("metadata", VDict [("extraction_timestamp", VStr "2024-01-01T00:00:00")]);
    ("data", VDict [ ("id", VInt 7); ("title", VStr "Widget"); ("price", VInt 60);
                     ("brand", VNone);
                     ("dimensions", VDict [("width", VInt 2); ("height", VInt 3)]);
                     ("tags", VList [VStr "a"; VStr "b"]) ]) ].

Lemma flatten_product_json_columns_witness :
  exists row,
    Flatten.flatten_product_json example_product = Ok [row] /\
    dict_get row "product_title" = Some (VStr "Widget") /\
    dict_get row "product_dimensions_width" = Some (VInt 2) /\
    dict_get row "product_tags_count" = Some (VInt 2) /\
    dict_keys row = [ "product_id"; "product_title"; "product_price";
                      "product_dimensions_width"; "product_dimensions_height";
                      "product_tags_count" ].
Proof.
  destruct (flatten_product_json_columns example_product _ eq_refl) as (row & Hrow & Hcols).
  assert (Hnodup : NoDup (written_columns "product_"
            [ ("id", VInt 7); ("title", VStr "Widget"); ("price", VInt 60);
              ("brand", VNone);
              ("dimensions", VDict [("width", VInt 2); ("height", VInt 3)]);
              ("tags", VList [VStr "a"; VStr "b"]) ])).
  { vm_compute. repeat constructor; simpl; intuition discriminate. }
  destruct (Hcols Hnodup) as (Hscalar & Hnested & Hlist & Hkeys).
  exists row. split; [exact Hrow |]. split; [| split; [| split]].
  - apply (Hscalar "title"); [simpl; tauto | reflexivity].
  - apply (Hnested "dimensions" [("width", VInt 2); ("height", VInt 3)] "width");
      simpl; tauto.
  - apply (Hlist "tags" [VStr "a"; VStr "b"]). simpl; tauto.
  - exact Hkeys.
Defined.

Definition example_user_entry : dict :=
  Eval vm_compute in
    match Flatten.flatten_json example_user "users" with
    | Ok [entry] => entry
    | _ => []
    end.

Definition example_user_row : dict :=
  Eval vm_compute in
    match Transform.add_metadata example_user example_user_entry with
    | Ok entry => entry
    | Raise _ => []
    end.

Lemma flatten_prefixed_column_names_witness :
  Flatten.flatten_user_json example_user = Ok [example_user_entry] /\
  forall k, In k (dict_keys example_user_entry) -> Str.startswith k "user_" = true.
Proof.
  assert (H : Flatten.flatten_user_json example_user = Ok [example_user_entry])
    by (vm_compute; reflexivity).
  split; [exact H |].
  destruct (flatten_prefixed_column_names example_user) as (Huser & _).
  intros k Hk. apply (Huser _ _ k H (or_introl eq_refl) Hk).
Defined.

Lemma flatten_cart_json_product_list_witness :
  Flatten.flatten_cart_json [("data", VDict [("id", VInt 1)])] = Ok [] /\
  Flatten.flatten_cart_json [("data", VDict [("id", VInt 1); ("products", VNone)])]
  = Raise TypeError /\
  Flatten.flatten_cart_json
    [("data", VDict [("id", VInt 1); ("products", VList [VDict []; VInt 5])])]
  = Raise AttributeError.
Proof.
  split; [| split].
  - destruct (flatten_cart_json_product_list [("data", VDict [("id", VInt 1)])]) as (H & _).
    destruct (H _ eq_refl) as (Hnone & _). apply Hnone. reflexivity.
  - destruct (flatten_cart_json_product_list
                [("data", VDict [("id", VInt 1); ("products", VNone)])]) as (H & _).
    destruct (H _ eq_refl) as (_ & Hnull & _). apply Hnull. reflexivity.
  - destruct (flatten_cart_json_product_list
                [("data", VDict [("id", VInt 1); ("products", VList [VDict []; VInt 5])])])
      as (H & _).
    destruct (H _ eq_refl) as (_ & _ & Hitem).
    apply (Hitem [VDict []; VInt 5] (VInt 5)); [reflexivity | simpl; tauto | reflexivity].
Defined.

(** A cart without a user, its one line item without a title. *)
Definition sparse_cart : dict :=
  [ ("data", VDict [("id", VInt 1); ("products", VList [VDict [("id", VInt 5)]])]) ].

Definition sparse_cart_row : dict :=
  [ ("cart_id", VInt 1); ("user_id", VNone); ("total_cart_value", VNone);
    ("discounted_total_cart_value", VNone); ("total_products", VNone);
    ("total_quantity", VNone); ("product_id", VInt 5); ("product_title", VNone);
    ("product_price", VNone); ("product_quantity", VNone); ("product_total", VNone);
    ("product_discount_percentage", VNone); ("product_discounted_total", VNone);
    ("product_thumbnail", VNone) ].

Lemma flatten_cart_json_columns_witness :
  Flatten.flatten_cart_json sparse_cart = Ok [sparse_cart_row] /\
  dict_keys sparse_cart_row = cart_level_fields ++ item_level_fields /\
  dict_get sparse_cart_row "cart_id" = Some (VInt 1) /\
  dict_get sparse_cart_row "user_id" = Some VNone /\
  dict_get sparse_cart_row "product_id" = Some (VInt 5) /\
  dict_get sparse_cart_row "product_title" = Some VNone.
Proof.
  assert (H : Flatten.flatten_cart_json sparse_cart = Ok [sparse_cart_row])
    by (vm_compute; reflexivity).
  split; [exact H |].
  destruct (flatten_cart_json_columns sparse_cart [sparse_cart_row] sparse_cart_row H
              (or_introl eq_refl))
    as (Hkeys & _ & _ & cart_data & line_items & item & Hdata & Hiter & Hitem & Hcart & Hline).
  cbn in Hdata. injection Hdata as <-.
  cbn in Hiter. injection Hiter as <-.
  destruct Hitem as [E | []]. injection E as <-.
  split; [exact Hkeys |].
  split; [exact (Hcart "cart_id" "id" (or_introl eq_refl)) |].
  split; [exact (Hcart "user_id" "userId" (or_intror (or_introl eq_refl))) |].
  split; [exact (Hline "product_id" "id" (or_introl eq_refl)) |].
  exact (Hline "product_title" "title" (or_intror (or_introl eq_refl))).
Defined.

Lemma add_metadata_keeps_columns_witness :
  Flatten.flatten_json example_user "users" = Ok [example_user_entry] /\
  Transform.add_metadata example_user example_user_entry = Ok example_user_row /\
  dict_get example_user_row "user_firstName" = Some (VStr "Emily") /\
  dict_get example_user_row "metadata_extraction_timestamp"
  = Some (VStr "2024-01-01T00:00:00").
Proof.
  assert (H1 : Flatten.flatten_json example_user "users" = Ok [example_user_entry])
    by (vm_compute; reflexivity).
  assert (H2 : Transform.add_metadata example_user example_user_entry = Ok example_user_row)
    by (vm_compute; reflexivity).
  destruct (add_metadata_keeps_columns "users" example_user _ _ _
              (or_intror (or_introl eq_refl)) H1 (or_introl eq_refl) H2)
    as (Hkeep & Hmeta & _).
  split; [exact H1 |]. split; [exact H2 |]. split.
  - apply Hkeep. vm_compute. reflexivity.
  - apply (Hmeta [("extraction_timestamp", VStr "2024-01-01T00:00:00")] "extraction_timestamp").
    + reflexivity.
    + constructor; [intros [] | constructor].
    + left. reflexivity.
Defined.

Lemma add_audit_columns_stamps_witness :
  exists out,
    Transform.add_audit_columns reference_lib "2024-01-01T00:00:00" twin_products "products"
    = Ok out /\
    Forall2 (stamped "2024-01-01T00:00:00") (records twin_products) (records out) /\
    List.length (records out) = 2%nat.
Proof.
  destruct (Transform.add_audit_columns reference_lib "2024-01-01T00:00:00" twin_products
              "products") as [out | e] eqn:H; [| vm_compute in H; discriminate].
  destruct (add_audit_columns_stamps reference_lib _ _ _ _ H) as (Hrows & Hlen).
  exists out. split; [reflexivity |]. split; [exact Hrows | exact Hlen].
Defined.

(** Two line items of one user: product 135 in cart 7, product 13 in
    cart 57. *)
Definition shifted_digit_carts : DataFrame :=
  {| columns := ["user_id"; "product_id"; "cart_id"];
     records := [ [("user_id", VInt 33); ("product_id", VInt 135); ("cart_id", VInt 7)];
                  [("user_id", VInt 33); ("product_id", VInt 13); ("cart_id", VInt 57)] ] |}.

Lemma cart_surrogate_key_collision_witness :
  exists out r1 r2 key,
    Transform.add_audit_columns reference_lib "2024-01-01T00:00:00" shifted_digit_carts "carts"
    = Ok out /\
    nth_error (records out) 0 = Some r1 /\
    nth_error (records out) 1 = Some r2 /\
    dict_get r1 "sgk_cart_id" = Some key /\
    dict_get r2 "sgk_cart_id" = Some key.
Proof.
  destruct (Transform.add_audit_columns reference_lib "2024-01-01T00:00:00" shifted_digit_carts
              "carts") as [out | e] eqn:H; [| vm_compute in H; discriminate].
  destruct (cart_surrogate_key_collision reference_lib _ _ _ _ out out 0%nat 1%nat _ _
              (VInt 33) 13 5 7 ltac:(lia) ltac:(lia) ltac:(lia) H H
              eq_refl eq_refl eq_refl eq_refl eq_refl eq_refl eq_refl eq_refl)
    as (r1 & r2 & key & H1 & H2 & Hk1 & Hk2).
  exists out, r1, r2, key. repeat split; assumption.
Defined.

Definition widget_row : dict :=
  Eval vm_compute in
    match Transform.read_loop reference_lib "products" [widget_line] [] with
    | Ok [row] => row
    | _ => []
    end.

Definition surrogate_id_row : dict :=
  Eval vm_compute in
    match Transform.read_loop reference_lib "users" [surrogate_id_line] [] with
    | Ok [row] => row
    | _ => []
    end.

Lemma convert_json_to_csv_needs_id_column_witness :
  (Transform.read_loop reference_lib "products" [widget_line] [] = Ok [widget_row] /\
   dict_get widget_row "product_id" = Some (VInt 7) /\
   exists df,
     Transform.convert_json_to_csv reference_lib [widget_line] "2024-01-02T03:04:05" "products"
     = Ok df /\
     List.length (records df) = 1%nat) /\
  (Transform.read_loop reference_lib "users" [surrogate_id_line] [] = Ok [surrogate_id_row] /\
   dict_get surrogate_id_row "user_id" = Some surrogate_id /\
   exists e,
     Transform.convert_json_to_csv reference_lib [surrogate_id_line] "2024-01-02T03:04:05" "users"
     = Raise e).
Proof.
  split.
  - assert (Hread : Transform.read_loop reference_lib "products" [widget_line] []
                    = Ok [widget_row]) by (vm_compute; reflexivity).
    split; [exact Hread |]. split; [reflexivity |].
    destruct (convert_json_to_csv_needs_id_column reference_lib [widget_line]
                "2024-01-02T03:04:05" "products" [widget_row] (or_introl eq_refl) Hread)
      as (Hok & _).
    apply Hok.
    + exists widget_row. split; [left; reflexivity | discriminate].
    + repeat constructor. eexists. vm_compute. reflexivity.
  - assert (Hread : Transform.read_loop reference_lib "users" [surrogate_id_line] []
                    = Ok [surrogate_id_row]) by (vm_compute; reflexivity).
    split; [exact Hread |]. split; [reflexivity |].
    destruct (convert_json_to_csv_needs_id_column reference_lib [surrogate_id_line]
                "2024-01-02T03:04:05" "users" [surrogate_id_row]
                (or_intror (or_introl eq_refl)) Hread) as (_ & _ & Hraise).
    apply (Hraise surrogate_id_row UnicodeEncodeError).
    + vm_compute. left. reflexivity.
    + vm_compute. reflexivity.
Defined.

Lemma fetch_paginated_data_terminates_witness :
  exists r,
    Extract.fetch_paginated_data 6 five_products_server "https://dummyjson.com/products" 2
    = Some r.
Proof.
  apply (fetch_paginated_data_terminates five_products_server
           "https://dummyjson.com/products" 2 5).
  intros n url d H. unfold five_products_server, page in H. injection H as <-.
  exists 5. split; [reflexivity | lia].
Defined.

(** An endpoint whose pages report no total. *)
Definition no_total_server : Extract.server :=
  fun _ _ => Extract.Body (VDict [("products", VList [VDict [("id", VInt 1)]])]).

Lemma fetch_paginated_data_without_total_witness :
  Extract.fetch_paginated_data 1 no_total_server "https://dummyjson.com/products" 30
  = Some (Ok [VDict [("id", VInt 1)]]).
Proof.
  apply (fetch_paginated_data_without_total no_total_server "https://dummyjson.com/products" 30
           [("products", VList [VDict [("id", VInt 1)]])] (VDict [("id", VInt 1)]) [] 0);
    reflexivity.
Defined.

Lemma main_swallows_failures_witness :
  Extract.main reference_lib 1 (fun _ _ => Extract.RequestException) "2024-01-01T00:00:00"
    true [] "https://dummyjson.com/products" "products"
  = Some (Ok [("raw/products.json", "")]).
Proof.
  destruct (main_swallows_failures reference_lib (fun _ _ => Extract.RequestException)
              "2024-01-01T00:00:00" [] "https://dummyjson.com/products" "products")
    as (Hfail & _).
  apply (Hfail 0%nat). reflexivity.
Defined.

Definition two_products : list value := [VDict [("id", VInt 1)]; VDict [("id", VInt 2)]].

Lemma raw_file_hand_over_witness :
  exists rows,
    Transform.read_from_gcs
      (store_of "savannah"
         (snd (Extract.save_to_gcs reference_lib "2024-01-01T00:00:00" true [] two_products
                 "raw/products.json")))
      (Transform.full_gcs_path "savannah" "raw/products.json")
    = Transform.Lines (Extract.ndjson_content reference_lib "2024-01-01T00:00:00" two_products) /\
    Transform.read_loop reference_lib "products"
      (Extract.ndjson_content reference_lib "2024-01-01T00:00:00" two_products) [] = Ok rows /\
    List.length rows = 2%nat /\
    Forall (fun row => dict_get row "metadata_extraction_timestamp"
                       = Some (VStr "2024-01-01T00:00:00")) rows.
Proof.
  apply (raw_file_hand_over reference_lib "2024-01-01T00:00:00" "savannah" "raw/products.json"
           "products" [] two_products).
  - reflexivity.
  - vm_compute. reflexivity.
  - left. reflexivity.
  - repeat constructor; eexists; (split; [reflexivity | vm_compute; reflexivity]).
  - repeat constructor; vm_compute; reflexivity.
Defined.

(** A store with one blob of three lines, the first ended by carriage
    return and line feed, the second by a line feed. *)
Definition one_blob_store : Gcs.store :=
  Gcs.upload_from_string (fun _ _ => None) "savannah" "raw/products.json"
    ("a" ++ String (Str.byte 13) Extract.newline ++ "b" ++ Extract.newline ++ "c").

Lemma read_from_gcs_reads_the_blob_witness :
  Transform.read_from_gcs one_blob_store
    (Transform.full_gcs_path "savannah" "raw/products.json") = Transform.Lines ["a"; "b"; "c"] /\
  Transform.read_from_gcs one_blob_store
    (Transform.full_gcs_path "savannah" "raw/users.json") = Transform.NotFound.
Proof.
  split.
  - destruct (read_from_gcs_reads_the_blob one_blob_store "savannah" "raw/products.json"
                eq_refl eq_refl) as (H & _).
    rewrite H. vm_compute. reflexivity.
  - destruct (read_from_gcs_reads_the_blob one_blob_store "savannah" "raw/users.json"
                eq_refl eq_refl) as (H & _).
    rewrite H. vm_compute. reflexivity.
Defined.

Lemma gcs_location_of_path_witness :
  Load.gcs_location "gs://savannah/processed/products.csv"
  = Ok ("savannah", "processed/products.csv") /\
  Load.gcs_location "gs://savannah" = Raise ValueError /\
  Load.gcs_location "savannah/processed/products.csv" = Raise ValueError.
Proof.
  destruct (gcs_location_of_path "savannah" "processed/products.csv" eq_refl)
    as (Hok & Hbucket & Hscheme).
  split; [exact Hok |]. split; [exact Hbucket |].
  apply Hscheme. reflexivity.
Defined.

Lemma clean_tables_carry_cells_witness :
  exists out,
    Load.clean_carts_table reference_lib example_carts = Ok out /\
    columns out = carts_target /\
    Forall (fun r => exists raw, In raw (records example_carts) /\
                       Forall (carried reference_lib ["quantity"; "price"] raw r)
                              (combine carts_required carts_target))
           (records out).
Proof.
  destruct (Load.clean_carts_table reference_lib example_carts) as [out | e] eqn:H;
    [| vm_compute in H; discriminate].
  exists out. split; [reflexivity |].
  destruct (clean_tables_carry_cells reference_lib example_carts out) as (_ & _ & Hcarts).
  exact (Hcarts H).
Defined.

(** A products file without the price column. *)
Definition priceless_products : DataFrame :=
  {| columns := [ "sgk_product_id"; "product_id"; "product_title"; "product_category";
                  "product_brand"; "record_create_name"; "record_create_datetime";
                  "record_update_name"; "record_update_datetime"; "source_system_code" ];
     records := [] |}.

Lemma clean_tables_need_columns_witness :
  Load.clean_products_table reference_lib priceless_products
  = Raise (KeyError "product_price").
Proof.
  destruct (clean_tables_need_columns reference_lib priceless_products "product_price"
              eq_refl) as (Hproducts & _).
  destruct Hproducts as (c & _ & _ & Hraise); [simpl; tauto |].
  assert (Hc := Hraise). vm_compute in Hc. injection Hc as <-. exact Hraise.
Defined.
